(** * Weatherbot: the weather tool server and the tool-calling client

    A shallow embedding of

    - [weather-server-python/weather.py]: the three weather tools
      ([get_alerts], [get_forecast], [get_historical_weather]), the global
      and geocoding helpers and the [/chat] endpoint;
    - [mcp-client-python/client.py]: [process_query], the four provider
      adapters ([_process_with_claude], [_process_with_openai],
      [_process_with_llama], [_process_with_groq] with its
      [sanitize_messages]) and the presentation step of [chat_loop].

    Conventions.

    - A Python [str] is a [string]; each character stands for one code
      point of the Latin-1 range (0..255), so the degree sign of the
      weather templates is the single character 176. The model speaks of
      texts of that range only. Python leaves the range in two places of
      this program: [str.upper] takes the micro sign (181) and y with
      diaeresis (255) out of it, and [re.IGNORECASE] lets the letter s
      of a pattern match U+017F; both are noted where they are modelled.
    - Python values that travel through JSON bodies, message dictionaries
      and tool arguments are the inductive [value]; a [dict] is an
      association list in insertion order.
    - Exceptions are values of [exn]; a computation that may raise returns
      a [result].
    - Network and tool traffic goes through an oracle on an abstract world;
      every request is also recorded in a trace, so that theorems can count
      model requests and tool dispatches.
    - Diagnostic [print] calls of the adapters are not modelled. *)

From Stdlib Require Import String Ascii List ZArith Bool Arith Lia PrimFloat.
From Stdlib Require Import Numbers.DecimalString.
Import ListNotations.
Open Scope list_scope.
Open Scope string_scope.

(* ===================================================================== *)
(** * Python strings *)
(* ===================================================================== *)

Module PyStr.

Definition chr (n : nat) : ascii := ascii_of_nat n.
Definition ord (c : ascii) : nat := nat_of_ascii c.

Definition in_range (lo hi : nat) (c : ascii) : bool :=
  (lo <=? ord c)%nat && (ord c <=? hi)%nat.

(** [str.isspace] on one code point below 256: TAB..CR, FS..US, space,
    NEL (133) and NBSP (160). *)
Definition is_space (c : ascii) : bool :=
  in_range 9 13 c || in_range 28 32 c || (ord c =? 133)%nat || (ord c =? 160)%nat.

(** The line boundaries of [str.splitlines] below 256: LF, VT, FF, CR,
    FS, GS, RS and NEL. *)
Definition is_linebreak (c : ascii) : bool :=
  in_range 10 13 c || in_range 28 30 c || (ord c =? 133)%nat.

Definition lower_char (c : ascii) : ascii :=
  if in_range 65 90 c then chr (ord c + 32)
  else if in_range 192 222 c && negb (ord c =? 215)%nat then chr (ord c + 32)
  else c.

Fixpoint lower (s : string) : string :=
  match s with
  | EmptyString => EmptyString
  | String c s' => String (lower_char c) (lower s')
  end.

(** [str.upper] on the code points below 256. The sharp s (223) becomes
    "SS". The micro sign (181) and y with diaeresis (255) have their
    upper case outside the range (U+039C and U+0178), which a [string]
    cannot hold: they are left as they are, so [upper] is [str.upper]
    for the texts that hold neither of the two. *)
Definition upper_char (c : ascii) : string :=
  if in_range 97 122 c then String (chr (ord c - 32)) EmptyString
  else if in_range 224 254 c && negb (ord c =? 247)%nat
       then String (chr (ord c - 32)) EmptyString
  else if (ord c =? 223)%nat then "SS"
  else String c EmptyString.

Fixpoint upper (s : string) : string :=
  match s with
  | EmptyString => EmptyString
  | String c s' => upper_char c ++ upper s'
  end.

(** [s.startswith(p)] *)
Fixpoint startswith (p s : string) : bool :=
  match p, s with
  | EmptyString, _ => true
  | String a p', String b s' => Ascii.eqb a b && startswith p' s'
  | String _ _, EmptyString => false
  end.

(** [needle in hay] for two strings. *)
Fixpoint contains (needle hay : string) : bool :=
  startswith needle hay ||
  match hay with
  | EmptyString => false
  | String _ hay' => contains needle hay'
  end.

Fixpoint lstrip (s : string) : string :=
  match s with
  | EmptyString => EmptyString
  | String c s' => if is_space c then lstrip s' else s
  end.

Fixpoint rstrip (s : string) : string :=
  match s with
  | EmptyString => EmptyString
  | String c s' =>
      match rstrip s' with
      | EmptyString => if is_space c then EmptyString else String c EmptyString
      | r => String c r
      end
  end.

(** [s.strip()] *)
Definition strip (s : string) : string := rstrip (lstrip s).

(** [sep.join(parts)] for parts that are all [str]. *)
Fixpoint join (sep : string) (parts : list string) : string :=
  match parts with
  | [] => EmptyString
  | [x] => x
  | x :: rest => x ++ sep ++ join sep rest
  end.

(** [s.split()]: maximal runs of non-space characters. [cur] is the run
    being read, [None] between runs. *)
Fixpoint split_aux (cur : option string) (s : string) : list string :=
  match s with
  | EmptyString => match cur with Some w => [w] | None => [] end
  | String c s' =>
      if is_space c
      then match cur with
           | Some w => w :: split_aux None s'
           | None => split_aux None s'
           end
      else match cur with
           | Some w => split_aux (Some (w ++ String c EmptyString)) s'
           | None => split_aux (Some (String c EmptyString)) s'
           end
  end.

Definition split (s : string) : list string := split_aux None s.

(** [s.splitlines()]: [cur] is the line being read; [after_cr] says that
    the previous character was a CR, so that a LF now belongs to the same
    boundary. A last line is produced only when it is not empty. *)
Fixpoint splitlines_aux (after_cr : bool) (cur : string) (s : string) : list string :=
  match s with
  | EmptyString => match cur with EmptyString => [] | _ => [cur] end
  | String c s' =>
      if after_cr && (ord c =? 10)%nat then splitlines_aux false EmptyString s'
      else if is_linebreak c then cur :: splitlines_aux (ord c =? 13)%nat EmptyString s'
      else splitlines_aux false (cur ++ String c EmptyString) s'
  end.

Definition splitlines (s : string) : list string := splitlines_aux false EmptyString s.

(** Whether a string holds a line boundary. *)
Fixpoint has_linebreak (s : string) : bool :=
  match s with
  | EmptyString => false
  | String c s' => is_linebreak c || has_linebreak s'
  end.

Definition nl : string := String (chr 10) EmptyString.
Definition degree : string := String (chr 176) EmptyString.

(** Whether every character of [s] is white space. *)
Fixpoint all_space (s : string) : bool :=
  match s with
  | EmptyString => true
  | String c s' => is_space c && all_space s'
  end.

(** [s.endswith(suffix)]: some tail of [s] is [suffix]. *)
Fixpoint endswith (suffix s : string) : bool :=
  String.eqb suffix s ||
  match s with
  | EmptyString => false
  | String _ s' => endswith suffix s'
  end.

End PyStr.

(* ===================================================================== *)
(** * Python values, exceptions and the operations the program applies *)
(* ===================================================================== *)

Module Py.

Import PyStr.

(** The exception classes the program distinguishes in its handlers.
    [RequestsJSONDecodeError] is [requests.exceptions.JSONDecodeError],
    which derives from both [RequestException] and
    [json.JSONDecodeError]. *)
Inductive exn_class : Type :=
| KeyError | IndexError | TypeError | AttributeError | ValueError
| JSONDecodeError | RequestException | RequestsJSONDecodeError
| OtherError.

(** An exception: its class and [str(e)]. *)
Record exn : Type := mkExn { exn_cls : exn_class; exn_str : string }.

Inductive result (A : Type) : Type :=
| Ok (a : A)
| Raise (e : exn).
Arguments Ok {A} a.
Arguments Raise {A} e.

(** [except RequestException] *)
Definition is_RequestException (e : exn) : bool :=
  match exn_cls e with
  | RequestException | RequestsJSONDecodeError => true
  | _ => false
  end.

(** [except json.JSONDecodeError] *)
Definition is_JSONDecodeError (e : exn) : bool :=
  match exn_cls e with
  | JSONDecodeError | RequestsJSONDecodeError => true
  | _ => false
  end.

(** An object of a library class (an MCP content item, say): its class
    name, its [text] attribute when it has one, and its [str()]. *)
Record pyobj : Type := mkObj {
  obj_type : string;
  obj_text : option string;
  obj_str : string
}.

#[warnings="-register-all"]
Inductive value : Type :=
| VNone
| VBool (b : bool)
| VInt (n : Z)
| VFloat (f : float)
| VStr (s : string)
| VList (items : list value)
| VDict (entries : list (string * value))
| VObj (o : pyobj).

Definition dict : Type := list (string * value).

(** Built-ins of the Python library whose text output or parsing the
    program relies on; they are an interface of the model. *)
Class Builtins : Type := {
  (** [repr(v)], which is also [str(v)] when [v] is not a [str] *)
  repr : value -> string;
  (** [json.dumps(v)] *)
  json_dumps : value -> result string;
  (** [json.loads(s)] *)
  json_loads : string -> result value;
  (** [float(v)] *)
  to_float : value -> result float
}.

(** ** Truth value, type names *)

Definition truthy (v : value) : bool :=
  match v with
  | VNone => false
  | VBool b => b
  | VInt n => negb (n =? 0)%Z
  | VFloat f => negb (PrimFloat.eqb f 0%float)
  | VStr s => negb (String.eqb s "")
  | VList l => match l with [] => false | _ => true end
  | VDict d => match d with [] => false | _ => true end
  | VObj _ => true
  end.

Definition type_name (v : value) : string :=
  match v with
  | VNone => "NoneType"
  | VBool _ => "bool"
  | VInt _ => "int"
  | VFloat _ => "float"
  | VStr _ => "str"
  | VList _ => "list"
  | VDict _ => "dict"
  | VObj o => obj_type o
  end.

(** [v == s] for a string literal [s] *)
Definition eq_str (v : value) (s : string) : bool :=
  match v with
  | VStr t => String.eqb t s
  | _ => false
  end.

Definition quote (k : string) : string := "'" ++ k ++ "'".

Definition key_error {A} (k : string) : result A :=
  Raise (mkExn KeyError (quote k)).
Definition type_error {A} (msg : string) : result A :=
  Raise (mkExn TypeError msg).
Definition attribute_error {A} (v : value) (attr : string) : result A :=
  Raise (mkExn AttributeError
           (quote (type_name v) ++ " object has no attribute " ++ quote attr)).

(** ** Dictionaries (insertion ordered) *)

Fixpoint dict_get (d : dict) (k : string) : option value :=
  match d with
  | [] => None
  | (k', v) :: d' => if String.eqb k' k then Some v else dict_get d' k
  end.

Definition dict_has (d : dict) (k : string) : bool :=
  match dict_get d k with Some _ => true | None => false end.

(** [d.get(k, default)] *)
Definition dict_get_default (d : dict) (k : string) (default : value) : value :=
  match dict_get d k with Some v => v | None => default end.

(** [d[k] = v]: an existing key keeps its place. *)
Fixpoint dict_set (d : dict) (k : string) (v : value) : dict :=
  match d with
  | [] => [(k, v)]
  | (k', v') :: d' =>
      if String.eqb k' k then (k', v) :: d' else (k', v') :: dict_set d' k v
  end.

(** [d.pop(k)] on a key that is present, the value dropped. *)
Definition dict_remove (d : dict) (k : string) : dict :=
  filter (fun kv => negb (String.eqb (fst kv) k)) d.

(** ** Subscripts, membership, iteration *)

Definition not_subscriptable {A} (v : value) : result A :=
  type_error (quote (type_name v) ++ " object is not subscriptable").

(** [v[k]] for a string literal [k] *)
Definition getitem (v : value) (k : string) : result value :=
  match v with
  | VDict d => match dict_get d k with Some x => Ok x | None => key_error k end
  | VList _ => type_error "list indices must be integers or slices, not str"
  | VStr _ => type_error "string indices must be integers, not 'str'"
  | _ => not_subscriptable v
  end.

(** [v[0]] *)
Definition getitem0 (v : value) : result value :=
  match v with
  | VList (x :: _) => Ok x
  | VList [] => Raise (mkExn IndexError "list index out of range")
  | VStr (String c _) => Ok (VStr (String c EmptyString))
  | VStr EmptyString => Raise (mkExn IndexError "string index out of range")
  | VDict _ => Raise (mkExn KeyError "0")
  | _ => not_subscriptable v
  end.

(** [v.get(k)]: only a [dict] has the method. *)
Definition get_method (v : value) (k : string) (default : value) : result value :=
  match v with
  | VDict d => Ok (dict_get_default d k default)
  | _ => attribute_error v "get"
  end.

Definition chars (s : string) : list value :=
  map (fun c => VStr (String c EmptyString)) (list_ascii_of_string s).

(** The items a [for] loop (or a comprehension) draws from [v]. *)
Definition iterate (v : value) : result (list value) :=
  match v with
  | VList l => Ok l
  | VDict d => Ok (map (fun kv => VStr (fst kv)) d)
  | VStr s => Ok (chars s)
  | _ => type_error (quote (type_name v) ++ " object is not iterable")
  end.

(** [k in v] for a string literal [k] *)
Definition contains_key (k : string) (v : value) : result bool :=
  match v with
  | VDict d => Ok (dict_has d k)
  | VList l => Ok (existsb (fun x => eq_str x k) l)
  | VStr s => Ok (contains k s)
  | _ => type_error ("argument of type " ++ quote (type_name v) ++ " is not iterable")
  end.

(** [v[:n]]; a [dict] refuses a slice (as [TypeError] before Python 3.12,
    as [KeyError] from it on: the class is the older one here). *)
Definition slice_to (n : nat) (v : value) : result value :=
  match v with
  | VList l => Ok (VList (firstn n l))
  | VStr s => Ok (VStr (substring 0 (Nat.min n (String.length s)) s))
  | VDict _ => type_error "unhashable type: 'slice'"
  | _ => not_subscriptable v
  end.

(** ** [str()], string formatting and joining *)

Section WithBuiltins.
Context {B : Builtins}.

(** [str(v)], which is what an f-string field [{v}] produces. *)
Definition str (v : value) : string :=
  match v with
  | VStr s => s
  | VObj o => obj_str o
  | _ => repr v
  end.

End WithBuiltins.

(** [sep.join(items)] over values: every item must be a [str]. *)
Fixpoint strings_of (i : nat) (items : list value) : result (list string) :=
  match items with
  | [] => Ok []
  | VStr s :: rest =>
      match strings_of (S i) rest with
      | Ok l => Ok (s :: l)
      | Raise e => Raise e
      end
  | v :: _ =>
      type_error ("sequence item " ++ NilEmpty.string_of_uint (Nat.to_uint i)
                  ++ ": expected str instance, " ++ type_name v ++ " found")
  end.

Definition join_values (sep : string) (items : list value) : result string :=
  match strings_of 0 items with
  | Ok l => Ok (join sep l)
  | Raise e => Raise e
  end.

(** A list comprehension [[f(x) for x in items]] whose body may raise. *)
Fixpoint map_result {X Y} (f : X -> result Y) (items : list X) : result (list Y) :=
  match items with
  | [] => Ok []
  | x :: rest =>
      match f x with
      | Raise e => Raise e
      | Ok y => match map_result f rest with
                | Raise e => Raise e
                | Ok ys => Ok (y :: ys)
                end
      end
  end.

(** ** Computations: state passing with exceptions

    A raised exception leaves the state as it was at the raise, as in
    Python, where the message list and the traffic already sent stay. *)

Definition M (S A : Type) : Type := S -> result A * S.

Definition ret {S A} (a : A) : M S A := fun s => (Ok a, s).
Definition raise {S A} (e : exn) : M S A := fun s => (Raise e, s).
Definition bind {S A B} (c : M S A) (k : A -> M S B) : M S B :=
  fun s => match c s with
           | (Ok a, s') => k a s'
           | (Raise e, s') => (Raise e, s')
           end.
Definition lift {S A} (r : result A) : M S A := fun s => (r, s).

(** [try: c  except <handles>: handler] *)
Definition try_except {S A} (c : M S A) (handles : exn -> bool)
    (handler : exn -> M S A) : M S A :=
  fun s => match c s with
           | (Ok a, s') => (Ok a, s')
           | (Raise e, s') => if handles e then handler e s' else (Raise e, s')
           end.

(** [except Exception] *)
Definition any_exception (e : exn) : bool := true.

(** [for x in items: acc = body(acc, x)] *)
Fixpoint for_each {S A X} (items : list X) (acc : A)
    (body : A -> X -> M S A) : M S A :=
  match items with
  | [] => ret acc
  | x :: rest => bind (body acc x) (fun acc' => for_each rest acc' body)
  end.

End Py.

Declare Scope py_scope.
Delimit Scope py_scope with py.
Notation "x <- c ;; k" := (Py.bind c (fun x => k))
  (at level 61, c at next level, right associativity) : py_scope.
Notation "c ;;; k" := (Py.bind c (fun _ => k))
  (at level 61, right associativity) : py_scope.

(* ===================================================================== *)
(** * The weather server: [weather.py] *)
(* ===================================================================== *)

Module Weather.

Import PyStr Py.
Local Open Scope py_scope.

Definition NWS_API_BASE : string := "https://api.weather.gov".
Definition USER_AGENT : string := "weather-app/1.0".

Definition unable_alerts : string := "Unable to fetch alerts or no alerts found.".
Definition no_alerts : string := "No active alerts for this state.".
Definition unable_forecast : string := "Unable to fetch forecast data for this location.".
Definition unable_detailed : string := "Unable to fetch detailed forecast.".
Definition unable_global : string := "Unable to fetch global forecast.".
Definition separator : string := nl ++ "---" ++ nl.

(** The fixed coordinate table of [chat]. *)
#[warnings="-inexact-float"]
Definition location_map : list (string * (float * float)) :=
  [ ("alabama", (32.8067, -86.7911));
    ("alaska", (61.3707, -152.4044));
    ("arizona", (33.7298, -111.4312));
    ("arkansas", (34.9697, -92.3731));
    ("california", (36.7783, -119.4179));
    ("colorado", (39.5501, -105.7821));
    ("connecticut", (41.6032, -73.0877));
    ("delaware", (38.9108, -75.5277));
    ("florida", (27.9944, -81.7603));
    ("georgia", (33.0406, -83.6431));
    ("hawaii", (21.0943, -157.4983));
    ("idaho", (44.2405, -114.4788));
    ("illinois", (40.3495, -88.9861));
    ("indiana", (39.8494, -86.2583));
    ("iowa", (42.0115, -93.2105));
    ("kansas", (38.5266, -96.7265));
    ("kentucky", (37.6681, -84.6701));
    ("louisiana", (31.1695, -91.8678));
    ("maine", (44.6939, -69.3819));
    ("maryland", (39.0639, -76.8021));
    ("massachusetts", (42.2302, -71.5301));
    ("michigan", (43.3266, -84.5361));
    ("minnesota", (45.6945, -93.9002));
    ("mississippi", (32.7416, -89.6787));
    ("missouri", (38.4561, -92.2884));
    ("montana", (46.9219, -110.4544));
    ("nebraska", (41.1254, -98.2681));
    ("nevada", (38.3135, -117.0554));
    ("new hampshire", (43.4525, -71.5639));
    ("new jersey", (40.2989, -74.5210));
    ("new mexico", (34.8405, -106.2485));
    ("new york", (40.7128, -74.0060));
    ("north carolina", (35.6301, -79.8064));
    ("north dakota", (47.5289, -99.7840));
    ("ohio", (40.3888, -82.7649));
    ("oklahoma", (35.5653, -96.9289));
    ("oregon", (44.5720, -122.0709));
    ("pennsylvania", (40.5908, -77.2098));
    ("rhode island", (41.6809, -71.5118));
    ("south carolina", (33.8569, -80.9450));
    ("south dakota", (44.2998, -99.4388));
    ("tennessee", (35.7478, -86.6923));
    ("texas", (31.0545, -97.5635));
    ("utah", (40.1500, -111.8624));
    ("vermont", (44.0459, -72.7107));
    ("virginia", (37.7693, -78.1700));
    ("washington", (47.4009, -121.4905));
    ("west virginia", (38.4912, -80.9546));
    ("wisconsin", (44.2685, -89.6165));
    ("wyoming", (42.7559, -107.3025));
    ("district of columbia", (38.8974, -77.0268));
    ("newyork", (40.7128, -74.0060)) ]%float.

Fixpoint lookup_location (table : list (string * (float * float))) (k : string)
    : option (float * float) :=
  match table with
  | [] => None
  | (k', c) :: rest => if String.eqb k' k then Some c else lookup_location rest k
  end.

(** [parts[-1]] and [parts[-2]] *)
Definition index_error {A} : result A :=
  Raise (mkExn IndexError "list index out of range").

Definition last1 (parts : list string) : result string :=
  match rev parts with
  | x :: _ => Ok x
  | [] => index_error
  end.

Definition last2 (parts : list string) : result string :=
  match rev parts with
  | _ :: x :: _ => Ok x
  | _ => index_error
  end.

Section Server.

Context {B : Builtins}.

(** The upstream services. [http_get url params w] stands for
    [client.get(url, params=..., timeout=...)], [raise_for_status()] and
    [json()] in turn: the decoded body, or the exception one of the three
    raised, and the world after the exchange. *)
Variable W : Type.
Variable http_get : string -> dict -> W -> result value * W.

(** The server's state: the world and the URLs requested so far. *)
Record state : Type := mkState { world : W; sent : list string }.

Definition fetch (url : string) (params : dict) : M state value :=
  fun s =>
    let (r, w') := http_get url params (world s) in
    (r, mkState w' (sent s ++ [url])).

(** [make_nws_request]: the decoded body, [None] on any exception. *)
Definition make_nws_request (url : string) : M state value :=
  try_except (fetch url []) any_exception (fun _ => ret VNone).

(** [format_alert] *)
Definition format_alert (feature : value) : result string :=
  match getitem feature "properties" with
  | Raise e => Raise e
  | Ok props =>
    match get_method props "event" (VStr "Unknown") with
    | Raise e => Raise e
    | Ok event =>
    match get_method props "areaDesc" (VStr "Unknown") with
    | Raise e => Raise e
    | Ok area =>
    match get_method props "severity" (VStr "Unknown") with
    | Raise e => Raise e
    | Ok severity =>
    match get_method props "description" (VStr "No description available") with
    | Raise e => Raise e
    | Ok description =>
    match get_method props "instruction" (VStr "No specific instructions provided") with
    | Raise e => Raise e
    | Ok instruction =>
        Ok (nl ++ "Event: " ++ str event ++ nl
            ++ "Area: " ++ str area ++ nl
            ++ "Severity: " ++ str severity ++ nl
            ++ "Description: " ++ str description ++ nl
            ++ "Instructions: " ++ str instruction ++ nl)
    end end end end end
  end.

(** [get_alerts] *)
Definition get_alerts (state_code : string) : M state string :=
  let url := NWS_API_BASE ++ "/alerts/active/area/" ++ state_code in
  data <- make_nws_request url ;;
  if negb (truthy data) then ret unable_alerts else
  has <- lift (contains_key "features" data) ;;
  if negb has then ret unable_alerts else
  features <- lift (getitem data "features") ;;
  if negb (truthy features) then ret no_alerts else
  items <- lift (iterate features) ;;
  alerts <- lift (map_result format_alert items) ;;
  ret (join separator alerts).

(** The f-string of one forecast period. *)
Definition format_period (period : value) : result string :=
  match getitem period "name" with
  | Raise e => Raise e
  | Ok name =>
    match getitem period "temperature" with
    | Raise e => Raise e
    | Ok temperature =>
    match getitem period "temperatureUnit" with
    | Raise e => Raise e
    | Ok unit_ =>
    match getitem period "windSpeed" with
    | Raise e => Raise e
    | Ok wind_speed =>
    match getitem period "windDirection" with
    | Raise e => Raise e
    | Ok wind_direction =>
    match getitem period "detailedForecast" with
    | Raise e => Raise e
    | Ok detailed =>
        Ok (nl ++ str name ++ ":" ++ nl
            ++ "Temperature: " ++ str temperature ++ degree ++ str unit_ ++ nl
            ++ "Wind: " ++ str wind_speed ++ " " ++ str wind_direction ++ nl
            ++ "Forecast: " ++ str detailed ++ nl)
    end end end end end
  end.

(** [get_forecast] *)
Definition get_forecast (latitude longitude : float) : M state string :=
  let points_url :=
    NWS_API_BASE ++ "/points/" ++ str (VFloat latitude) ++ "," ++ str (VFloat longitude) in
  points_data <- make_nws_request points_url ;;
  if negb (truthy points_data) then ret unable_forecast else
  properties <- lift (getitem points_data "properties") ;;
  forecast_url <- lift (getitem properties "forecast") ;;
  (* the URL is handed to httpx as it is; a value that is not a [str]
     makes the request raise inside [make_nws_request], which returns
     [None] *)
  forecast_data <-
    match forecast_url with
    | VStr u => make_nws_request u
    | _ => ret VNone
    end ;;
  if negb (truthy forecast_data) then ret unable_detailed else
  properties' <- lift (getitem forecast_data "properties") ;;
  periods <- lift (getitem properties' "periods") ;;
  first5 <- lift (slice_to 5 periods) ;;
  items <- lift (iterate first5) ;;
  forecasts <- lift (map_result format_period items) ;;
  ret (join separator forecasts).

(** [get_global_forecast]: the whole body is under [except Exception]. *)
Definition get_global_forecast (lat lon : float) : M state string :=
  let url :=
    "https://api.open-meteo.com/v1/forecast?latitude=" ++ str (VFloat lat)
    ++ "&longitude=" ++ str (VFloat lon)
    ++ "&current_weather=true&hourly=temperature_2m,precipitation,weathercode,wind_speed_10m" in
  try_except
    (data <- fetch url [] ;;
     has <- lift (contains_key "current_weather" data) ;;
     if has then
       cw <- lift (getitem data "current_weather") ;;
       temperature <- lift (getitem cw "temperature") ;;
       windspeed <- lift (getitem cw "windspeed") ;;
       weathercode <- lift (getitem cw "weathercode") ;;
       ret ("Current Weather:" ++ nl
            ++ "Temperature: " ++ str temperature ++ degree ++ "C" ++ nl
            ++ "Wind: " ++ str windspeed ++ " km/h" ++ nl
            ++ "Weather Code: " ++ str weathercode ++ nl)
     else ret unable_global)
    any_exception
    (fun _ => ret unable_global).

(** [get_historical_weather]: mock data, no request. *)
Definition get_historical_weather (latitude longitude : float) : M state string :=
  ret (nl ++ "Yesterday at (" ++ str (VFloat latitude) ++ ", "
       ++ str (VFloat longitude) ++ "):" ++ nl
       ++ "Temperature: 68" ++ degree ++ "F" ++ nl
       ++ "Wind: 5 mph NW" ++ nl
       ++ "Conditions: Partly cloudy, no precipitation." ++ nl).

(** [geocode_location] *)
Definition geocode_location (location : string) : M state (option (float * float)) :=
  let url := "https://nominatim.openstreetmap.org/search" in
  let params := [("q", VStr location); ("format", VStr "json"); ("limit", VInt 1)] in
  try_except
    (data <- fetch url params ;;
     if truthy data then
       first <- lift (getitem0 data) ;;
       lat_v <- lift (getitem first "lat") ;;
       lat <- lift (to_float lat_v) ;;
       first' <- lift (getitem0 data) ;;
       lon_v <- lift (getitem first' "lon") ;;
       lon <- lift (to_float lon_v) ;;
       ret (Some (lat, lon))
     else ret None)
    any_exception
    (fun _ => ret None).

(** The two steps both forecast paths of [chat] share: NWS first, the
    global service when NWS could not place the point. *)
Definition nws_then_global (lat lon : float) : M state string :=
  nws_result <- get_forecast lat lon ;;
  if negb (contains unable_forecast nws_result) then ret nws_result
  else get_global_forecast lat lon.

Definition parse_coordinates (parts : list string) : M state (float * float) :=
  a <- lift (last2 parts) ;;
  lat <- lift (to_float (VStr a)) ;;
  b <- lift (last1 parts) ;;
  lon <- lift (to_float (VStr b)) ;;
  ret (lat, lon).

Definition usage : string :=
  "Try: alerts in <STATE>, forecast for <LAT> <LON>, or history for <LAT> <LON>".

(** [chat]: the [response] field of the JSON reply to [POST /chat] with
    body [data]. *)
Definition chat (data : value) : M state string :=
  query_v <- lift (get_method data "query" (VStr "")) ;;
  match query_v with
  | VStr query =>
      if startswith "alerts in" (lower query) then
        last <- lift (last1 (split query)) ;;
        get_alerts (upper last)
      else if startswith "forecast for" (lower query) then
        let parts := split query in
        try_except
          (c <- parse_coordinates parts ;;
           nws_then_global (fst c) (snd c))
          any_exception
          (fun _ =>
             let location := strip (join " " (skipn 2 parts)) in
             match lookup_location location_map (lower location) with
             | Some (lat, lon) => nws_then_global lat lon
             | None =>
                 coords <- geocode_location location ;;
                 match coords with
                 | Some (lat, lon) => nws_then_global lat lon
                 | None =>
                     ret ("Unknown location '" ++ location
                          ++ "'. Try: forecast for <lat> <lon> or forecast for <city/state> (e.g. NewYork)")
                 end
             end)
      else if startswith "history for" (lower query) then
        let parts := split query in
        try_except
          (c <- parse_coordinates parts ;;
           get_historical_weather (fst c) (snd c))
          any_exception
          (fun _ => ret "Invalid coordinates. Use: history for <lat> <lon>")
      else ret usage
  | v => lift (attribute_error v "lower")
  end.

(** ** The addresses the tools ask, and the traffic of a computation *)

Definition alerts_url (state_code : string) : string :=
  NWS_API_BASE ++ "/alerts/active/area/" ++ state_code.

Definition points_url (latitude longitude : float) : string :=
  NWS_API_BASE ++ "/points/" ++ str (VFloat latitude) ++ "," ++ str (VFloat longitude).

Definition global_url (lat lon : float) : string :=
  "https://api.open-meteo.com/v1/forecast?latitude=" ++ str (VFloat lat)
  ++ "&longitude=" ++ str (VFloat lon)
  ++ "&current_weather=true&hourly=temperature_2m,precipitation,weathercode,wind_speed_10m".

Definition geocode_url : string := "https://nominatim.openstreetmap.org/search".

Definition geocode_params (location : string) : dict :=
  [("q", VStr location); ("format", VStr "json"); ("limit", VInt 1)].

(** The text of [get_global_forecast] for a [current_weather] object. *)
Definition current_weather_text (temperature windspeed weathercode : value) : string :=
  "Current Weather:" ++ nl
  ++ "Temperature: " ++ str temperature ++ degree ++ "C" ++ nl
  ++ "Wind: " ++ str windspeed ++ " km/h" ++ nl
  ++ "Weather Code: " ++ str weathercode ++ nl.

(** The text of [get_historical_weather]. *)
Definition historical_text (latitude longitude : float) : string :=
  nl ++ "Yesterday at (" ++ str (VFloat latitude) ++ ", "
  ++ str (VFloat longitude) ++ "):" ++ nl
  ++ "Temperature: 68" ++ degree ++ "F" ++ nl
  ++ "Wind: 5 mph NW" ++ nl
  ++ "Conditions: Partly cloudy, no precipitation." ++ nl.

(** The answer of [chat] for a place it cannot find. *)
Definition unknown_location (location : string) : string :=
  "Unknown location '" ++ location
  ++ "'. Try: forecast for <lat> <lon> or forecast for <city/state> (e.g. NewYork)".

Definition invalid_coordinates : string :=
  "Invalid coordinates. Use: history for <lat> <lon>".

(** The text of [format_alert] for the five fields of an alert. *)
Definition alert_text (event area severity description instruction : value) : string :=
  nl ++ "Event: " ++ str event ++ nl
  ++ "Area: " ++ str area ++ nl
  ++ "Severity: " ++ str severity ++ nl
  ++ "Description: " ++ str description ++ nl
  ++ "Instructions: " ++ str instruction ++ nl.

(** The place name [chat] looks up for a forecast query. *)
Definition location_of (query : string) : string :=
  strip (join " " (skipn 2 (split query))).

(** What [chat] does once the words of a forecast query are not two
    numbers (the body of its [except] clause): the table first, the
    geocoder next. *)
Definition forecast_by_name (location : string) : M state string :=
  match lookup_location location_map (lower location) with
  | Some (lat, lon) => nws_then_global lat lon
  | None =>
      coords <- geocode_location location ;;
      match coords with
      | Some (lat, lon) => nws_then_global lat lon
      | None =>
          ret ("Unknown location '" ++ location
               ++ "'. Try: forecast for <lat> <lon> or forecast for <city/state> (e.g. NewYork)")
      end
  end.

(** Whether an alert feature holds the [properties] object that
    [format_alert] reads. *)
Definition has_properties (feature : value) : bool :=
  match feature with
  | VDict d =>
      match dict_get d "properties" with
      | Some (VDict _) => true
      | _ => false
      end
  | _ => false
  end.

(** A failed exchange and an empty body look the same to the caller of
    [make_nws_request]. *)
Definition no_body (r : result value) : Prop :=
  match r with
  | Raise _ => True
  | Ok body => truthy body = false
  end.

(** From [s], the computation [c] sends the requests [new], in order. *)
Definition sends {A} (c : M state A) (s : state) (new : list string) : Prop :=
  sent (snd (c s)) = (sent s ++ new)%list.

(** Whatever the state, [c] sends at most [n] requests. *)
Definition sends_at_most {A} (n : nat) (c : M state A) : Prop :=
  forall s, exists new, sends c s new /\ List.length new <= n.

End Server.

End Weather.

(* ===================================================================== *)
(** * Regular expressions, for the placeholder pattern of [chat_loop] *)
(* ===================================================================== *)

Module Regex.

Import PyStr.

Inductive regex : Type :=
| Void
| Eps
| Chr (p : ascii -> bool)
| Cat (r1 r2 : regex)
| Alt (r1 r2 : regex)
| Star (r : regex).

Fixpoint nullable (r : regex) : bool :=
  match r with
  | Void => false
  | Eps => true
  | Chr _ => false
  | Cat r1 r2 => nullable r1 && nullable r2
  | Alt r1 r2 => nullable r1 || nullable r2
  | Star _ => true
  end.

(** The derivative of [r] by the character [c]. *)
Fixpoint deriv (c : ascii) (r : regex) : regex :=
  match r with
  | Void => Void
  | Eps => Void
  | Chr p => if p c then Eps else Void
  | Cat r1 r2 =>
      if nullable r1 then Alt (Cat (deriv c r1) r2) (deriv c r2)
      else Cat (deriv c r1) r2
  | Alt r1 r2 => Alt (deriv c r1) (deriv c r2)
  | Star r1 => Cat (deriv c r1) (Star r1)
  end.

(** [r] matches the whole of [s]. *)
Fixpoint fullmatch (r : regex) (s : string) : bool :=
  match s with
  | EmptyString => nullable r
  | String c s' => fullmatch (deriv c r) s'
  end.

Definition opt (r : regex) : regex := Alt r Eps.
Definition any : regex := Chr (fun _ => true).

(** A literal under [re.IGNORECASE]: a character matches when its
    lower-case form is that of the literal's character. For the code
    points below 256 this is what [re] does. Beyond them [re] also lets
    a letter match the characters that share its case folding (s and
    U+017F, for the literals of the pattern below); a [string] holds no
    such character. *)
Fixpoint lit_ci (s : string) : regex :=
  match s with
  | EmptyString => Eps
  | String x s' =>
      Cat (Chr (fun c => Ascii.eqb (lower_char c) (lower_char x))) (lit_ci s')
  end.

(** [$] without [re.MULTILINE], as the last item of a pattern: the end of
    the string, or the newline that ends it. *)
Definition dollar : regex := opt (Chr (fun c => (ord c =? 10)%nat)).

(** [^<tool-use.*?>.*?</tool-use>$|^<tool-use\s*/?>$] with
    [re.IGNORECASE | re.DOTALL] *)
Definition tool_use_pattern : regex :=
  Alt (Cat (lit_ci "<tool-use")
        (Cat (Star any)
          (Cat (lit_ci ">")
            (Cat (Star any)
              (Cat (lit_ci "</tool-use>") dollar)))))
      (Cat (lit_ci "<tool-use")
        (Cat (Star (Chr is_space))
          (Cat (opt (lit_ci "/"))
            (Cat (lit_ci ">") dollar)))).

(** [pattern.match(s)] for a pattern that ends in [$]: a match from the
    start of [s] that reaches its end. *)
Definition re_match (r : regex) (s : string) : bool := fullmatch r s.

(** The texts a pattern matches in full: the meaning the matcher is
    measured against. *)
Inductive matches : regex -> string -> Prop :=
| MEps : matches Eps EmptyString
| MChr (p : ascii -> bool) (c : ascii) :
    p c = true -> matches (Chr p) (String c EmptyString)
| MCat (r1 r2 : regex) (s1 s2 : string) :
    matches r1 s1 -> matches r2 s2 -> matches (Cat r1 r2) (s1 ++ s2)
| MAltL (r1 r2 : regex) (s : string) : matches r1 s -> matches (Alt r1 r2) s
| MAltR (r1 r2 : regex) (s : string) : matches r2 s -> matches (Alt r1 r2) s
| MStar0 (r : regex) : matches (Star r) EmptyString
| MStarS (r : regex) (s1 s2 : string) :
    matches r s1 -> matches (Star r) s2 -> matches (Star r) (s1 ++ s2).

End Regex.

(* ===================================================================== *)
(** * The client: [client.py] *)
(* ===================================================================== *)

Module Client.

Import PyStr Py.
Local Open Scope py_scope.

Inductive provider : Type := Anthropic | OpenAI | Llama | Groq.

(** A tool as [session.list_tools()] describes it. *)
Record tool : Type := mkTool {
  tool_name : string;
  tool_description : value;
  tool_inputSchema : value
}.

(** A content block of an Anthropic reply. A [tool_use] block of the SDK
    has no [text] attribute; the adapter still asks for one, so the block
    carries it as an option. *)
Inductive block : Type :=
| TextBlock (text : string)
| ToolUseBlock (name : string) (input : value) (text : option string)
| OtherBlock (type_ : string).

(** An OpenAI reply: the [message] of each of its [choices]. *)
Record oa_tool_call : Type := mkToolCall {
  tc_id : string;
  tc_name : string;
  tc_arguments : string
}.

Record oa_message : Type := mkMessage {
  oa_content : option string;
  oa_tool_calls : option (list oa_tool_call)
}.

(** What the client sends out, in order. *)
Inductive event : Type :=
| ListTools
| SdkRequest (p : provider) (messages : list dict) (tools : option (list dict))
| Post (url : string) (payload : dict)
| ToolCall (name : value) (args : value).

Definition is_model_request (e : event) : bool :=
  match e with
  | SdkRequest _ _ _ | Post _ _ => true
  | _ => false
  end.

Definition is_tool_call (e : event) : bool :=
  match e with
  | ToolCall _ _ => true
  | _ => false
  end.

Definition calling_prefix : string := "[Calling tool ".
Definition sorry_prefix : string := "Sorry, I encountered an error".
Definition follow_up_error : string := "Error getting follow-up response: ".
Definition tool_result_label : string := "[Tool Result] ".

(** [f"Error getting follow-up response: {str(e)}"] *)
Definition follow_up_text (e : exn) : string := follow_up_error ++ exn_str e.

Definition groq_url : string := "https://api.groq.com/openai/v1/chat/completions".
Definition llama_url : string := "https://api.together.xyz/v1/chat/completions".

(** [try] with several [except] clauses: the first clause whose class
    matches handles the exception. *)
Fixpoint first_handler {S A} (e : exn)
    (clauses : list ((exn -> bool) * (exn -> M S A))) : option (M S A) :=
  match clauses with
  | [] => None
  | (handles, handler) :: rest =>
      if handles e then Some (handler e) else first_handler e rest
  end.

Definition try_clauses {S A} (c : M S A)
    (clauses : list ((exn -> bool) * (exn -> M S A))) : M S A :=
  fun s => match c s with
           | (Ok a, s') => (Ok a, s')
           | (Raise e, s') =>
               match first_handler e clauses with
               | Some h => h s'
               | None => (Raise e, s')
               end
           end.

Section Adapters.

Context {B : Builtins}.

(** The world outside the client: the MCP session and the model
    providers. Each oracle gives what the call returns, or the exception
    it raises, and the world after it.
    - [list_tools]: [session.list_tools()], the [tools] of the reply;
    - [call_tool name args]: [session.call_tool(name, args)], the
      [content] of the result;
    - [anthropic_create], [openai_create]: the SDKs'
      [messages.create] and [chat.completions.create];
    - [http_post url payload]: [requests.post], [raise_for_status()] and
      [json()] in turn. *)
Variable W : Type.
Variable list_tools : W -> result (list tool) * W.
Variable call_tool : value -> value -> W -> result value * W.
Variable anthropic_create : list dict -> option (list dict) -> W -> result (list block) * W.
Variable openai_create : list dict -> option (list dict) -> W -> result (list oa_message) * W.
Variable http_post : string -> dict -> W -> result value * W.

(** The state of one [process_query]: the world, what was sent, and the
    [messages] list the adapters append to. *)
Record state : Type := mkState {
  world : W;
  trace : list event;
  messages : list dict
}.

Definition perform {A} (ev : event) (call : W -> result A * W) : M state A :=
  fun s =>
    let (r, w') := call (world s) in
    (r, mkState w' (trace s ++ [ev]) (messages s)).

Definition get_messages : M state (list dict) :=
  fun s => (Ok (messages s), s).

(** [messages.append(m)] *)
Definition append_message (m : dict) : M state unit :=
  fun s => (Ok tt, mkState (world s) (trace s) (messages s ++ [m])).

Definition do_call_tool (name args : value) : M state value :=
  perform (ToolCall name args) (call_tool name args).

Definition do_post (url : string) (payload : dict) : M state value :=
  perform (Post url payload) (http_post url payload).

(** The marker [f"[Calling tool {tool_name} with args {tool_args}]"] *)
Definition calling_marker (tool_name tool_args : value) : string :=
  calling_prefix ++ str tool_name ++ " with args " ++ str tool_args ++ "]".

(** ** [_process_with_claude] *)

(** [response.content[0].text] *)
Definition first_block_text (content : list block) : result string :=
  match content with
  | [] => Raise (mkExn IndexError "list index out of range")
  | TextBlock t :: _ => Ok t
  | ToolUseBlock _ _ (Some t) :: _ => Ok t
  | ToolUseBlock _ _ None :: _ =>
      Raise (mkExn AttributeError "'ToolUseBlock' object has no attribute 'text'")
  | OtherBlock ty :: _ =>
      Raise (mkExn AttributeError (quote ty ++ " object has no attribute 'text'"))
  end.

Definition claude_sorry (e : exn) : string :=
  sorry_prefix ++ " when connecting to Claude: " ++ exn_str e.

(** The body of [for content in response.content]. *)
Definition claude_block (final_text : list string) (content : block)
    : M state (list string) :=
  match content with
  | TextBlock t => ret (final_text ++ [t])%list
  | ToolUseBlock tool_name tool_args text =>
      result_content <- do_call_tool (VStr tool_name) tool_args ;;
      let final_text := (final_text ++ [calling_marker (VStr tool_name) tool_args])%list in
      match text with
      | Some t =>
          if negb (String.eqb t "")
          then append_message [("role", VStr "assistant"); ("content", VStr t)]
          else ret tt
      | None => ret tt
      end ;;;
      append_message [("role", VStr "user"); ("content", result_content)] ;;;
      try_except
        (msgs <- get_messages ;;
         response <- perform (SdkRequest Anthropic msgs None) (anthropic_create msgs None) ;;
         t <- lift (first_block_text response) ;;
         ret (final_text ++ [t])%list)
        any_exception
        (fun e => ret (final_text ++ [follow_up_text e])%list)
  | OtherBlock _ => ret final_text
  end.

Definition process_with_claude (available_tools : list dict) : M state string :=
  first <-
    try_except
      (msgs <- get_messages ;;
       response <- perform (SdkRequest Anthropic msgs (Some available_tools))
                     (anthropic_create msgs (Some available_tools)) ;;
       ret (inr response))
      any_exception
      (fun e => ret (inl (claude_sorry e))) ;;
  match first with
  | inl sorry => ret sorry
  | inr content =>
      final_text <- for_each content [] claude_block ;;
      ret (join nl final_text)
  end.

(** ** [_process_with_openai] *)

(** The tool declaration of the OpenAI format, for one entry of
    [available_tools]. *)
Definition function_tool (t : dict) : result dict :=
  match dict_get t "name", dict_get t "description", dict_get t "input_schema" with
  | Some n, Some d, Some p =>
      Ok [("type", VStr "function");
          ("function", VDict [("name", n); ("description", d); ("parameters", p)])]
  | None, _, _ => key_error "name"
  | _, None, _ => key_error "description"
  | _, _, None => key_error "input_schema"
  end.

Definition openai_sorry (e : exn) : string :=
  sorry_prefix ++ " when connecting to OpenAI: " ++ exn_str e.

Definition option_str (o : option string) : value :=
  match o with Some s => VStr s | None => VNone end.

(** [response.choices[0].message] *)
Definition first_choice (choices : list oa_message) : result oa_message :=
  match choices with
  | m :: _ => Ok m
  | [] => Raise (mkExn IndexError "list index out of range")
  end.

(** The body of [for tool_call in response_message.tool_calls]. *)
Definition openai_tool_round (final_text : list value) (tool_call : oa_tool_call)
    : M state (list value) :=
  let tool_name := VStr (tc_name tool_call) in
  let tool_args := VStr (tc_arguments tool_call) in
  result_content <- do_call_tool tool_name tool_args ;;
  let final_text := (final_text ++ [VStr (calling_marker tool_name tool_args)])%list in
  append_message
    [("role", VStr "assistant"); ("content", VNone);
     ("tool_calls",
       VList [VDict [("id", VStr (tc_id tool_call)); ("type", VStr "function");
                     ("function", VDict [("name", tool_name); ("arguments", tool_args)])]])] ;;;
  append_message
    [("role", VStr "tool"); ("content", result_content);
     ("tool_call_id", VStr (tc_id tool_call))] ;;;
  try_except
    (msgs <- get_messages ;;
     response <- perform (SdkRequest OpenAI msgs None) (openai_create msgs None) ;;
     m <- lift (first_choice response) ;;
     ret (final_text ++ [option_str (oa_content m)])%list)
    any_exception
    (fun e => ret (final_text ++ [VStr (follow_up_text e)])%list).

Definition process_with_openai (available_tools : list dict) : M state string :=
  openai_tools <- lift (map_result function_tool available_tools) ;;
  first <-
    try_except
      (msgs <- get_messages ;;
       response <- perform (SdkRequest OpenAI msgs (Some openai_tools))
                     (openai_create msgs (Some openai_tools)) ;;
       ret (inr response))
      any_exception
      (fun e => ret (inl (openai_sorry e))) ;;
  match first with
  | inl sorry => ret sorry
  | inr choices =>
      response_message <- lift (first_choice choices) ;;
      let final_text :=
        match oa_content response_message with
        | Some c => if negb (String.eqb c "") then [VStr c] else []
        | None => []
        end in
      final_text <-
        match oa_tool_calls response_message with
        | Some (tc :: tcs) => for_each (tc :: tcs) final_text openai_tool_round
        | _ => ret final_text
        end ;;
      lift (join_values nl final_text)
  end.

(** ** [_process_with_llama] *)

Definition llama_function (t : dict) : result dict :=
  match dict_get t "name", dict_get t "description", dict_get t "input_schema" with
  | Some n, Some d, Some p => Ok [("name", n); ("description", d); ("parameters", p)]
  | None, _, _ => key_error "name"
  | _, None, _ => key_error "description"
  | _, _, None => key_error "input_schema"
  end.

(** [{"role": msg["role"], "content": msg["content"]}] *)
Definition llama_message (msg : dict) : result dict :=
  match dict_get msg "role", dict_get msg "content" with
  | Some r, Some c => Ok [("role", r); ("content", c)]
  | None, _ => key_error "role"
  | _, None => key_error "content"
  end.

Definition dicts (l : list dict) : value := VList (map VDict l).

#[warnings="-inexact-float"]
Definition llama_payload (formatted_messages functions : list dict) : dict :=
  [("model", VStr "Meta-Llama-3-8B-Instruct");
   ("messages", dicts formatted_messages);
   ("tools", dicts functions);
   ("tool_choice", VStr "auto");
   ("max_tokens", VInt 1000);
   ("temperature", VFloat 0.7%float)].

(** [json.loads(v)]: the argument must be a [str]. *)
Definition loads_value (v : value) : result value :=
  match v with
  | VStr s => json_loads s
  | _ => type_error ("the JSON object must be str, bytes or bytearray, not "
                     ++ type_name v)
  end.

(** [response_data["choices"][0]["message"]] *)
Definition first_message (response_data : value) : result value :=
  match getitem response_data "choices" with
  | Raise e => Raise e
  | Ok choices =>
      match getitem0 choices with
      | Raise e => Raise e
      | Ok choice => getitem choice "message"
      end
  end.

(** [k in m and m[k]] as a condition *)
Definition present_and_truthy (m : value) (k : string) : result bool :=
  match contains_key k m with
  | Raise e => Raise e
  | Ok false => Ok false
  | Ok true =>
      match getitem m k with
      | Raise e => Raise e
      | Ok v => Ok (truthy v)
      end
  end.

Definition llama_sorry_connecting (e : exn) : string :=
  sorry_prefix ++ " when connecting to Llama API: " ++ exn_str e.
Definition llama_sorry_parsing (e : exn) : string :=
  sorry_prefix ++ " parsing the response from Llama API: " ++ exn_str e.

(** The body of [for tool_call in assistant_message["tool_calls"]]; the
    accumulator is [final_text] with [formatted_messages]. *)
Definition llama_tool_round (functions : list dict)
    (acc : list value * list dict) (tool_call : value)
    : M state (list value * list dict) :=
  let (final_text, formatted_messages) := acc in
  fn <- lift (getitem tool_call "function") ;;
  tool_name <- lift (getitem fn "name") ;;
  tool_args <- lift (getitem fn "arguments") ;;
  parsed <- lift (loads_value tool_args) ;;
  result_content <- do_call_tool tool_name parsed ;;
  let final_text := (final_text ++ [VStr (calling_marker tool_name tool_args)])%list in
  id <- lift (getitem tool_call "id") ;;
  let formatted_messages :=
    (formatted_messages ++
     [[("role", VStr "assistant"); ("content", VNone);
       ("tool_calls",
         VList [VDict [("id", id); ("type", VStr "function");
                       ("function", VDict [("name", tool_name); ("arguments", tool_args)])]])];
      [("role", VStr "tool"); ("content", result_content); ("tool_call_id", id)]])%list in
  try_except
    (response_data <- do_post llama_url (llama_payload formatted_messages functions) ;;
     assistant_message <- lift (first_message response_data) ;;
     content <- lift (getitem assistant_message "content") ;;
     ret ((final_text ++ [content])%list, formatted_messages))
    any_exception
    (fun e => ret ((final_text ++ [VStr (follow_up_text e)])%list, formatted_messages)).

Definition process_with_llama (available_tools : list dict) : M state string :=
  functions <- lift (map_result llama_function available_tools) ;;
  msgs <- get_messages ;;
  formatted_messages <- lift (map_result llama_message msgs) ;;
  first <-
    try_clauses
      (response_data <- do_post llama_url (llama_payload formatted_messages functions) ;;
       has_error <- lift (contains_key "error" response_data) ;;
       if has_error then
         err <- lift (getitem response_data "error") ;;
         ret (inl (sorry_prefix ++ " when connecting to Llama API: " ++ str err))
       else ret (inr response_data))
      [(is_RequestException, fun e => ret (inl (llama_sorry_connecting e)));
       (is_JSONDecodeError, fun e => ret (inl (llama_sorry_parsing e)))] ;;
  match first with
  | inl sorry => ret sorry
  | inr response_data =>
      assistant_message <- lift (first_message response_data) ;;
      has_content <- lift (present_and_truthy assistant_message "content") ;;
      final_text <-
        (if has_content
         then c <- lift (getitem assistant_message "content") ;; ret [c]
         else ret []) ;;
      has_calls <- lift (present_and_truthy assistant_message "tool_calls") ;;
      final_text <-
        (if has_calls then
           tool_calls_v <- lift (getitem assistant_message "tool_calls") ;;
           tool_calls <- lift (iterate tool_calls_v) ;;
           acc <- for_each tool_calls (final_text, formatted_messages)
                    (llama_tool_round functions) ;;
           ret (fst acc)
         else ret final_text) ;;
      lift (join_values nl final_text)
  end.

(** ** [_process_with_groq] *)

(** [if "parameters" in func: func.pop("parameters")] *)
Definition drop_parameters (func : dict) : dict :=
  if dict_has func "parameters" then dict_remove func "parameters" else func.

(** The copy of [tc["function"]] that [sanitize_messages] sends: no
    [parameters], and [arguments] a string. *)
Definition sanitize_function (function : value) : result dict :=
  match function with
  | VDict f =>
      let func := drop_parameters f in
      match dict_get func "arguments" with
      | Some (VDict a) =>
          match json_dumps (VDict a) with
          | Ok s => Ok (dict_set func "arguments" (VStr s))
          | Raise e => Raise e
          end
      | Some (VStr _) => Ok func
      | _ => Ok (dict_set func "arguments" (VStr "{}"))
      end
  | VList l =>
      (* a list can be copied, but has neither [pop(key)] nor [get] *)
      if existsb (fun x => eq_str x "parameters") l
      then type_error "'str' object cannot be interpreted as an integer"
      else attribute_error function "get"
  | _ => attribute_error function "copy"
  end.

Definition sanitize_tool_call (tc : value) : result value :=
  match getitem tc "function" with
  | Raise e => Raise e
  | Ok function =>
      match sanitize_function function with
      | Raise e => Raise e
      | Ok func =>
          match getitem tc "id" with
          | Raise e => Raise e
          | Ok id =>
              match getitem tc "type" with
              | Raise e => Raise e
              | Ok ty => Ok (VDict [("id", id); ("type", ty); ("function", VDict func)])
              end
          end
      end
  end.

Definition is_none (v : option value) : bool :=
  match v with
  | None | Some VNone => true
  | Some _ => false
  end.

(** One round of the loop of [sanitize_messages]: the entries (none or
    one) the message [m0] contributes. *)
Definition sanitize_message (m0 : dict) : result (list dict) :=
  let role := dict_get_default m0 "role" VNone in
  let m := filter (fun kv => negb (String.eqb (fst kv) "tool_call_step")) m0 in
  if eq_str role "user" then
    Ok [[("role", role); ("content", dict_get_default m "content" (VStr ""))]]
  else if eq_str role "assistant" then
    if negb (is_none (dict_get m "tool_calls")) then
      match iterate (dict_get_default m "tool_calls" VNone) with
      | Raise e => Raise e
      | Ok items =>
          match map_result sanitize_tool_call items with
          | Raise e => Raise e
          | Ok tool_calls =>
              Ok [[("role", role); ("content", VNone); ("tool_calls", VList tool_calls)]]
          end
      end
    else
      match dict_get m "content" with
      | Some (VStr c) =>
          if negb (String.eqb (strip c) "")
          then Ok [[("role", role); ("content", VStr c)]]
          else Ok []
      | _ => Ok []
      end
  else if eq_str role "tool" then
    Ok [[("role", VStr "tool");
         ("content", dict_get_default m "content" (VStr ""));
         ("tool_call_id", dict_get_default m "tool_call_id" VNone)]]
  else Ok [].

Fixpoint sanitize_messages (msgs : list dict) : result (list dict) :=
  match msgs with
  | [] => Ok []
  | m :: rest =>
      match sanitize_message m with
      | Raise e => Raise e
      | Ok entries =>
          match sanitize_messages rest with
          | Raise e => Raise e
          | Ok sanitized => Ok (entries ++ sanitized)%list
          end
      end
  end.

(** [{**payload, "messages": sanitize_messages(messages)}] *)
Definition groq_payload (sanitized groq_tools : list dict) : dict :=
  [("model", VStr "llama3-8b-8192");
   ("messages", dicts sanitized);
   ("tools", dicts groq_tools);
   ("tool_choice", VStr "auto");
   ("max_tokens", VInt 1000)].

Definition groq_request (groq_tools : list dict) : M state value :=
  msgs <- get_messages ;;
  sanitized <- lift (sanitize_messages msgs) ;;
  do_post groq_url (groq_payload sanitized groq_tools).

Definition groq_sorry_connecting (e : exn) : string :=
  sorry_prefix ++ " when connecting to Groq API: " ++ exn_str e.
Definition groq_sorry_parsing (e : exn) : string :=
  sorry_prefix ++ " parsing the response from Groq API: " ++ exn_str e.

(** The flattening of [result.content] into the text of a tool turn. *)
Definition item_text (item : value) : string :=
  match item with
  | VObj o => match obj_text o with Some t => t | None => str item end
  | _ => str item
  end.

Definition flatten_content (tool_content : value) : string :=
  match tool_content with
  | VList items => join "" (map item_text items)
  | VObj o => match obj_text o with Some t => t | None => str tool_content end
  | _ => str tool_content
  end.

(** The assistant turn and the tool turn the adapter appends for one
    executed tool call. *)
Definition groq_assistant_turn (id tool_name tool_args : value) : dict :=
  [("role", VStr "assistant");
   ("tool_calls",
     VList [VDict [("id", id); ("type", VStr "function");
                   ("function", VDict [("name", tool_name); ("arguments", tool_args)])]])].

Definition groq_tool_turn (id : value) (tool_content : string) : dict :=
  [("role", VStr "tool"); ("content", VStr tool_content); ("tool_call_id", id)].

(** The follow-up request after one tool call, inside its [try]. *)
Definition groq_follow_up (groq_tools : list dict) : M state value :=
  response_data <- groq_request groq_tools ;;
  response_message <- lift (first_message response_data) ;;
  content <- lift (get_method response_message "content" VNone) ;;
  (if truthy content
   then append_message [("role", VStr "assistant"); ("content", content)]
   else append_message [("role", VStr "assistant")]) ;;;
  lift (get_method response_message "content" (VStr "")).

(** [if isinstance(tool_args, str): tool_args = json.loads(tool_args)] *)
Definition groq_arguments (raw_args : value) : result value :=
  match raw_args with
  | VStr s => json_loads s
  | _ => Ok raw_args
  end.

(** The body of [for tool_call in response_message["tool_calls"]]. *)
Definition groq_tool_round (groq_tools : list dict)
    (final_text : list value) (tool_call : value) : M state (list value) :=
  fn <- lift (getitem tool_call "function") ;;
  tool_name <- lift (getitem fn "name") ;;
  raw_args <- lift (getitem fn "arguments") ;;
  tool_args <- lift (groq_arguments raw_args) ;;
  result_content <- do_call_tool tool_name tool_args ;;
  let final_text := (final_text ++ [VStr (calling_marker tool_name tool_args)])%list in
  id <- lift (getitem tool_call "id") ;;
  append_message (groq_assistant_turn id tool_name tool_args) ;;;
  append_message (groq_tool_turn id (flatten_content result_content)) ;;;
  try_except
    (text <- groq_follow_up groq_tools ;;
     ret (final_text ++ [text])%list)
    any_exception
    (fun e => ret (final_text ++ [VStr (follow_up_text e)])%list).

Definition process_with_groq (available_tools : list dict) : M state string :=
  groq_tools <- lift (map_result function_tool available_tools) ;;
  first <-
    try_clauses
      (response_data <- groq_request groq_tools ;; ret (inr response_data))
      [(is_RequestException, fun e => ret (inl (groq_sorry_connecting e)));
       (is_JSONDecodeError, fun e => ret (inl (groq_sorry_parsing e)))] ;;
  match first with
  | inl sorry => ret sorry
  | inr response_data =>
      response_message <- lift (first_message response_data) ;;
      content <- lift (get_method response_message "content" VNone) ;;
      let final_text := if truthy content then [content] else [] in
      tool_calls_v <- lift (get_method response_message "tool_calls" VNone) ;;
      final_text <-
        (if truthy tool_calls_v then
           tool_calls <- lift (iterate tool_calls_v) ;;
           for_each tool_calls final_text (groq_tool_round groq_tools)
         else ret final_text) ;;
      lift (join_values nl final_text)
  end.

(** ** [process_query] *)

Definition tool_entry (t : tool) : dict :=
  [("name", VStr (tool_name t));
   ("description", tool_description t);
   ("input_schema", tool_inputSchema t)].

(** [for m in reversed(messages): if m.get("role") == "tool": ...] *)
Fixpoint find_tool_result (reversed : list dict) : value :=
  match reversed with
  | [] => VNone
  | m :: rest =>
      if eq_str (dict_get_default m "role" VNone) "tool"
      then dict_get_default m "content" VNone
      else find_tool_result rest
  end.

Definition last_tool_result_of (msgs : list dict) : value :=
  find_tool_result (rev msgs).

Definition process_query (llm_provider : provider) (query : string)
    : M state (string * value) :=
  (fun s => (Ok tt, mkState (world s) (trace s)
                      [[("role", VStr "user"); ("content", VStr query)]])) ;;;
  tools <- perform ListTools list_tools ;;
  let available_tools := map tool_entry tools in
  llm_response <-
    match llm_provider with
    | Anthropic => process_with_claude available_tools
    | Llama => process_with_llama available_tools
    | Groq => process_with_groq available_tools
    | OpenAI => process_with_openai available_tools
    end ;;
  msgs <- get_messages ;;
  ret (llm_response, last_tool_result_of msgs).

(** ** Presentation: the body of the loop of [chat_loop] *)

(** The text kept after the marker lines are removed. *)
Definition cleaned_of (llm_response : string) : string :=
  join nl (filter (fun line => negb (startswith calling_prefix line))
                  (splitlines llm_response)).

(** Whether the cleaned text counts as empty: nothing, or a tool-use
    placeholder tag (for a text of code points below 256, see
    [Regex.lit_ci]). *)
Definition is_placeholder (cleaned : string) : bool :=
  let cleaned_stripped := lower (strip cleaned) in
  String.eqb cleaned_stripped ""
  || Regex.re_match Regex.tool_use_pattern cleaned_stripped.

(** What is printed between the two separator lines. *)
Definition present (llm_response : string) (last_tool_result : value)
    : result string :=
  let cleaned := cleaned_of llm_response in
  if is_placeholder cleaned && truthy last_tool_result then
    match last_tool_result with
    | VStr r => Ok (tool_result_label ++ r)
    | v => type_error ("can only concatenate str (not " ++ String (chr 34) EmptyString
                       ++ type_name v ++ String (chr 34) EmptyString ++ ") to str")
    end
  else Ok (strip cleaned).

(** What one round of [chat_loop] does with a line of input. *)
Inductive shown : Type :=
| Quit
| Answer (text : string)
| ErrorLine (text : string).

Definition chat_round (llm_provider : provider) (line : string) : state -> shown * state :=
  fun s =>
    let query := strip line in
    if String.eqb (lower query) "quit" then (Quit, s)
    else
      match (r <- process_query llm_provider query ;;
             lift (present (fst r) (snd r))) s with
      | (Ok text, s') => (Answer text, s')
      | (Raise e, s') => (ErrorLine (nl ++ "Error: " ++ exn_str e), s')
      end.

End Adapters.

(** ** The failures of a request to a model provider

    What [requests] raises for each: a [RequestException] when the
    exchange itself fails and when [raise_for_status()] refuses the
    status; for a body that is empty or not JSON, [json()] raises
    [requests.exceptions.JSONDecodeError] (since requests 2.27) or
    [json.JSONDecodeError] (before). *)
Inductive failure : Type :=
| TransportFailure
| BadStatus
| EmptyBody
| MalformedJSON.

Definition failure_class (requests_json_error : bool) (f : failure) : exn_class :=
  match f with
  | TransportFailure | BadStatus => RequestException
  | EmptyBody | MalformedJSON =>
      if requests_json_error then RequestsJSONDecodeError else JSONDecodeError
  end.

Definition raised (requests_json_error : bool) (f : failure) (msg : string) : exn :=
  mkExn (failure_class requests_json_error f) msg.

(** What the two [except] clauses of the first Groq request answer. *)
Definition groq_sorry (e : exn) : string :=
  if is_RequestException e then groq_sorry_connecting e else groq_sorry_parsing e.

(** ** Observers used in the statements *)



Definition is_string (v : option value) : bool :=
  match v with
  | Some (VStr _) => true
  | _ => false
  end.

Definition has_role (r : string) (m : dict) : bool :=
  eq_str (dict_get_default m "role" VNone) r.

(** A string content that is not blank. *)
Definition has_text (m : dict) : bool :=
  match dict_get m "content" with
  | Some (VStr c) => negb (String.eqb (strip c) "")
  | _ => false
  end.

(** An assistant turn with no tool calls and no text. *)
Definition blank_assistant (m : dict) : bool :=
  has_role "assistant" m && is_none (dict_get m "tool_calls") && negb (has_text m).

Definition count {A} (p : A -> bool) (l : list A) : nat := List.length (filter p l).

Arguments world {W} s.
Arguments trace {W} s.
Arguments messages {W} s.
Arguments mkState {W} world trace messages.
Arguments perform {W A} ev call s.
Arguments get_messages {W} s.
Arguments append_message {W} m s.

(** ** Vocabulary of the statements about the adapters *)

Section Effects.

Context {B : Builtins}.
Variable W : Type.

(** A log without a turn of role "tool". *)
Definition no_tool_turn (msgs : list dict) : Prop :=
  Forall (fun m => has_role "tool" m = false) msgs.


(** The state in which the follow-up request of a round starts: the tool
    was called, and its assistant turn and tool turn are in the log. *)
Definition after_tool_call (s : state W) (w1 : W) (id name args content : value) : state W :=
  mkState w1
    (trace s ++ [ToolCall name args])
    (messages s
     ++ [groq_assistant_turn id name args;
         groq_tool_turn id (flatten_content content)]).

(** The text of the first reply, when it has some. *)
Definition first_text (message : dict) : list value :=
  if truthy (dict_get_default message "content" VNone)
  then [dict_get_default message "content" VNone]
  else [].

(** The same for an OpenAI message, and the tool calls it holds. *)
Definition openai_first_text (message : oa_message) : list value :=
  match oa_content message with
  | Some c => if negb (String.eqb c "") then [VStr c] else []
  | None => []
  end.

Definition openai_tool_calls (message : oa_message) : list oa_tool_call :=
  match oa_tool_calls message with
  | Some l => l
  | None => []
  end.

(** The text items of the rounds: each round's marker and what followed. *)
Definition round_items (rounds : list (string * value)) : list value :=
  flat_map (fun p => [VStr (fst p); snd p]) rounds.

(** What a round may leave behind: tool dispatches and model requests
    only, at most one of each, and, when it ends, exactly one dispatch,
    the marker and one more item of text. *)
Definition round_effect (final_text : list value) (s : state W)
    (r : result (list value)) (s' : state W) : Prop :=
  exists new,
    trace s' = (trace s ++ new)%list
    /\ List.length new = count is_tool_call new + count is_model_request new
    /\ count is_tool_call new <= 1
    /\ count is_model_request new <= 1
    /\ (forall final_text',
          r = Ok final_text' ->
          count is_tool_call new = 1
          /\ exists marker text,
               final_text' = (final_text ++ [VStr marker; text])%list
               /\ startswith calling_prefix marker = true).

(** What a loop over [n] tool calls may leave behind. *)
Definition loop_effect (n : nat) (final_text : list value) (s : state W)
    (r : result (list value)) (s' : state W) : Prop :=
  exists new,
    trace s' = (trace s ++ new)%list
    /\ List.length new = count is_tool_call new + count is_model_request new
    /\ count is_tool_call new <= n
    /\ count is_model_request new <= n
    /\ (forall final_text',
          r = Ok final_text' ->
          count is_tool_call new = n
          /\ exists rounds,
               List.length rounds = n
               /\ Forall (fun p => startswith calling_prefix (fst p) = true) rounds
               /\ final_text' = (final_text ++ round_items rounds)%list).

End Effects.

Arguments after_tool_call {B W} s w1 id name args content.
Arguments round_effect {W} final_text s r s'.
Arguments loop_effect {W} n final_text s r s'.

(** ** [connect_to_server] *)

(** [StdioServerParameters(command=..., args=[...], env=None)] *)
Record server_parameters : Type := mkParameters {
  command : string;
  args : list string
}.

Section Connection.

(** [open_session params] stands for [stdio_client(params)], the
    [ClientSession] on its streams and [session.initialize()], in turn;
    the state is the world alone. *)
Variable W : Type.
Variable open_session : server_parameters -> W -> result unit * W.
Variable list_tools : W -> result (list tool) * W.

(** [connect_to_server]; the value is what it prints at the end, the
    names of the tools. *)
Definition connect_to_server (server_script_path : string) : M W (list string) :=
  let is_python := endswith ".py" server_script_path in
  let is_js := endswith ".js" server_script_path in
  if negb (is_python || is_js)
  then raise (mkExn ValueError "Server script must be a .py or .js file")
  else
    let command := if is_python then "python" else "node" in
    open_session (mkParameters command [server_script_path]) ;;;
    tools <- list_tools ;;
    ret (map tool_name tools).

End Connection.

(** ** More vocabulary: the shape of what is sent and logged *)

(** A tool call as [sanitize_messages] sends it: the three keys, no
    [parameters], and [arguments] a string. *)
Definition sent_tool_call (tc : value) : Prop :=
  exists id type_ func,
    tc = VDict [("id", id); ("type", type_); ("function", VDict func)]
    /\ dict_has func "parameters" = false
    /\ is_string (dict_get func "arguments") = true.

(** The four shapes of an entry that [sanitize_messages] sends. *)
Definition sent_entry (entry : dict) : Prop :=
  (exists content, entry = [("role", VStr "user"); ("content", content)])
  \/ (exists tool_calls,
        entry = [("role", VStr "assistant"); ("content", VNone);
                 ("tool_calls", VList tool_calls)]
        /\ Forall sent_tool_call tool_calls)
  \/ (exists c,
        entry = [("role", VStr "assistant"); ("content", VStr c)]
        /\ String.eqb (strip c) "" = false)
  \/ (exists content id,
        entry = [("role", VStr "tool"); ("content", content); ("tool_call_id", id)]).

(** A log whose tool turns all carry a string. *)
Definition tool_turns_hold_text (msgs : list dict) : Prop :=
  Forall (fun m => has_role "tool" m = true -> is_string (dict_get m "content") = true)
         msgs.

(** What a step may send: from [s] to [s'] the trace grows by events
    that all have the given shape, with at most [n] tool dispatches and
    at most [n] model requests among them, and exactly [n] of each when
    the step returns. *)
Definition sends_rounds {W A : Type} (n : nat) (shape : event -> Prop)
    (s : state W) (r : result A) (s' : state W) : Prop :=
  exists new,
    trace s' = (trace s ++ new)%list
    /\ Forall shape new
    /\ count is_tool_call new <= n
    /\ count is_model_request new <= n
    /\ (forall a, r = Ok a ->
          count is_tool_call new = n /\ count is_model_request new = n).

(** The events of a round of the Anthropic adapter, and of the Llama
    adapter: a tool dispatch, or a follow-up request, which carries no
    tool declarations with Anthropic. *)
Definition claude_round_event (ev : event) : Prop :=
  is_tool_call ev = true \/ exists msgs, ev = SdkRequest Anthropic msgs None.

Definition llama_round_event (ev : event) : Prop :=
  is_tool_call ev = true \/ exists payload, ev = Post llama_url payload.

(** The tool calls of a first reply that the Llama adapter goes
    through. *)
Definition llama_tool_calls (response_data : value) : list value :=
  match first_message response_data with
  | Ok assistant_message =>
      match present_and_truthy assistant_message "tool_calls" with
      | Ok true =>
          match getitem assistant_message "tool_calls" with
          | Ok tool_calls_v =>
              match iterate tool_calls_v with
              | Ok tool_calls => tool_calls
              | Raise _ => []
              end
          | Raise _ => []
          end
      | _ => []
      end
  | Raise _ => []
  end.

(** The number of [tool_use] blocks of an Anthropic reply. *)
Definition is_tool_use (b : block) : bool :=
  match b with
  | ToolUseBlock _ _ _ => true
  | _ => false
  end.

(** The texts of the text blocks of an Anthropic reply. *)
Fixpoint block_texts (content : list block) : list string :=
  match content with
  | [] => []
  | TextBlock t :: rest => t :: block_texts rest
  | _ :: rest => block_texts rest
  end.

(** ** The rounds of a run, in the words of the statements

    A round is what an adapter does for one tool call of the first
    reply. The statements describe a round by the state and the text it
    starts with and the state and the text it leaves, and the loop as a
    chain of rounds. *)

(** The turns the sanitizer forwards: every user turn and every tool
    turn, and an assistant turn unless it is blank. *)
Definition forwarded (m : dict) : bool :=
  has_role "user" m || has_role "tool" m
  || (has_role "assistant" m && negb (blank_assistant m)).

(** The two turns the OpenAI adapter appends for an executed tool call:
    the content of the tool turn is the result as the session gave it. *)
Definition openai_assistant_turn (tool_call : oa_tool_call) : dict :=
  [("role", VStr "assistant"); ("content", VNone);
   ("tool_calls",
     VList [VDict [("id", VStr (tc_id tool_call)); ("type", VStr "function");
                   ("function", VDict [("name", VStr (tc_name tool_call));
                                       ("arguments", VStr (tc_arguments tool_call))])]])].

Definition openai_tool_turn (tool_call : oa_tool_call) (content : value) : dict :=
  [("role", VStr "tool"); ("content", content);
   ("tool_call_id", VStr (tc_id tool_call))].

(** What the answer takes from the reply to a follow-up request of the
    OpenAI adapter: the content of the first choice, or the error text. *)
Definition openai_follow_up_item (reply : result (list oa_message)) : value :=
  match reply with
  | Ok choices =>
      match first_choice choices with
      | Ok m => option_str (oa_content m)
      | Raise e => VStr (follow_up_text e)
      end
  | Raise e => VStr (follow_up_text e)
  end.

(** The two turns the Llama adapter adds, to the messages of its
    follow-up request only. *)
Definition llama_round_turns (id tool_name tool_args content : value) : list dict :=
  [[("role", VStr "assistant"); ("content", VNone);
    ("tool_calls",
      VList [VDict [("id", id); ("type", VStr "function");
                    ("function", VDict [("name", tool_name); ("arguments", tool_args)])]])];
   [("role", VStr "tool"); ("content", content); ("tool_call_id", id)]].

(** The text of a first reply of the Llama provider, when it has some. *)
Definition llama_first_text (response_data : value) : list value :=
  match first_message response_data with
  | Ok assistant_message =>
      match present_and_truthy assistant_message "content" with
      | Ok true =>
          match getitem assistant_message "content" with
          | Ok c => [c]
          | Raise _ => []
          end
      | _ => []
      end
  | Raise _ => []
  end.

(** The message of a follow-up reply the Groq adapter reads, or the
    exception it meets on the way. *)
Definition groq_follow_up_reply (reply : result value) : result dict :=
  match reply with
  | Raise e => Raise e
  | Ok response_data =>
      match first_message response_data with
      | Raise e => Raise e
      | Ok (VDict response_message) => Ok response_message
      | Ok v => attribute_error v "get"
      end
  end.

(** The assistant turn the Groq adapter logs for a follow-up reply: with
    the content when there is some, bare otherwise. *)
Definition groq_follow_up_turn (response_message : dict) : dict :=
  if truthy (dict_get_default response_message "content" VNone)
  then [("role", VStr "assistant");
        ("content", dict_get_default response_message "content" VNone)]
  else [("role", VStr "assistant")].

(** The first item of a list that is no string, with its position. *)
Fixpoint first_non_string (i : nat) (items : list value) : option (nat * value) :=
  match items with
  | [] => None
  | VStr _ :: rest => first_non_string (S i) rest
  | v :: _ => Some (i, v)
  end.

(** [TypeError] of [str.join] for the item [v] at position [i]. *)
Definition join_error (i : nat) (v : value) : exn :=
  mkExn TypeError
    ("sequence item " ++ NilEmpty.string_of_uint (Nat.to_uint i)
     ++ ": expected str instance, " ++ type_name v ++ " found").

Section Rounds.

Context {B : Builtins}.
Variable W : Type.
Variable call_tool : value -> value -> W -> result value * W.
Variable openai_create : list dict -> option (list dict) -> W -> result (list oa_message) * W.
Variable http_post : string -> dict -> W -> result value * W.

(** One round after the other, in the order of the list: each round
    starts in the state, and with the text, that the round before it
    left. *)
Inductive rounds {X : Type}
    (round : X -> state W -> list value -> state W -> list value -> Prop)
    : list X -> state W -> list value -> state W -> list value -> Prop :=
| rounds_done (s : state W) (text : list value) : rounds round [] s text s text
| rounds_next (x : X) (rest : list X) (s s1 s' : state W) (text text1 text' : list value) :
    round x s text s1 text1 ->
    rounds round rest s1 text1 s' text' ->
    rounds round (x :: rest) s text s' text'.

(** A completed round of the OpenAI adapter: the tool is called as the
    reply names it; the assistant turn and the tool turn are appended;
    the provider is asked once more, with the grown log and no tool
    declarations; the marker and what the reply brought are added to the
    text. *)
Definition openai_round (tool_call : oa_tool_call)
    (s : state W) (text : list value) (s' : state W) (text' : list value) : Prop :=
  let tool_name := VStr (tc_name tool_call) in
  let tool_args := VStr (tc_arguments tool_call) in
  exists (content : value) (w1 : W) (reply : result (list oa_message)) (w2 : W),
    call_tool tool_name tool_args (world s) = (Ok content, w1)
    /\ let log := (messages s
                   ++ [openai_assistant_turn tool_call;
                       openai_tool_turn tool_call content])%list in
       openai_create log None w1 = (reply, w2)
       /\ s' = mkState w2
                 (trace s ++ [ToolCall tool_name tool_args; SdkRequest OpenAI log None])
                 log
       /\ text' = (text ++ [VStr (calling_marker tool_name tool_args);
                            openai_follow_up_item reply])%list.

(** A completed round of the Groq adapter: the arguments are parsed and
    the tool is called; the assistant turn and the tool turn, its
    content flattened, are appended; the grown log is sanitized and
    posted to the same address, once. A reply that can be read adds an
    assistant turn to the log and its content to the text; a failure
    (of the sanitizer, of the request, of the reading) adds the error
    text instead. *)
Definition groq_round (groq_tools : list dict) (tool_call : value)
    (s : state W) (text : list value) (s' : state W) (text' : list value) : Prop :=
  exists (fn tool_name raw_args tool_args id content : value) (w1 : W),
    getitem tool_call "function" = Ok fn
    /\ getitem fn "name" = Ok tool_name
    /\ getitem fn "arguments" = Ok raw_args
    /\ groq_arguments raw_args = Ok tool_args
    /\ call_tool tool_name tool_args (world s) = (Ok content, w1)
    /\ getitem tool_call "id" = Ok id
    /\ let log := (messages s
                   ++ [groq_assistant_turn id tool_name tool_args;
                       groq_tool_turn id (flatten_content content)])%list in
       let marker := VStr (calling_marker tool_name tool_args) in
       match sanitize_messages log with
       | Raise e =>
           s' = mkState w1 (trace s ++ [ToolCall tool_name tool_args]) log
           /\ text' = (text ++ [marker; VStr (follow_up_text e)])%list
       | Ok sanitized =>
           let payload := groq_payload sanitized groq_tools in
           exists (reply : result value) (w2 : W),
             http_post groq_url payload w1 = (reply, w2)
             /\ match groq_follow_up_reply reply with
                | Ok response_message =>
                    s' = mkState w2
                           (trace s ++ [ToolCall tool_name tool_args; Post groq_url payload])
                           (log ++ [groq_follow_up_turn response_message])
                    /\ text' = (text ++ [marker;
                                         dict_get_default response_message "content"
                                           (VStr "")])%list
                | Raise e =>
                    s' = mkState w2
                           (trace s ++ [ToolCall tool_name tool_args; Post groq_url payload])
                           log
                    /\ text' = (text ++ [marker; VStr (follow_up_text e)])%list
                end
       end.

End Rounds.

Arguments rounds {W X} round _ _ _ _ _.

End Client.

(* ===================================================================== *)
(** * Scripted worlds, for running the model on concrete inputs *)
(* ===================================================================== *)

Module Scripted.

Import PyStr Py.

Definition str_of_Z (n : Z) : string := NilEmpty.string_of_int (Z.to_int n).

Definition dq : string := String (chr 34) EmptyString.

(** The floats the examples use, with their [repr]. *)
#[warnings="-inexact-float"]
Definition float_table : list (string * float) :=
  [("40.7", 40.7); ("-74.0", -74.0); ("0.0", 0)]%float.

Fixpoint float_repr (table : list (string * float)) (f : float) : string :=
  match table with
  | [] => "nan"
  | (s, g) :: rest => if PrimFloat.eqb f g then s else float_repr rest f
  end.

Fixpoint float_parse (table : list (string * float)) (s : string) : result float :=
  match table with
  | [] => Raise (mkExn ValueError ("could not convert string to float: " ++ quote s))
  | (t, g) :: rest => if String.eqb s t then Ok g else float_parse rest s
  end.

(** [repr] of the values the examples print: strings without quotes,
    backslashes or control characters, and the floats of the table. *)
Fixpoint repr_value (v : value) : string :=
  match v with
  | VNone => "None"
  | VBool b => if b then "True" else "False"
  | VInt n => str_of_Z n
  | VFloat f => float_repr float_table f
  | VStr s => quote s
  | VList l => "[" ++ join ", " (map repr_value l) ++ "]"
  | VDict d =>
      "{" ++ join ", " (map (fun kv : string * value => let (k, x) := kv in quote k ++ ": " ++ repr_value x) d)
      ++ "}"
  | VObj o => obj_str o
  end.

(** [json.dumps] on the same values. *)
Fixpoint dumps_value (v : value) : string :=
  match v with
  | VNone => "null"
  | VBool b => if b then "true" else "false"
  | VInt n => str_of_Z n
  | VFloat f => float_repr float_table f
  | VStr s => dq ++ s ++ dq
  | VList l => "[" ++ join ", " (map dumps_value l) ++ "]"
  | VDict d =>
      "{" ++ join ", "
               (map (fun kv : string * value => let (k, x) := kv in dq ++ k ++ dq ++ ": " ++ dumps_value x) d)
      ++ "}"
  | VObj o => obj_str o
  end.

(** The JSON text of the arguments of [get_alerts] for California. *)
Definition state_CA_json : string :=
  "{" ++ dq ++ "state" ++ dq ++ ": " ++ dq ++ "CA" ++ dq ++ "}".

(** [json.loads] on the argument strings the examples use. *)
Definition loads_table (s : string) : result value :=
  if String.eqb s "{}" then Ok (VDict [])
  else if String.eqb s state_CA_json
  then Ok (VDict [("state", VStr "CA")])
  else Raise (mkExn JSONDecodeError "Expecting value: line 1 column 1 (char 0)").

Definition float_of (v : value) : result float :=
  match v with
  | VFloat f => Ok f
  | VStr s => float_parse float_table (strip s)
  | _ => type_error "float() argument must be a string or a real number"
  end.

Definition builtins : Builtins :=
  {| repr := repr_value;
     json_dumps := fun v => Ok (dumps_value v);
     json_loads := loads_table;
     to_float := float_of |}.

(** A scripted service answers its requests from a list, one entry per
    request, and fails once the list is used up. *)
Definition exhausted : exn := mkExn OtherError "script exhausted".

Definition next {A} (script : list (result A)) : result A * list (result A) :=
  match script with
  | r :: rest => (r, rest)
  | [] => (Raise exhausted, [])
  end.

(** The weather server against scripted upstream replies. *)
Definition upstream : Type := list (result value).

Definition http_get (url : string) (params : dict) (w : upstream)
    : result value * upstream := next w.

Definition server (replies : upstream) : Weather.state upstream :=
  Weather.mkState upstream replies [].

(** ** Upstream bodies of the server examples *)

Definition grid_url : string := "https://api.weather.gov/gridpoints/OKX/33,37/forecast".

(** The body of a points reply, and of a forecast reply. *)
Definition points_body : value :=
  VDict [("properties", VDict [("forecast", VStr grid_url)])].

Definition period (name : string) (temperature : Z) (detailed : string) : value :=
  VDict [("name", VStr name); ("temperature", VInt temperature);
         ("temperatureUnit", VStr "F"); ("windSpeed", VStr "5 mph");
         ("windDirection", VStr "NW"); ("detailedForecast", VStr detailed)].

Definition forecast_body (periods : list value) : value :=
  VDict [("properties", VDict [("periods", VList periods)])].

(** Five periods, then two entries that are no periods at all. *)
Definition week : list value :=
  [ period "Today" 75 "Sunny.";
    period "Tonight" 60 "Clear.";
    period "Friday" 77 "Mostly sunny.";
    period "Friday Night" 61 "Partly cloudy.";
    period "Saturday" 72 "Showers likely.";
    VNone;
    VStr "garbled" ].

(** Six replies that one forecast query uses up: a points reply and a
    forecast reply without [properties]; the geocoder's reply; a points
    reply and a forecast whose text quotes the sentence that triggers
    the fallback; the reply of the global service. *)
Definition six_replies : upstream :=
  [ Ok points_body;
    Ok (VDict [("title", VStr "Not Found")]);
    Ok (VList [VDict [("lat", VStr "40.7"); ("lon", VStr "-74.0")]]);
    Ok points_body;
    Ok (forecast_body
          [period "Today" 75 "Unable to fetch forecast data for this location."]);
    Ok (VDict [("current_weather",
                VDict [("temperature", VInt 24); ("windspeed", VInt 11);
                       ("weathercode", VInt 3)])]) ].

(** Two alerts, the second without [properties]. *)
Definition storm : value :=
  VDict [("properties",
          VDict [("event", VStr "Flood Warning"); ("areaDesc", VStr "Kern County");
                 ("severity", VStr "Severe")])].

(** The client against a scripted tool server and scripted providers. *)
Record script : Type := mkScript {
  tools : list Client.tool;
  tool_results : list (result value);
  claude_replies : list (result (list Client.block));
  openai_replies : list (result (list Client.oa_message));
  http_replies : list (result value)
}.

Definition list_tools (w : script) : result (list Client.tool) * script :=
  (Ok (tools w), w).

Definition call_tool (name args : value) (w : script) : result value * script :=
  let (r, rest) := next (tool_results w) in
  (r, mkScript (tools w) rest (claude_replies w) (openai_replies w) (http_replies w)).

Definition anthropic_create (msgs : list dict) (tls : option (list dict)) (w : script)
    : result (list Client.block) * script :=
  let (r, rest) := next (claude_replies w) in
  (r, mkScript (tools w) (tool_results w) rest (openai_replies w) (http_replies w)).

Definition openai_create (msgs : list dict) (tls : option (list dict)) (w : script)
    : result (list Client.oa_message) * script :=
  let (r, rest) := next (openai_replies w) in
  (r, mkScript (tools w) (tool_results w) (claude_replies w) rest (http_replies w)).

Definition http_post (url : string) (payload : dict) (w : script)
    : result value * script :=
  let (r, rest) := next (http_replies w) in
  (r, mkScript (tools w) (tool_results w) (claude_replies w) (openai_replies w) rest).

Definition start (w : script) : Client.state script :=
  Client.mkState w [] [].

Definition process_query (p : Client.provider) (query : string) (w : script) :=
  Client.process_query (B := builtins) script list_tools call_tool
    anthropic_create openai_create http_post p query (start w).

Definition chat_round (p : Client.provider) (line : string) (w : script) :=
  Client.chat_round (B := builtins) script list_tools call_tool
    anthropic_create openai_create http_post p line (start w).

(** The three weather tools, as the server lists them. *)
Definition weather_tools : list Client.tool :=
  [ Client.mkTool "get_alerts" (VStr "Get weather alerts for a US state.") (VDict []);
    Client.mkTool "get_forecast" (VStr "Get weather forecast for a location.") (VDict []);
    Client.mkTool "get_historical_weather"
      (VStr "Get historical weather for a location (past 24h, mock data).") (VDict []) ].

(** A chat-completions body with one choice. *)
Definition completion (message : dict) : value :=
  VDict [("choices", VList [VDict [("message", VDict message)]])].

(** A tool call of a chat-completions message. *)
Definition tool_call (id name : string) (arguments : value) : value :=
  VDict [("id", VStr id); ("type", VStr "function");
         ("function", VDict [("name", VStr name); ("arguments", arguments)])].

(** The text content of an MCP tool result. *)
Definition text_content (t : string) : value :=
  VList [VObj (mkObj "TextContent" (Some t) ("type='text' text=" ++ quote t))].

(** ** The scripts of the examples *)

Definition no_alerts_text : string := "No active alerts for this state.".

(** Two tool calls as a provider sends them, the arguments in JSON. *)
Definition alerts_call : value := tool_call "call_1" "get_alerts" (VStr state_CA_json).
Definition forecast_call : value := tool_call "call_2" "get_forecast" (VStr "{}").

(** A first reply that asks for [get_alerts]. *)
Definition asks_alerts : dict :=
  [("content", VNone); ("tool_calls", VList [alerts_call])].

(** The first reply asks for [get_alerts]; the reply to the follow-up
    request asks for [get_forecast] in turn. *)
Definition pending_forecast : script :=
  mkScript weather_tools
    [Ok (text_content no_alerts_text); Ok (text_content "Sunny, 75 degrees.")]
    [] []
    [Ok (completion asks_alerts);
     Ok (completion [("content", VStr "No alerts. Let me check the forecast.");
                     ("tool_calls", VList [forecast_call])]);
     Ok (completion [("content", VStr "It is sunny.")])].

(** The first reply asks for two tools at once. *)
Definition two_calls : script :=
  mkScript weather_tools
    [Ok (text_content no_alerts_text); Ok (text_content "Sunny, 75 degrees.")]
    [] []
    [Ok (completion [("content", VNone);
                     ("tool_calls", VList [alerts_call; forecast_call])]);
     Ok (completion [("content", VStr "No alerts.")]);
     Ok (completion [("content", VStr "It is sunny.")])].

(** An Anthropic reply with some text and one [tool_use] block. *)
Definition claude_tool_use : script :=
  mkScript weather_tools [Ok (text_content no_alerts_text)]
    [Ok [Client.TextBlock "Let me check the alerts.";
         Client.ToolUseBlock "get_alerts" (VDict [("state", VStr "CA")]) None];
     Ok [Client.TextBlock "There are no active alerts in California."]]
    [] [].

(** The session breaks while the tool is called. *)
Definition connection_closed : exn := mkExn OtherError "Connection closed".

Definition dispatch_fails : script :=
  mkScript weather_tools [Raise connection_closed] [] [] [Ok (completion asks_alerts)].

(** The provider answers with a body that is not JSON. *)
Definition not_json : string := "Expecting value: line 1 column 1 (char 0)".

Definition malformed_body : script :=
  mkScript weather_tools [] [] []
    [Raise (Client.raised true Client.MalformedJSON not_json)].

(** A reply of two text blocks and a block of another type. *)
Definition claude_text_only : script :=
  mkScript weather_tools []
    [Ok [Client.TextBlock "It is sunny."; Client.OtherBlock "thinking";
         Client.TextBlock "Have a nice day."]]
    [] [].

(** One tool call, and a follow-up reply with text. *)
Definition one_call : script :=
  mkScript weather_tools [Ok (text_content no_alerts_text)] [] []
    [Ok (completion asks_alerts); Ok (completion [("content", VStr "No alerts.")])].

(** A tool call whose arguments are no JSON. *)
Definition broken_arguments : string := "{state: CA".

Definition unparsable : script :=
  mkScript weather_tools [Ok (text_content no_alerts_text)] [] []
    [Ok (completion
           [("content", VNone);
            ("tool_calls",
              VList [tool_call "call_1" "get_alerts" (VStr broken_arguments)])])].

(** The follow-up reply asks for a further tool and has no text. *)
Definition null_follow_up : script :=
  mkScript weather_tools [Ok (text_content no_alerts_text)] [] []
    [Ok (completion asks_alerts);
     Ok (completion [("content", VNone); ("tool_calls", VList [forecast_call])])].

(** No provider answers. *)
Definition silent : script := mkScript weather_tools [] [] [] [].

(** A first reply with some text and one tool call. *)
Definition checks_alerts : dict :=
  [("content", VStr "Let me check the alerts."); ("tool_calls", VList [alerts_call])].

(** The body of the follow-up reply is not JSON. *)
Definition malformed_follow_up : script :=
  mkScript weather_tools [Ok (text_content no_alerts_text)] [] []
    [Ok (completion checks_alerts);
     Raise (Client.raised true Client.MalformedJSON not_json)].

(** The follow-up reply has no text, after a first reply that has. *)
Definition null_follow_up_after_text : script :=
  mkScript weather_tools [Ok (text_content no_alerts_text)] [] []
    [Ok (completion checks_alerts);
     Ok (completion [("content", VNone); ("tool_calls", VList [forecast_call])])].

(** A first reply with two tool calls. *)
Definition asks_both (second : value) : dict :=
  [("content", VNone); ("tool_calls", VList [alerts_call; second])].

(** The session breaks while the second tool is called. *)
Definition second_dispatch_fails : script :=
  mkScript weather_tools
    [Ok (text_content no_alerts_text); Raise connection_closed] [] []
    [Ok (completion (asks_both forecast_call));
     Ok (completion [("content", VStr "No alerts.")])].

(** The arguments of the second tool call are no JSON. *)
Definition broken_call : value :=
  tool_call "call_2" "get_forecast" (VStr broken_arguments).

Definition second_unparsable : script :=
  mkScript weather_tools [Ok (text_content no_alerts_text)] [] []
    [Ok (completion (asks_both broken_call));
     Ok (completion [("content", VStr "No alerts.")])].

(** A server script that always starts. *)
Definition open_session (params : Client.server_parameters) (w : script)
    : result unit * script := (Ok tt, w).

Definition user_turn (query : string) : dict :=
  [("role", VStr "user"); ("content", VStr query)].

(** The Groq adapter on a script, the tools already listed. *)
Definition groq_tools : list dict :=
  map (fun t : Client.tool =>
         [("type", VStr "function");
          ("function", VDict [("name", VStr (Client.tool_name t));
                              ("description", Client.tool_description t);
                              ("parameters", Client.tool_inputSchema t)])])
      weather_tools.

Definition asked (query : string) (w : script) : Client.state script :=
  Client.mkState w [Client.ListTools] [user_turn query].

Definition process_with_groq (query : string) (w : script) :=
  Client.process_with_groq (B := builtins) script call_tool http_post
    (map Client.tool_entry weather_tools) (asked query w).

Definition process_with_llama (query : string) (w : script) :=
  Client.process_with_llama (B := builtins) script call_tool http_post
    (map Client.tool_entry weather_tools) (asked query w).

Definition process_with_claude (query : string) (w : script) :=
  Client.process_with_claude (B := builtins) script call_tool anthropic_create
    (map Client.tool_entry weather_tools) (asked query w).

(** The log the Groq adapter holds after one call of [get_alerts]. *)
Definition alerts_log : list dict :=
  [ [("role", VStr "user"); ("content", VStr "alerts in CA")];
    Client.groq_assistant_turn (VStr "call_1") (VStr "get_alerts")
      (VDict [("state", VStr "CA")]);
    Client.groq_tool_turn (VStr "call_1") "No active alerts for this state." ].

Definition alerts_log_sanitized : list dict :=
  [ [("role", VStr "user"); ("content", VStr "alerts in CA")];
    [("role", VStr "assistant"); ("content", VNone);
     ("tool_calls",
       VList [VDict [("id", VStr "call_1"); ("type", VStr "function");
                     ("function",
                       VDict [("name", VStr "get_alerts");
                              ("arguments", VStr state_CA_json)])]])];
    [("role", VStr "tool"); ("content", VStr "No active alerts for this state.");
     ("tool_call_id", VStr "call_1")] ].

(** Three turns without text: a user turn, a tool turn, an assistant
    turn. *)
Definition blank_turns : list dict :=
  [ [("role", VStr "user"); ("content", VStr "")];
    [("role", VStr "tool"); ("content", VStr "   "); ("tool_call_id", VStr "call_1")];
    [("role", VStr "assistant"); ("content", VStr "  ")] ].

End Scripted.

(* ===================================================================== *)
(** * Facts about Python strings *)
(* ===================================================================== *)

Module PyStrFacts.

Import PyStr.

Lemma startswith_app (p s : string) : startswith p (p ++ s) = true.
Proof.
  induction p as [|c p IH]; simpl.
  - reflexivity.
  - now rewrite Ascii.eqb_refl, IH.
Qed.

Lemma contains_here (needle s : string) : contains needle (needle ++ s) = true.
Proof.
  destruct needle; simpl.
  - destruct s; reflexivity.
  - now rewrite Ascii.eqb_refl, startswith_app.
Qed.

Lemma contains_later (needle a s : string) :
  contains needle s = true -> contains needle (a ++ s) = true.
Proof.
  intros H. induction a as [|c a IH]; simpl.
  - exact H.
  - fold (contains needle (a ++ s)). rewrite IH. apply orb_true_r.
Qed.

(** A string contains each of the pieces it is put together from. *)
Lemma contains_app (needle a b : string) :
  contains needle (a ++ needle ++ b) = true.
Proof. apply contains_later, contains_here. Qed.

Lemma append_assoc (a b c : string) : (a ++ b) ++ c = a ++ (b ++ c).
Proof. induction a as [|x a IH]; simpl; [reflexivity | now rewrite IH]. Qed.

(** [found_between before after] proves [contains needle text = true]
    when [text] is, up to bracketing, [before ++ needle ++ after]. *)
Ltac found_between before after :=
  match goal with
  | |- contains ?needle ?text = true =>
      replace text with (before ++ needle ++ after);
      [ apply contains_app
      | rewrite ?append_assoc; simpl; rewrite ?append_assoc; reflexivity ]
  end.

End PyStrFacts.

(* ===================================================================== *)
(** * The weather server: theorems *)
(* ===================================================================== *)

Module WeatherFacts.

Import PyStr Py PyStrFacts.

Section Server.

Context {B : Builtins}.
Variable W : Type.
Variable http_get : string -> dict -> W -> result value * W.

(** C10. [get_historical_weather] sends no request and leaves the world
    as it is; from every state it returns the same text, the fixed
    template with the two coordinates put in, which contains
    "Temperature: 68°F", "Wind: 5 mph NW" and
    "Conditions: Partly cloudy, no precipitation.". *)
Theorem get_historical_weather_fixed_template :
  forall (latitude longitude : float) (s : Weather.state W),
  exists text : string,
    Weather.get_historical_weather W latitude longitude s = (Ok text, s)
    /\ text = nl ++ "Yesterday at (" ++ str (VFloat latitude) ++ ", "
              ++ str (VFloat longitude) ++ "):" ++ nl
              ++ "Temperature: 68" ++ degree ++ "F" ++ nl
              ++ "Wind: 5 mph NW" ++ nl
              ++ "Conditions: Partly cloudy, no precipitation." ++ nl
    /\ contains ("(" ++ str (VFloat latitude) ++ ", " ++ str (VFloat longitude) ++ ")")
         text = true
    /\ contains ("Temperature: 68" ++ degree ++ "F") text = true
    /\ contains "Wind: 5 mph NW" text = true
    /\ contains "Conditions: Partly cloudy, no precipitation." text = true.
Proof.
  intros latitude longitude s.
  eexists. split; [reflexivity|]. split; [reflexivity|].
  set (lat := str (VFloat latitude)). set (lon := str (VFloat longitude)).
  repeat split.
  - found_between (nl ++ "Yesterday at ")
      (":" ++ nl ++ "Temperature: 68" ++ degree ++ "F" ++ nl ++ "Wind: 5 mph NW" ++ nl
       ++ "Conditions: Partly cloudy, no precipitation." ++ nl).
  - found_between (nl ++ "Yesterday at (" ++ lat ++ ", " ++ lon ++ "):" ++ nl)
      (nl ++ "Wind: 5 mph NW" ++ nl
       ++ "Conditions: Partly cloudy, no precipitation." ++ nl).
  - found_between (nl ++ "Yesterday at (" ++ lat ++ ", " ++ lon ++ "):" ++ nl
                   ++ "Temperature: 68" ++ degree ++ "F" ++ nl)
      (nl ++ "Conditions: Partly cloudy, no precipitation." ++ nl).
  - found_between (nl ++ "Yesterday at (" ++ lat ++ ", " ++ lon ++ "):" ++ nl
                   ++ "Temperature: 68" ++ degree ++ "F" ++ nl
                   ++ "Wind: 5 mph NW" ++ nl)
      nl.
Qed.

(** An upstream exchange that raises is answered with the fallback text
    of the tool. *)
Lemma get_alerts_upstream_failure (state_code : string) (s : Weather.state W)
    (e : exn) (w' : W) :
  http_get (Weather.NWS_API_BASE ++ "/alerts/active/area/" ++ state_code) []
    (Weather.world W s) = (Raise e, w') ->
  fst (Weather.get_alerts W http_get state_code s)
  = Ok "Unable to fetch alerts or no alerts found.".
Proof.
  intros H.
  unfold Weather.get_alerts, Weather.make_nws_request, try_except, Weather.fetch, bind.
  now rewrite H.
Qed.

Lemma get_forecast_upstream_failure (latitude longitude : float) (s : Weather.state W)
    (e : exn) (w' : W) :
  http_get (Weather.NWS_API_BASE ++ "/points/" ++ str (VFloat latitude) ++ ","
            ++ str (VFloat longitude)) []
    (Weather.world W s) = (Raise e, w') ->
  fst (Weather.get_forecast W http_get latitude longitude s)
  = Ok "Unable to fetch forecast data for this location.".
Proof.
  intros H.
  unfold Weather.get_forecast, Weather.make_nws_request, try_except, Weather.fetch, bind.
  now rewrite H.
Qed.

(** C8. The query "alerts in CA" asks the alerts service for the area
    CA; when the body that comes back has an empty [features] list, the
    answer of [chat] is exactly "No active alerts for this state.". *)
Theorem chat_alerts_in_CA_no_features :
  forall (s : Weather.state W) (body : dict) (w' : W),
    http_get "https://api.weather.gov/alerts/active/area/CA" [] (Weather.world W s)
      = (Ok (VDict body), w') ->
    dict_get body "features" = Some (VList []) ->
    Weather.chat W http_get (VDict [("query", VStr "alerts in CA")]) s
      = (Ok "No active alerts for this state.",
         Weather.mkState W w'
           (Weather.sent W s ++ ["https://api.weather.gov/alerts/active/area/CA"])).
Proof.
  intros s body w' Hget Hfeatures.
  unfold Weather.chat, bind, lift. simpl.
  unfold Weather.get_alerts, Weather.make_nws_request, try_except, Weather.fetch, bind, lift.
  simpl. rewrite Hget.
  destruct body as [|kv body]; [discriminate|].
  cbn [truthy negb contains_key getitem]. unfold dict_has.
  rewrite Hfeatures. reflexivity.
Qed.

End Server.

Lemma chat_alerts_in_CA_no_features_witness :
  Weather.chat (B := Scripted.builtins) Scripted.upstream Scripted.http_get
    (VDict [("query", VStr "alerts in CA")])
    (Scripted.server [Ok (VDict [("features", VList [])])])
  = (Ok "No active alerts for this state.",
     Weather.mkState Scripted.upstream []
       ["https://api.weather.gov/alerts/active/area/CA"]).
Proof.
  apply (chat_alerts_in_CA_no_features (B := Scripted.builtins)
           Scripted.upstream Scripted.http_get
           (Scripted.server [Ok (VDict [("features", VList [])])])
           [("features", VList [])] []); reflexivity.
Defined.

(** C2, where the code falls short of it. A body that decodes to a
    non-empty object without [properties] makes [get_forecast] raise
    [KeyError] instead of returning a string, and so does an alert
    feature without [properties] in [get_alerts]. *)
#[warnings="-inexact-float"]
Example tools_raise_on_unexpected_body :
  fst (Weather.get_forecast (B := Scripted.builtins) Scripted.upstream Scripted.http_get
         40.7%float (-74.0)%float
         (Scripted.server [Ok (VDict [("title", VStr "Service Unavailable")])]))
    = Raise (mkExn KeyError "'properties'")
  /\ fst (Weather.get_alerts (B := Scripted.builtins) Scripted.upstream Scripted.http_get "CA"
            (Scripted.server [Ok (VDict [("features", VList [VDict []])])]))
    = Raise (mkExn KeyError "'properties'").
Proof. split; vm_compute; reflexivity. Qed.

End WeatherFacts.

(* ===================================================================== *)
(** * The client: theorems *)
(* ===================================================================== *)

Module DictFacts.

Import PyStr Py.

Lemma dict_get_set_same (d : dict) (k : string) (v : value) :
  dict_get (dict_set d k v) k = Some v.
Proof.
  induction d as [|[k' v'] d IH]; simpl.
  - now rewrite String.eqb_refl.
  - destruct (String.eqb k' k) eqn:E; simpl; rewrite E; [reflexivity | exact IH].
Qed.

Lemma dict_get_filter_other (d : dict) (dropped k : string) :
  String.eqb dropped k = false ->
  dict_get (filter (fun kv => negb (String.eqb (fst kv) dropped)) d) k = dict_get d k.
Proof.
  intros Hne. induction d as [|[k' v'] d IH]; simpl; [reflexivity|].
  destruct (String.eqb k' dropped) eqn:E; simpl.
  - apply String.eqb_eq in E. subst k'. now rewrite Hne.
  - now rewrite IH.
Qed.

Lemma map_result_Forall {X Y} (f : X -> result Y) (P : Y -> Prop) :
  (forall x y, f x = Ok y -> P y) ->
  forall l l', map_result f l = Ok l' -> Forall P l'.
Proof.
  intros Hf. induction l as [|x l IH]; simpl; intros l' H.
  - injection H as <-. constructor.
  - destruct (f x) eqn:Ex; [|discriminate].
    destruct (map_result f l) eqn:El; [|discriminate].
    injection H as <-. constructor; eauto.
Qed.

End DictFacts.

Module SanitizeFacts.

Import PyStr Py DictFacts.

Section Sanitize.

Context {B : Builtins}.

(** What [sanitize_function] leaves under [arguments] is a string. *)
Lemma sanitize_function_string (function : value) (func : dict) :
  Client.sanitize_function function = Ok func ->
  Client.is_string (dict_get func "arguments") = true.
Proof.
  unfold Client.sanitize_function. destruct function; try discriminate.
  - destruct (existsb _ items); discriminate.
  - set (func0 := Client.drop_parameters entries).
    destruct (dict_get func0 "arguments") as [[| | | | s | | a |]|] eqn:E; intros H;
      try (injection H as <-; rewrite dict_get_set_same; reflexivity).
    + injection H as <-. now rewrite E.
    + destruct (json_dumps (VDict a)); [|discriminate].
      injection H as <-. now rewrite dict_get_set_same.
Qed.





Lemma has_role_exclusive (m : dict) (r r' : string) :
  Client.has_role r m = true -> String.eqb r r' = false ->
  Client.has_role r' m = false.
Proof.
  unfold Client.has_role, eq_str.
  destruct (dict_get_default m "role" VNone); try discriminate.
  intros H Hne. apply String.eqb_eq in H. subst s.
  exact Hne.
Qed.

(** What one message contributes, role by role. *)
Lemma sanitize_user_turn (m : dict) :
  Client.has_role "user" m = true ->
  Client.sanitize_message m
    = Ok [[("role", dict_get_default m "role" VNone);
           ("content", dict_get_default m "content" (VStr ""))]].
Proof.
  unfold Client.has_role, Client.sanitize_message. intros ->.
  unfold dict_get_default. now rewrite dict_get_filter_other.
Qed.

Lemma sanitize_tool_turn (m : dict) :
  Client.has_role "tool" m = true ->
  Client.sanitize_message m
    = Ok [[("role", VStr "tool");
           ("content", dict_get_default m "content" (VStr ""));
           ("tool_call_id", dict_get_default m "tool_call_id" VNone)]].
Proof.
  intros H. unfold Client.sanitize_message.
  pose proof (has_role_exclusive m "tool" "user" H eq_refl) as Hu.
  pose proof (has_role_exclusive m "tool" "assistant" H eq_refl) as Ha.
  unfold Client.has_role in *. rewrite Hu, Ha, H.
  unfold dict_get_default. now rewrite !dict_get_filter_other.
Qed.

Lemma sanitize_blank_assistant (m : dict) :
  Client.blank_assistant m = true -> Client.sanitize_message m = Ok [].
Proof.
  unfold Client.blank_assistant. intros H.
  apply andb_true_iff in H as [H Ht]. apply andb_true_iff in H as [Hr Hn].
  pose proof (has_role_exclusive m "assistant" "user" Hr eq_refl) as Hu.
  unfold Client.sanitize_message. unfold Client.has_role in *.
  rewrite Hu, Hr. rewrite !dict_get_filter_other by reflexivity. rewrite Hn. simpl.
  unfold Client.has_text in Ht.
  destruct (dict_get m "content") as [[| | | | c | | |]|]; try reflexivity.
  now destruct (negb (String.eqb (strip c) "")).
Qed.

Lemma sanitize_other_role (m : dict) :
  Client.has_role "user" m = false ->
  Client.has_role "assistant" m = false ->
  Client.has_role "tool" m = false ->
  Client.sanitize_message m = Ok [].
Proof.
  unfold Client.has_role, Client.sanitize_message. now intros -> -> ->.
Qed.

Lemma has_role_head (r : string) (v : value) (rest : dict) :
  Client.has_role r (("role", v) :: rest) = eq_str v r.
Proof. reflexivity. Qed.

Lemma count_one {A} (p : A -> bool) (x : A) :
  Client.count p [x] = if p x then 1 else 0.
Proof. unfold Client.count. simpl. now destruct (p x). Qed.

Lemma not_blank_with_role (v : value) (rest : dict) :
  eq_str v "assistant" = false ->
  Client.blank_assistant (("role", v) :: rest) = false.
Proof. intros H. unfold Client.blank_assistant. now rewrite has_role_head, H. Qed.

(** The entries one message contributes keep its role, and none of them
    is a blank assistant turn. *)
Lemma sanitize_message_counts (m : dict) (entries : list dict) (r : string) :
  Client.sanitize_message m = Ok entries ->
  (r = "user" \/ r = "tool") ->
  Client.count (Client.has_role r) entries = (if Client.has_role r m then 1 else 0)
  /\ Forall (fun e => Client.blank_assistant e = false) entries.
Proof.
  intros Hs Hr.
  destruct (Client.has_role "user" m) eqn:Hu.
  { rewrite sanitize_user_turn in Hs by assumption. injection Hs as <-.
    split.
    - rewrite count_one, has_role_head. reflexivity.
    - constructor; [|constructor]. apply not_blank_with_role.
      exact (has_role_exclusive m "user" "assistant" Hu eq_refl). }
  destruct (Client.has_role "tool" m) eqn:Ht.
  { rewrite sanitize_tool_turn in Hs by assumption. injection Hs as <-.
    split.
    - rewrite count_one, has_role_head.
      destruct Hr as [-> | ->]; [rewrite Hu | rewrite Ht]; reflexivity.
    - constructor; [|constructor]. now apply not_blank_with_role. }
  assert (Hr' : Client.has_role r m = false) by (destruct Hr as [-> | ->]; assumption).
  rewrite Hr'.
  destruct (Client.has_role "assistant" m) eqn:Ha.
  2:{ rewrite sanitize_other_role in Hs by assumption. injection Hs as <-.
      split; [reflexivity | constructor]. }
  revert Hs. unfold Client.sanitize_message. unfold Client.has_role in Hu, Ha.
  rewrite Hu, Ha.
  destruct (negb (Client.is_none _)).
  - destruct (iterate _) as [items|]; [|discriminate].
    destruct (map_result _ items) as [tcs|]; [|discriminate].
    intros Hs. injection Hs as <-. split.
    + rewrite count_one, has_role_head. fold (Client.has_role r m). now rewrite Hr'.
    + constructor; [|constructor].
      unfold Client.blank_assistant. rewrite has_role_head, Ha. reflexivity.
  - destruct (dict_get _ "content") as [[| | | | c | | |]|]; intros Hs;
      try (injection Hs as <-; split; [reflexivity | constructor]).
    destruct (negb (String.eqb (strip c) "")) eqn:Ec; injection Hs as <-.
    + split.
      * rewrite count_one, has_role_head. fold (Client.has_role r m). now rewrite Hr'.
      * constructor; [|constructor].
        unfold Client.blank_assistant, Client.has_text.
        rewrite has_role_head, Ha. cbn [dict_get String.eqb Ascii.eqb Bool.eqb].
        simpl. rewrite Ec. reflexivity.
    + split; [reflexivity | constructor].
Qed.

Lemma count_app {A} (p : A -> bool) (l1 l2 : list A) :
  Client.count p (l1 ++ l2) = Client.count p l1 + Client.count p l2.
Proof. unfold Client.count. now rewrite filter_app, length_app. Qed.

(** The entries one message contributes: one when it is forwarded, none
    otherwise. *)
Lemma sanitize_message_length (m : dict) (entries : list dict) :
  Client.sanitize_message m = Ok entries ->
  List.length entries = if Client.forwarded m then 1 else 0.
Proof.
  intros Hs. unfold Client.forwarded.
  destruct (Client.has_role "user" m) eqn:Hu.
  { rewrite sanitize_user_turn in Hs by assumption. now injection Hs as <-. }
  destruct (Client.has_role "tool" m) eqn:Ht.
  { rewrite sanitize_tool_turn in Hs by assumption. now injection Hs as <-. }
  destruct (Client.has_role "assistant" m) eqn:Ha.
  2:{ rewrite sanitize_other_role in Hs by assumption. now injection Hs as <-. }
  cbn [orb andb]. revert Hs.
  unfold Client.sanitize_message, Client.blank_assistant, Client.has_text.
  rewrite Ha. unfold Client.has_role in Hu, Ha. rewrite Hu, Ha.
  rewrite !dict_get_filter_other by reflexivity. cbn [andb].
  destruct (Client.is_none (dict_get m "tool_calls")); cbn [negb andb].
  - destruct (dict_get m "content") as [[| | | | c | | |]|]; intros Hs;
      try (now injection Hs as <-).
    destruct (negb (String.eqb (strip c) "")); now injection Hs as <-.
  - destruct (iterate _) as [items|]; [|discriminate].
    destruct (map_result _ items) as [tcs|]; [|discriminate].
    intros Hs. now injection Hs as <-.
Qed.

Lemma sanitize_messages_length (msgs sanitized : list dict) :
  Client.sanitize_messages msgs = Ok sanitized ->
  List.length sanitized = Client.count Client.forwarded msgs.
Proof.
  revert sanitized. induction msgs as [|m msgs IH]; simpl; intros sanitized Hs.
  - now injection Hs as <-.
  - destruct (Client.sanitize_message m) as [entries|] eqn:Em; [|discriminate].
    destruct (Client.sanitize_messages msgs) as [rest|]; [|discriminate].
    injection Hs as <-. rewrite length_app, (sanitize_message_length m entries Em).
    rewrite (IH rest eq_refl). unfold Client.count. simpl.
    now destruct (Client.forwarded m).
Qed.

Lemma sanitize_assistant_text (m : dict) (c : string) :
  Client.has_role "assistant" m = true ->
  Client.is_none (dict_get m "tool_calls") = true ->
  dict_get m "content" = Some (VStr c) ->
  String.eqb (strip c) "" = false ->
  Client.sanitize_message m = Ok [[("role", VStr "assistant"); ("content", VStr c)]].
Proof.
  intros Hr Hn Hc Hs.
  pose proof (has_role_exclusive m "assistant" "user" Hr eq_refl) as Hu.
  unfold Client.sanitize_message. unfold Client.has_role in Hu, Hr.
  rewrite Hu, Hr. rewrite !dict_get_filter_other by reflexivity. rewrite Hn, Hc, Hs.
  cbn [negb]. unfold eq_str in Hr.
  destruct (dict_get_default m "role" VNone) as [| | | | r | | |]; try discriminate.
  apply String.eqb_eq in Hr. now subst r.
Qed.

(** C6, as the code has it. Only assistant turns are dropped for want of
    content: an assistant turn with no tool calls whose content is
    missing, not a string, empty or blank contributes nothing, while one
    whose content holds text is forwarded with that content; a turn
    whose role is none of user, assistant, tool is dropped as well;
    every user turn and every tool turn is forwarded whatever its
    content, a missing content becoming the empty string. So the
    sanitized list has one entry for each turn that is a user turn, a
    tool turn or an assistant turn that is not blank, and none for any
    other: as many user turns and as many tool turns as the input, and
    no blank assistant turn. *)
Theorem sanitize_drops_only_blank_assistant_turns :
  forall (msgs sanitized : list dict),
    Client.sanitize_messages msgs = Ok sanitized ->
    List.length sanitized = Client.count Client.forwarded msgs
    /\ Client.count (Client.has_role "user") sanitized
       = Client.count (Client.has_role "user") msgs
    /\ Client.count (Client.has_role "tool") sanitized
       = Client.count (Client.has_role "tool") msgs
    /\ Forall (fun entry => Client.blank_assistant entry = false) sanitized
    /\ (forall m, Client.blank_assistant m = true ->
          Client.sanitize_message m = Ok [])
    /\ (forall m,
          Client.has_role "user" m = false ->
          Client.has_role "assistant" m = false ->
          Client.has_role "tool" m = false ->
          Client.sanitize_message m = Ok [])
    /\ (forall m c,
          Client.has_role "assistant" m = true ->
          Client.is_none (dict_get m "tool_calls") = true ->
          dict_get m "content" = Some (VStr c) ->
          String.eqb (strip c) "" = false ->
          Client.sanitize_message m
            = Ok [[("role", VStr "assistant"); ("content", VStr c)]])
    /\ (forall m, Client.has_role "user" m = true ->
          Client.sanitize_message m
            = Ok [[("role", dict_get_default m "role" VNone);
                   ("content", dict_get_default m "content" (VStr ""))]])
    /\ (forall m, Client.has_role "tool" m = true ->
          Client.sanitize_message m
            = Ok [[("role", VStr "tool");
                   ("content", dict_get_default m "content" (VStr ""));
                   ("tool_call_id", dict_get_default m "tool_call_id" VNone)]]).
Proof.
  intros msgs sanitized Hs.
  assert (Hcount : forall r, r = "user" \/ r = "tool" ->
            Client.count (Client.has_role r) sanitized
              = Client.count (Client.has_role r) msgs
            /\ Forall (fun entry => Client.blank_assistant entry = false) sanitized).
  { intros r Hr. revert sanitized Hs.
    induction msgs as [|m msgs IH]; simpl; intros sanitized Hs.
    - injection Hs as <-. split; [reflexivity | constructor].
    - destruct (Client.sanitize_message m) as [entries|] eqn:Em; [|discriminate].
      destruct (Client.sanitize_messages msgs) as [rest|]; [|discriminate].
      injection Hs as <-.
      destruct (sanitize_message_counts m entries r Em Hr) as [Hc Hb].
      destruct (IH rest eq_refl) as [Hc' Hb'].
      split.
      + rewrite count_app, Hc, Hc'. unfold Client.count. simpl.
        now destruct (Client.has_role r m).
      + apply Forall_app. now split. }
  destruct (Hcount "user" (or_introl eq_refl)) as [Hu Hb].
  destruct (Hcount "tool" (or_intror eq_refl)) as [Ht _].
  split; [exact (sanitize_messages_length msgs sanitized Hs)|].
  split; [exact Hu|]. split; [exact Ht|]. split; [exact Hb|].
  split; [exact sanitize_blank_assistant|].
  split; [exact sanitize_other_role|].
  split; [exact sanitize_assistant_text|].
  split; [exact sanitize_user_turn | exact sanitize_tool_turn].
Qed.

End Sanitize.


(** C6 as stated fails: of three turns without text, the user turn and
    the tool turn are forwarded, only the assistant turn is dropped. *)
Lemma sanitize_forwards_blank_user_and_tool_turns :
  Client.sanitize_messages (B := Scripted.builtins) Scripted.blank_turns
  = Ok [ [("role", VStr "user"); ("content", VStr "")];
         [("role", VStr "tool"); ("content", VStr "   ");
          ("tool_call_id", VStr "call_1")] ].
Proof. reflexivity. Qed.

(** Of the three blank turns of the script and a turn of a role of its
    own, two are forwarded; the blank assistant turn and the turn of the
    other role contribute nothing. *)
Lemma sanitize_drops_only_blank_assistant_turns_witness :
  Client.sanitize_messages (B := Scripted.builtins)
    (Scripted.blank_turns ++ [[("role", VStr "system"); ("content", VStr "Be brief.")]])
  = Ok [ [("role", VStr "user"); ("content", VStr "")];
         [("role", VStr "tool"); ("content", VStr "   ");
          ("tool_call_id", VStr "call_1")] ]
  /\ Client.count Client.forwarded
       (Scripted.blank_turns ++ [[("role", VStr "system"); ("content", VStr "Be brief.")]])
     = 2
  /\ Client.sanitize_message (B := Scripted.builtins)
       [("role", VStr "assistant"); ("content", VStr "  ")] = Ok []
  /\ Client.sanitize_message (B := Scripted.builtins)
       [("role", VStr "system"); ("content", VStr "Be brief.")] = Ok []
  /\ Client.sanitize_message (B := Scripted.builtins)
       [("role", VStr "assistant"); ("content", VStr "No alerts.")]
     = Ok [[("role", VStr "assistant"); ("content", VStr "No alerts.")]].
Proof.
  pose proof (sanitize_drops_only_blank_assistant_turns (B := Scripted.builtins)
                (Scripted.blank_turns
                 ++ [[("role", VStr "system"); ("content", VStr "Be brief.")]])
                [ [("role", VStr "user"); ("content", VStr "")];
                  [("role", VStr "tool"); ("content", VStr "   ");
                   ("tool_call_id", VStr "call_1")] ]
                eq_refl) as H.
  destruct H as [Hlen [_ [_ [_ [Hblank [Hother [Htext _]]]]]]].
  split; [reflexivity|]. split; [symmetry; exact Hlen|].
  split; [apply Hblank; reflexivity|].
  split; [apply Hother; reflexivity|].
  apply Htext; reflexivity.
Defined.

End SanitizeFacts.

Module PresentFacts.

Import PyStr Py.

(** ** Lines *)

Lemma has_linebreak_app (a b : string) :
  has_linebreak (a ++ b) = has_linebreak a || has_linebreak b.
Proof.
  induction a as [|c a IH]; simpl; [reflexivity|].
  now rewrite IH, orb_assoc.
Qed.

(** The lines [splitlines] produces hold no line boundary. *)
Lemma splitlines_aux_no_linebreak (s : string) :
  forall (after_cr : bool) (cur : string),
    has_linebreak cur = false ->
    Forall (fun l => has_linebreak l = false) (splitlines_aux after_cr cur s).
Proof.
  induction s as [|c s IH]; intros after_cr cur Hcur; simpl.
  - destruct cur; constructor; [assumption | constructor].
  - destruct (after_cr && (ord c =? 10)%nat).
    + now apply IH.
    + destruct (is_linebreak c) eqn:Ec.
      * constructor; [assumption | now apply IH].
      * apply IH. rewrite has_linebreak_app, Hcur. simpl. now rewrite Ec.
Qed.

(** Reading a piece without line boundary extends the current line. *)
Lemma splitlines_aux_piece (l : string) :
  forall (cur s : string),
    has_linebreak l = false ->
    splitlines_aux false cur (l ++ s) = splitlines_aux false (cur ++ l) s.
Proof.
  induction l as [|c l IH]; intros cur s Hl; simpl.
  - f_equal. induction cur as [|x cur IHc]; simpl; [reflexivity | now rewrite <- IHc].
  - simpl in Hl. apply orb_false_iff in Hl as [Hc Hl]. rewrite Hc.
    rewrite IH by assumption. f_equal.
    now rewrite PyStrFacts.append_assoc.
Qed.

Lemma splitlines_aux_newline (cur s : string) :
  splitlines_aux false cur (nl ++ s) = cur :: splitlines_aux false EmptyString s.
Proof. reflexivity. Qed.

Lemma append_empty_r (s : string) : s ++ "" = s.
Proof. induction s as [|c s IH]; simpl; [reflexivity | now rewrite IH]. Qed.

(** Every line of a text joined from lines is one of those lines (the
    first one after what was already read). *)
Lemma splitlines_join (ls : list string) :
  Forall (fun l => has_linebreak l = false) ls ->
  forall (cur l : string),
    In l (splitlines_aux false cur (join nl ls)) ->
    match ls with
    | [] => l = cur
    | x :: rest => l = cur ++ x \/ In l rest
    end.
Proof.
  induction 1 as [|x rest Hx Hrest IH]; intros cur l Hin.
  - simpl in Hin. destruct cur; simpl in Hin; [contradiction|].
    destruct Hin as [<- | []]. reflexivity.
  - destruct rest as [|y rest].
    + simpl in Hin. rewrite <- (append_empty_r x) in Hin.
      rewrite splitlines_aux_piece in Hin by assumption. simpl in Hin.
      destruct (cur ++ x) eqn:E; simpl in Hin; [contradiction|].
      destruct Hin as [<- | []]. now left.
    + change (join nl (x :: y :: rest)) with (x ++ nl ++ join nl (y :: rest)) in Hin.
      rewrite splitlines_aux_piece, splitlines_aux_newline in Hin by assumption.
      destruct Hin as [<- | Hin]; [now left|].
      right. apply IH in Hin. simpl in Hin.
      destruct Hin as [-> | Hin]; [now left | now right].
Qed.

Lemma splitlines_join_In (ls : list string) (l : string) :
  Forall (fun l => has_linebreak l = false) ls ->
  In l (splitlines (join nl ls)) -> In l ls.
Proof.
  intros Hls Hin. destruct ls as [|x rest]; [contradiction|].
  apply (splitlines_join (x :: rest) Hls EmptyString l) in Hin.
  simpl in Hin. destruct Hin as [-> | Hin]; [now left | now right].
Qed.

Lemma cleaned_lines (llm_response line : string) :
  In line (splitlines (Client.cleaned_of llm_response)) ->
  In line (splitlines llm_response)
  /\ startswith Client.calling_prefix line = false.
Proof.
  intros Hin. unfold Client.cleaned_of in Hin.
  apply splitlines_join_In in Hin.
  - apply filter_In in Hin as [Hin Hp]. split; [assumption|].
    now apply negb_true_iff in Hp.
  - apply Forall_forall. intros l Hl. apply filter_In in Hl as [Hl _].
    pose proof (splitlines_aux_no_linebreak llm_response false EmptyString eq_refl) as H.
    rewrite Forall_forall in H. now apply H.
Qed.

(** A reply made of marker lines only leaves nothing. *)
Lemma cleaned_of_markers_only (llm_response : string) :
  Forall (fun line => startswith Client.calling_prefix line = true)
         (splitlines llm_response) ->
  Client.cleaned_of llm_response = "".
Proof.
  unfold Client.cleaned_of. induction 1 as [|line rest Hline _ IH].
  - reflexivity.
  - cbn [filter]. rewrite Hline. cbn [negb]. exact IH.
Qed.

(** A text joined from lines, the last of them not empty, splits into
    those lines again. *)
Lemma append_nonempty (a b : string) : b <> "" -> a ++ b <> "".
Proof. destruct a; simpl; [auto | discriminate]. Qed.

Lemma splitlines_aux_join_exact (rest : list string) :
  forall (cur x : string),
    Forall (fun l => has_linebreak l = false) (x :: rest) ->
    last (x :: rest) "" <> "" ->
    splitlines_aux false cur (join nl (x :: rest)) = (cur ++ x) :: rest.
Proof.
  induction rest as [|y rest IH]; intros cur x Hlines Hlast.
  - simpl in *. apply Forall_inv in Hlines.
    rewrite <- (append_empty_r x) at 1.
    rewrite splitlines_aux_piece by assumption. simpl.
    pose proof (append_nonempty cur x Hlast) as Hne.
    destruct (cur ++ x); [contradiction | reflexivity].
  - change (join nl (x :: y :: rest)) with (x ++ nl ++ join nl (y :: rest)).
    rewrite splitlines_aux_piece by (now apply Forall_inv in Hlines).
    rewrite splitlines_aux_newline. f_equal.
    apply (IH "" y); [now apply Forall_inv_tail in Hlines | exact Hlast].
Qed.

Lemma splitlines_join_exact (lines : list string) (final : string) :
  Forall (fun l => has_linebreak l = false) (lines ++ [final]) ->
  final <> "" ->
  splitlines (join nl (lines ++ [final])) = (lines ++ [final])%list.
Proof.
  intros Hlines Hfinal. unfold splitlines.
  destruct (lines ++ [final])%list as [|x rest] eqn:E.
  - now destruct lines.
  - apply (splitlines_aux_join_exact rest "" x Hlines).
    rewrite <- E, last_last. exact Hfinal.
Qed.

(** C7, as the code has it. The cleaned text is the reply without the
    lines that begin with "[Calling tool ": none of its lines begins so,
    every one of them is a line of the reply, and for a reply given line
    by line it is exactly the other lines, in their order, joined by
    newlines. When the cleaned text is empty or a tool-use placeholder
    tag and the last tool result is a non-empty string, what is shown is
    the label "[Tool Result] " followed by that string; in particular so
    for a reply of marker lines only. When the last tool result is
    something else that counts as true (a non-empty list, say), the
    concatenation raises [TypeError] and nothing is shown. When the
    cleaned text is neither empty nor a placeholder, or there is no tool
    result (none, or an empty one), the cleaned text is shown,
    stripped. *)
Theorem present_removes_markers_and_labels_tool_result :
  forall (llm_response : string) (last_tool_result : value),
    Forall (fun line => startswith "[Calling tool " line = false
                        /\ In line (splitlines llm_response))
           (splitlines (Client.cleaned_of llm_response))
    /\ (forall (lines : list string) (final : string),
          Forall (fun l => has_linebreak l = false) (lines ++ [final]) ->
          final <> "" ->
          Client.cleaned_of (join nl (lines ++ [final]))
          = join nl (filter (fun line => negb (startswith "[Calling tool " line))
                            (lines ++ [final])))
    /\ (forall r : string,
          Client.is_placeholder (Client.cleaned_of llm_response) = true ->
          last_tool_result = VStr r -> r <> "" ->
          Client.present llm_response last_tool_result = Ok ("[Tool Result] " ++ r))
    /\ (forall r : string,
          Forall (fun line => startswith "[Calling tool " line = true)
                 (splitlines llm_response) ->
          last_tool_result = VStr r -> r <> "" ->
          Client.present llm_response last_tool_result = Ok ("[Tool Result] " ++ r))
    /\ (Client.is_placeholder (Client.cleaned_of llm_response) = true ->
        truthy last_tool_result = true ->
        Client.is_string (Some last_tool_result) = false ->
        Client.present llm_response last_tool_result
        = Raise (mkExn TypeError
                   ("can only concatenate str (not " ++ String (chr 34) EmptyString
                    ++ type_name last_tool_result ++ String (chr 34) EmptyString
                    ++ ") to str")))
    /\ (Client.is_placeholder (Client.cleaned_of llm_response) = false
        \/ truthy last_tool_result = false ->
        Client.present llm_response last_tool_result
          = Ok (strip (Client.cleaned_of llm_response))).
Proof.
  intros llm_response last_tool_result.
  assert (Hfire : forall r : string,
            Client.is_placeholder (Client.cleaned_of llm_response) = true ->
            last_tool_result = VStr r -> r <> "" ->
            Client.present llm_response last_tool_result = Ok ("[Tool Result] " ++ r)).
  { intros r Hp -> Hr. unfold Client.present. rewrite Hp. simpl.
    destruct (String.eqb r "") eqn:E; [|reflexivity].
    apply String.eqb_eq in E. contradiction. }
  split; [|split; [|split; [|split; [|split]]]].
  - apply Forall_forall. intros line Hin.
    apply cleaned_lines in Hin as [Hin Hp]. now split.
  - intros lines final Hlines Hfinal. unfold Client.cleaned_of.
    now rewrite (splitlines_join_exact lines final Hlines Hfinal).
  - exact Hfire.
  - intros r Hall. apply Hfire.
    change "[Calling tool " with Client.calling_prefix in Hall.
    now rewrite (cleaned_of_markers_only llm_response Hall).
  - intros Hp Ht Hs. unfold Client.present. rewrite Hp, Ht. cbn [andb].
    destruct last_tool_result; try reflexivity. discriminate.
  - intros [Hp | Ht]; unfold Client.present.
    + now rewrite Hp.
    + now rewrite Ht, andb_false_r.
Qed.

(** A reply of three lines loses its marker line; a reply that is one
    marker line is answered with the labelled tool result when that is
    a string, and with [TypeError] when it is the list of content items
    the OpenAI adapter logs. *)
Lemma present_removes_markers_and_labels_tool_result_witness :
  Client.cleaned_of
    ("It is sunny." ++ nl ++ "[Calling tool get_forecast with args {}]" ++ nl
     ++ "Have a nice day.")
  = "It is sunny." ++ nl ++ "Have a nice day."
  /\ Client.present "[Calling tool get_alerts with args {'state': 'CA'}]"
       (VStr "No active alerts for this state.")
     = Ok ("[Tool Result] " ++ "No active alerts for this state.")
  /\ Client.present "[Calling tool get_alerts with args {'state': 'CA'}]"
       (Scripted.text_content "No active alerts for this state.")
     = Raise (mkExn TypeError
                ("can only concatenate str (not " ++ String (chr 34) EmptyString
                 ++ "list" ++ String (chr 34) EmptyString ++ ") to str")).
Proof.
  split; [|split].
  - apply (proj1 (proj2
             (present_removes_markers_and_labels_tool_result "" VNone))
             ["It is sunny."; "[Calling tool get_forecast with args {}]"]
             "Have a nice day.").
    + repeat constructor.
    + discriminate.
  - apply (proj1 (proj2 (proj2 (proj2
             (present_removes_markers_and_labels_tool_result
                "[Calling tool get_alerts with args {'state': 'CA'}]"
                (VStr "No active alerts for this state.")))))
             "No active alerts for this state.").
    + repeat constructor.
    + reflexivity.
    + discriminate.
  - apply (proj1 (proj2 (proj2 (proj2 (proj2
             (present_removes_markers_and_labels_tool_result
                "[Calling tool get_alerts with args {'state': 'CA'}]"
                (Scripted.text_content "No active alerts for this state.")))))));
      reflexivity.
Defined.

(** C7 as stated fails on the text shown: for a reply that is one marker
    line and the tool result "No active alerts for this state.", the
    answer shown is that text behind the label "[Tool Result] ", not the
    raw text. *)
Lemma present_labels_the_tool_result :
  Client.present "[Calling tool get_alerts with args {'state': 'CA'}]"
    (VStr "No active alerts for this state.")
  = Ok "[Tool Result] No active alerts for this state.".
Proof. reflexivity. Qed.

End PresentFacts.

Module AdapterFacts.

Import PyStr Py.

(** ** Loops *)

(** A property of the state that every round keeps is kept by the loop,
    whether it ends or raises. *)
Lemma for_each_invariant {S A X} (P : S -> Prop) (body : A -> X -> M S A) :
  (forall acc x s, P s -> P (snd (body acc x s))) ->
  forall items acc s, P s -> P (snd (for_each items acc body s)).
Proof.
  intros Hbody. induction items as [|x items IH]; intros acc s Hs; simpl.
  - exact Hs.
  - unfold bind. specialize (Hbody acc x s Hs).
    destruct (body acc x s) as [[acc'|e] s1]; simpl in *.
    + now apply IH.
    + exact Hbody.
Qed.

Section Adapters.

Context {B : Builtins}.
Variable W : Type.
Variable list_tools : W -> result (list Client.tool) * W.
Variable call_tool : value -> value -> W -> result value * W.
Variable anthropic_create :
  list dict -> option (list dict) -> W -> result (list Client.block) * W.
Variable openai_create :
  list dict -> option (list dict) -> W -> result (list Client.oa_message) * W.
Variable http_post : string -> dict -> W -> result value * W.

#[local] Abbreviation state := (Client.state W).
#[local] Abbreviation process_query :=
  (Client.process_query W list_tools call_tool anthropic_create openai_create http_post).
#[local] Abbreviation claude_block := (Client.claude_block W call_tool anthropic_create).
#[local] Abbreviation process_with_claude :=
  (Client.process_with_claude W call_tool anthropic_create).
#[local] Abbreviation groq_tool_round := (Client.groq_tool_round W call_tool http_post).
#[local] Abbreviation groq_follow_up := (Client.groq_follow_up W http_post).
#[local] Abbreviation groq_request := (Client.groq_request W http_post).
#[local] Abbreviation process_with_groq := (Client.process_with_groq W call_tool http_post).
#[local] Abbreviation openai_tool_round := (Client.openai_tool_round W call_tool openai_create).
#[local] Abbreviation process_with_openai :=
  (Client.process_with_openai W call_tool openai_create).

(** ** The Anthropic adapter never writes a tool turn *)

Lemma find_tool_result_none (msgs : list dict) :
  Client.no_tool_turn msgs -> Client.find_tool_result msgs = VNone.
Proof.
  induction 1 as [|m msgs Hm _ IH]; simpl; [reflexivity|].
  unfold Client.has_role in Hm. now rewrite Hm.
Qed.

Lemma last_tool_result_none (msgs : list dict) :
  Client.no_tool_turn msgs -> Client.last_tool_result_of msgs = VNone.
Proof.
  intros H. apply find_tool_result_none. now apply Forall_rev.
Qed.

Lemma claude_block_messages (final_text : list string) (content : Client.block)
    (s : state) :
  exists extra,
    Client.messages (snd (claude_block final_text content s))
      = (Client.messages s ++ extra)%list
    /\ Client.no_tool_turn extra.
Proof.
  destruct content as [t | name input text | ty];
    try (exists []; split; [now rewrite app_nil_r | constructor]).
  unfold Client.claude_block, Client.do_call_tool, Client.perform, bind.
  destruct (call_tool (VStr name) input (Client.world s)) as [[content|e] w1];
    [|exists []; split; [now rewrite app_nil_r | constructor]].
  unfold try_except, bind, Client.get_messages, Client.perform, Client.append_message,
    lift, ret.
  destruct text as [t|]; [destruct (negb (String.eqb t ""))|]; simpl;
    match goal with
    | |- context [anthropic_create ?m ?t ?w] =>
        destruct (anthropic_create m t w) as [[response|e] w2]; simpl;
        [destruct (Client.first_block_text response); simpl|]
    end;
    eexists; (split; [rewrite <- ?app_assoc; reflexivity | repeat constructor]).
Qed.

(** The result of an executed tool call goes into the log as a user
    turn, after the assistant turn of the block's text when it has one. *)
Lemma claude_tool_result_turn (final_text : list string) (name : string)
    (input : value) (text : option string) (s : state) (content : value) (w' : W) :
  call_tool (VStr name) input (Client.world s) = (Ok content, w') ->
  exists before,
    Client.messages (snd (claude_block final_text (Client.ToolUseBlock name input text) s))
      = (Client.messages s ++ before ++ [[("role", VStr "user"); ("content", content)]])%list
    /\ Forall (fun m => Client.has_role "assistant" m = true) before.
Proof.
  intros Hcall.
  unfold Client.claude_block, Client.do_call_tool, Client.perform, bind.
  rewrite Hcall.
  unfold try_except, bind, Client.get_messages, Client.perform, Client.append_message,
    lift, ret.
  destruct text as [t|]; [destruct (negb (String.eqb t ""))|]; simpl;
    match goal with
    | |- context [anthropic_create ?m ?t ?w] =>
        destruct (anthropic_create m t w) as [[response|e] w2]; simpl;
        [destruct (Client.first_block_text response); simpl|]
    end;
    first [ exists [[("role", VStr "assistant"); ("content", VStr t)]];
            split; [now rewrite <- app_assoc | repeat constructor]
          | exists []; split; [reflexivity | constructor] ].
Qed.

Lemma process_with_claude_no_tool_turn (available_tools : list dict) (s : state) :
  Client.no_tool_turn (Client.messages s) ->
  Client.no_tool_turn (Client.messages (snd (process_with_claude available_tools s))).
Proof.
  intros Hs. unfold Client.process_with_claude, bind at 1.
  unfold try_except, bind, Client.get_messages, Client.perform, ret.
  destruct (anthropic_create (Client.messages s) (Some available_tools) (Client.world s))
    as [[content|e] w1]; simpl; [|exact Hs].
  set (s1 := Client.mkState w1 _ (Client.messages s)).
  pose proof (for_each_invariant (fun st : state => Client.no_tool_turn (Client.messages st))
                claude_block) as Hloop.
  specialize (Hloop (fun acc x st Hst =>
    match claude_block_messages acc x st with
    | ex_intro _ extra (conj Heq Hextra) =>
        eq_ind_r Client.no_tool_turn (proj2 (Forall_app _ _ _) (conj Hst Hextra)) Heq
    end) content [] s1 Hs).
  destruct (for_each content [] claude_block s1) as [[final_text|e] s2]; exact Hloop.
Qed.

(** C9. With the Anthropic provider the log never holds a turn of role
    "tool": an executed tool call leaves its result in a turn of role
    "user". So the second component of what [process_query] returns is
    [None], and the presentation shows the cleaned reply, never a tool
    result. *)
Theorem claude_tool_results_are_user_turns :
  forall (query : string) (s : state),
    Forall (fun m => Client.has_role "tool" m = false)
           (Client.messages (snd (process_query Client.Anthropic query s)))
    /\ match fst (process_query Client.Anthropic query s) with
       | Ok (llm_response, last_tool_result) =>
           last_tool_result = VNone
           /\ Client.present llm_response last_tool_result
              = Ok (strip (Client.cleaned_of llm_response))
       | Raise _ => True
       end
    /\ (forall final_text name input text s0 content w',
          call_tool (VStr name) input (Client.world s0) = (Ok content, w') ->
          exists before,
            Client.messages
              (snd (claude_block final_text (Client.ToolUseBlock name input text) s0))
              = (Client.messages s0 ++ before
                 ++ [[("role", VStr "user"); ("content", content)]])%list
            /\ Forall (fun m => Client.has_role "assistant" m = true) before).
Proof.
  intros query s.
  assert (H : Client.no_tool_turn
                (Client.messages (snd (process_query Client.Anthropic query s)))
              /\ match fst (process_query Client.Anthropic query s) with
                 | Ok (_, last_tool_result) => last_tool_result = VNone
                 | Raise _ => True
                 end).
  { unfold Client.process_query, bind, Client.perform, Client.get_messages, ret. simpl.
    destruct (list_tools (Client.world s)) as [[tools|e] w1]; simpl.
    2:{ split; [repeat constructor | exact I]. }
    set (s1 := Client.mkState w1 _ _).
    assert (H1 : Client.no_tool_turn (Client.messages s1)) by (repeat constructor).
    pose proof (process_with_claude_no_tool_turn (map Client.tool_entry tools) s1 H1) as H2.
    destruct (process_with_claude (map Client.tool_entry tools) s1)
      as [[llm_response|e] s2]; simpl in *.
    - split; [exact H2 | now apply last_tool_result_none].
    - split; [exact H2 | exact I]. }
  destruct H as [Hlog Hlast]. split; [exact Hlog|]. split.
  - destruct (fst (process_query Client.Anthropic query s)) as [[llm_response last]|e];
      [|exact I].
    subst last. split; [reflexivity|].
    unfold Client.present. simpl. now rewrite andb_false_r.
  - intros. now apply claude_tool_result_turn with (w' := w').
Qed.

(** ** A provider failure on the first request *)

Lemma function_tools_ok (tools : list Client.tool) :
  exists groq_tools,
    map_result Client.function_tool (map Client.tool_entry tools) = Ok groq_tools.
Proof.
  induction tools as [|t tools [groq_tools IH]]; simpl.
  - now exists [].
  - rewrite IH. eexists. reflexivity.
Qed.

Lemma sorry_text (middle msg : string) :
  startswith Client.sorry_prefix (Client.sorry_prefix ++ middle ++ msg) = true
  /\ contains msg (Client.sorry_prefix ++ middle ++ msg) = true.
Proof.
  split.
  - apply PyStrFacts.startswith_app.
  - rewrite <- PyStrFacts.append_assoc.
    rewrite <- (PresentFacts.append_empty_r msg) at 2.
    apply PyStrFacts.contains_app.
Qed.

Lemma present_without_tool_result (text : string) :
  Client.present text VNone = Ok (strip (Client.cleaned_of text)).
Proof. unfold Client.present. simpl. now rewrite andb_false_r. Qed.

Lemma groq_first_request_fails (query : string) (s : state)
    (tools : list Client.tool) (w1 w2 : W) (e : exn) :
  list_tools (Client.world s) = (Ok tools, w1) ->
  (forall payload, http_post Client.groq_url payload w1 = (Raise e, w2)) ->
  is_RequestException e || is_JSONDecodeError e = true ->
  exists payload,
    process_query Client.Groq query s
    = (Ok (Client.groq_sorry e, VNone),
       Client.mkState w2
         (Client.trace s ++ [Client.ListTools; Client.Post Client.groq_url payload])
         [[("role", VStr "user"); ("content", VStr query)]]).
Proof.
  intros Htools Hpost Hclass.
  destruct (function_tools_ok tools) as [groq_tools Hgt].
  exists (Client.groq_payload [[("role", VStr "user"); ("content", VStr query)]] groq_tools).
  unfold Client.process_query, bind at 1 2. simpl.
  unfold Client.perform at 1. simpl. rewrite Htools.
  unfold Client.process_with_groq, bind at 1 2, lift at 1. rewrite Hgt.
  unfold Client.try_clauses, Client.groq_request, bind, Client.get_messages, lift,
    Client.do_post, Client.perform. simpl.
  rewrite Hpost. unfold Client.groq_sorry.
  destruct (is_RequestException e) eqn:E1; simpl.
  - rewrite <- app_assoc. reflexivity.
  - simpl in Hclass. rewrite Hclass. simpl. rewrite <- app_assoc. reflexivity.
Qed.

Lemma claude_first_request_fails (query : string) (s : state)
    (tools : list Client.tool) (w1 w2 : W) (e : exn) :
  list_tools (Client.world s) = (Ok tools, w1) ->
  (forall msgs tls, anthropic_create msgs tls w1 = (Raise e, w2)) ->
  process_query Client.Anthropic query s
  = (Ok (Client.claude_sorry e, VNone),
     Client.mkState w2
       (Client.trace s
        ++ [Client.ListTools;
            Client.SdkRequest Client.Anthropic
              [[("role", VStr "user"); ("content", VStr query)]]
              (Some (map Client.tool_entry tools))])
       [[("role", VStr "user"); ("content", VStr query)]]).
Proof.
  intros Htools Hcreate.
  unfold Client.process_query, bind at 1 2. simpl.
  unfold Client.perform at 1. simpl. rewrite Htools.
  unfold Client.process_with_claude, bind, try_except, Client.get_messages,
    Client.perform. simpl.
  rewrite Hcreate. simpl. rewrite <- app_assoc. reflexivity.
Qed.

(** ** One round of the Groq loop *)

(** A well-formed tool call whose dispatch returns: the round appends
    the two turns, asks the provider again, and ends with the marker and
    the follow-up's text, or its error text. *)
Lemma groq_tool_round_returns (groq_tools : list dict) (final_text : list value)
    (tool_call fn name raw args id content : value) (s : state) (w1 : W) :
  getitem tool_call "function" = Ok fn ->
  getitem fn "name" = Ok name ->
  getitem fn "arguments" = Ok raw ->
  Client.groq_arguments raw = Ok args ->
  getitem tool_call "id" = Ok id ->
  call_tool name args (Client.world s) = (Ok content, w1) ->
  groq_tool_round groq_tools final_text tool_call s
  = match groq_follow_up groq_tools (Client.after_tool_call s w1 id name args content) with
    | (Ok text, s3) =>
        (Ok (final_text ++ [VStr (Client.calling_marker name args); text])%list, s3)
    | (Raise e, s3) =>
        (Ok (final_text ++ [VStr (Client.calling_marker name args);
                            VStr (Client.follow_up_text e)])%list, s3)
    end.
Proof.
  intros Hfn Hname Hraw Hargs Hid Hcall.
  unfold Client.groq_tool_round, bind at 1 2 3 4 5 6 7 8, lift.
  rewrite Hfn, Hname, Hraw, Hargs.
  unfold Client.do_call_tool, Client.perform. rewrite Hcall, Hid.
  unfold Client.append_message, try_except, bind, ret, Client.after_tool_call. simpl.
  rewrite <- !app_assoc. simpl.
  destruct (groq_follow_up groq_tools _) as [[text|e] s3];
    rewrite <- ?app_assoc; reflexivity.
Qed.

(** A dispatch that raises ends the round there: the exception leaves
    the adapter, and the log is as it was. *)
Lemma groq_tool_round_raises (groq_tools : list dict) (final_text : list value)
    (tool_call fn name raw args : value) (s : state) (w1 : W) (e : exn) :
  getitem tool_call "function" = Ok fn ->
  getitem fn "name" = Ok name ->
  getitem fn "arguments" = Ok raw ->
  Client.groq_arguments raw = Ok args ->
  call_tool name args (Client.world s) = (Raise e, w1) ->
  groq_tool_round groq_tools final_text tool_call s
  = (Raise e,
     Client.mkState w1 (Client.trace s ++ [Client.ToolCall name args]) (Client.messages s)).
Proof.
  intros Hfn Hname Hraw Hargs Hcall.
  unfold Client.groq_tool_round, bind at 1 2 3 4 5, lift.
  rewrite Hfn, Hname, Hraw, Hargs.
  unfold Client.do_call_tool, Client.perform. now rewrite Hcall.
Qed.

(** ** What a round sends and appends *)

Lemma groq_request_effect (groq_tools : list dict) (s s' : state) (r : result value) :
  groq_request groq_tools s = (r, s') ->
  Client.messages s' = Client.messages s
  /\ exists new,
       Client.trace s' = (Client.trace s ++ new)%list
       /\ (new = [] \/ exists payload, new = [Client.Post Client.groq_url payload])
       /\ (forall data, r = Ok data ->
             exists payload, new = [Client.Post Client.groq_url payload]).
Proof.
  unfold Client.groq_request, bind, Client.get_messages, lift, Client.do_post,
    Client.perform.
  destruct (Client.sanitize_messages (Client.messages s)) as [sanitized|e]; simpl.
  - destruct (http_post _ _ _) as [r1 w1]; simpl. intros H. injection H as <- <-.
    split; [reflexivity|]. eexists. split; [reflexivity|]. split; eauto.
  - intros H. injection H as <- <-. split; [reflexivity|].
    exists []. rewrite app_nil_r. split; [reflexivity|]. split; [now left|].
    intros data H. discriminate.
Qed.

Lemma groq_follow_up_effect (groq_tools : list dict) (s s' : state) (r : result value) :
  groq_follow_up groq_tools s = (r, s') ->
  exists new extra,
    Client.trace s' = (Client.trace s ++ new)%list
    /\ (new = [] \/ exists payload, new = [Client.Post Client.groq_url payload])
    /\ Client.messages s' = (Client.messages s ++ extra)%list
    /\ Forall (fun m => Client.has_role "assistant" m = true) extra.
Proof.
  unfold Client.groq_follow_up, bind at 1.
  destruct (groq_request groq_tools s) as [[data|e] s1] eqn:Hreq;
    destruct (groq_request_effect groq_tools s s1 _ Hreq) as [Hm [new [Ht [Hnew _]]]].
  2:{ intros H. injection H as <- <-.
      exists new, []. rewrite app_nil_r. repeat split; auto. }
  unfold bind, lift, Client.append_message.
  destruct (Client.first_message data) as [response_message|e]; simpl.
  2:{ intros H. injection H as <- <-.
      exists new, []. rewrite app_nil_r. repeat split; auto. }
  destruct (get_method response_message "content" VNone) as [content|e]; simpl.
  2:{ intros H. injection H as <- <-.
      exists new, []. rewrite app_nil_r. repeat split; auto. }
  destruct (truthy content); simpl;
    destruct (get_method response_message "content" (VStr "")); simpl;
    intros H; injection H as <- <-; simpl;
    eexists new, _; rewrite Hm; repeat split; eauto; repeat constructor.
Qed.

Lemma marker_starts (name args : value) :
  startswith Client.calling_prefix (Client.calling_marker name args) = true.
Proof. unfold Client.calling_marker. apply PyStrFacts.startswith_app. Qed.

(** The three ways a round can go. *)
Lemma round_stops_early (final_text : list value) (s : state) (e : exn) :
  Client.round_effect final_text s (Raise e) s.
Proof.
  exists []. rewrite app_nil_r. split; [reflexivity|]. split; [reflexivity|].
  split; [apply Nat.le_0_l|]. split; [apply Nat.le_0_l|]. discriminate.
Qed.

Lemma round_stops_after_dispatch (final_text : list value) (s : state) (w1 : W)
    (name args : value) (e : exn) :
  Client.round_effect final_text s (Raise e)
    (Client.mkState w1 (Client.trace s ++ [Client.ToolCall name args]) (Client.messages s)).
Proof.
  exists [Client.ToolCall name args]. split; [reflexivity|]. split; [reflexivity|].
  split; [apply Nat.le_refl|]. split; [apply Nat.le_0_l|]. discriminate.
Qed.

Lemma round_ends (final_text : list value) (s s' : state) (name args text : value)
    (new : list Client.event) :
  Client.trace s' = ((Client.trace s ++ [Client.ToolCall name args]) ++ new)%list ->
  (new = [] \/ exists request, new = [request] /\ Client.is_model_request request = true
                               /\ Client.is_tool_call request = false) ->
  Client.round_effect final_text s
    (Ok (final_text ++ [VStr (Client.calling_marker name args); text])%list) s'.
Proof.
  intros Ht Hnew. exists (Client.ToolCall name args :: new).
  split; [now rewrite Ht, <- app_assoc|].
  assert (Hcounts : List.length (Client.ToolCall name args :: new)
                    = Client.count Client.is_tool_call (Client.ToolCall name args :: new)
                      + Client.count Client.is_model_request (Client.ToolCall name args :: new)
                    /\ Client.count Client.is_tool_call (Client.ToolCall name args :: new) = 1
                    /\ Client.count Client.is_model_request (Client.ToolCall name args :: new)
                       <= 1).
  { destruct Hnew as [-> | [request [-> [Hm Hc]]]]; unfold Client.count; simpl.
    - repeat split; auto.
    - rewrite Hm, Hc. repeat split; auto. }
  destruct Hcounts as [Hlen [Hc Hm]].
  split; [exact Hlen|]. split; [now rewrite Hc|]. split; [exact Hm|].
  intros final_text' H. injection H as <-. split; [exact Hc|].
  exists (Client.calling_marker name args), text. split; [reflexivity | apply marker_starts].
Qed.

Lemma groq_tool_round_effect (groq_tools : list dict) (final_text : list value)
    (tool_call : value) (s s' : state) (r : result (list value)) :
  groq_tool_round groq_tools final_text tool_call s = (r, s') ->
  Client.round_effect final_text s r s'.
Proof.
  assert (Hnone : forall e : exn,
            (Raise e, s) = (r, s') -> Client.round_effect final_text s r s').
  { intros e H. injection H as <- <-. apply round_stops_early. }
  unfold Client.groq_tool_round, bind at 1 2 3 4, lift.
  destruct (getitem tool_call "function") as [fn|e]; simpl; [|apply Hnone].
  destruct (getitem fn "name") as [name|e]; simpl; [|apply Hnone].
  destruct (getitem fn "arguments") as [raw|e]; simpl; [|apply Hnone].
  destruct (Client.groq_arguments raw) as [args|e]; simpl; [|apply Hnone].
  clear Hnone.
  unfold bind at 1, Client.do_call_tool, Client.perform.
  destruct (call_tool name args (Client.world s)) as [[content|e] w1]; simpl.
  2:{ intros H. injection H as <- <-. apply round_stops_after_dispatch. }
  unfold bind at 1, lift.
  destruct (getitem tool_call "id") as [id|e]; simpl.
  2:{ intros H. injection H as <- <-. apply round_stops_after_dispatch. }
  unfold bind, Client.append_message, try_except, ret. simpl.
  match goal with
  | |- context [groq_follow_up groq_tools ?st] =>
      destruct (groq_follow_up groq_tools st) as [[text|e] s3] eqn:Hf;
      destruct (groq_follow_up_effect groq_tools st _ _ Hf)
        as [new [extra [Ht [Hnew _]]]]
  end; simpl in Ht; intros H; injection H as <- <-; rewrite <- app_assoc;
    (apply round_ends with (new := new); [exact Ht|]);
    (destruct Hnew as [-> | [payload ->]]; [now left | right; eexists; eauto]).
Qed.

Lemma openai_tool_round_effect (final_text : list value)
    (tool_call : Client.oa_tool_call) (s s' : state) (r : result (list value)) :
  openai_tool_round final_text tool_call s = (r, s') ->
  Client.round_effect final_text s r s'.
Proof.
  unfold Client.openai_tool_round, bind at 1, Client.do_call_tool, Client.perform.
  destruct (call_tool _ _ (Client.world s)) as [[content|e] w1]; simpl.
  2:{ intros H. injection H as <- <-. apply round_stops_after_dispatch. }
  unfold bind, Client.append_message, try_except, Client.get_messages, Client.perform,
    lift, ret. simpl.
  destruct (openai_create _ None w1) as [[choices|e] w2]; simpl;
    [destruct (Client.first_choice choices); simpl|];
    intros H; injection H as <- <-; rewrite <- app_assoc;
    (eapply round_ends; [simpl; reflexivity | right; eexists; eauto]).
Qed.

(** ** The loop over the tool calls of the first reply *)

Lemma loop_effect_none (final_text : list value) (s : state) :
  Client.loop_effect 0 final_text s (Ok final_text) s.
Proof.
  exists []. rewrite app_nil_r. split; [reflexivity|]. split; [reflexivity|].
  split; [apply Nat.le_refl|]. split; [apply Nat.le_refl|].
  intros final_text' H. injection H as <-. split; [reflexivity|].
  exists []. split; [reflexivity|]. split; [constructor|].
  simpl. now rewrite app_nil_r.
Qed.

(** Rounds add up: a loop whose every round has the effect of a round
    has, over [n] items, the effect of [n] rounds. *)
Lemma for_each_loop_effect {X} (body : list value -> X -> M state (list value)) :
  (forall final_text x s r s',
     body final_text x s = (r, s') -> Client.round_effect final_text s r s') ->
  forall (items : list X) (final_text : list value) (s s' : state)
         (r : result (list value)),
    for_each items final_text body s = (r, s') ->
    Client.loop_effect (List.length items) final_text s r s'.
Proof.
  intros Hbody. induction items as [|x rest IH]; intros final_text s s' r Hrun.
  - injection Hrun as <- <-. apply loop_effect_none.
  - simpl in Hrun. unfold bind in Hrun.
    destruct (body final_text x s) as [[ft1|e] s1] eqn:Hround;
      apply Hbody in Hround as [new1 [Ht1 [Hl1 [Hc1 [Hm1 Hok1]]]]].
    + apply IH in Hrun as [new2 [Ht2 [Hl2 [Hc2 [Hm2 Hok2]]]]].
      destruct (Hok1 ft1 eq_refl) as [Hone [marker [text [-> Hmarker]]]].
      exists (new1 ++ new2)%list. rewrite !SanitizeFacts.count_app, length_app.
      split; [now rewrite Ht2, Ht1, app_assoc|].
      split; [lia|]. split; [simpl; lia|]. split; [simpl; lia|].
      intros final_text' ->.
      destruct (Hok2 final_text' eq_refl) as [Hall [rounds [Hlen [Hrounds ->]]]].
      split; [simpl; lia|].
      exists ((marker, text) :: rounds). simpl.
      split; [now rewrite Hlen|]. split; [now constructor|].
      now rewrite <- app_assoc.
    + injection Hrun as <- <-. exists new1.
      split; [exact Ht1|]. split; [exact Hl1|].
      split; [simpl; lia|]. split; [simpl; lia|]. discriminate.
Qed.

(** What remains of each adapter once the first reply is in. *)
Lemma process_with_groq_after_first_reply (available_tools groq_tools : list dict)
    (s s1 : state) (data : value) (message : dict) :
  map_result Client.function_tool available_tools = Ok groq_tools ->
  groq_request groq_tools s = (Ok data, s1) ->
  Client.first_message data = Ok (VDict message) ->
  process_with_groq available_tools s
  = bind (if truthy (dict_get_default message "tool_calls" VNone)
          then bind (lift (iterate (dict_get_default message "tool_calls" VNone)))
                 (fun tcs => for_each tcs (Client.first_text message)
                               (groq_tool_round groq_tools))
          else ret (Client.first_text message))
      (fun final_text => lift (join_values nl final_text)) s1.
Proof.
  intros Htools Hreq Hmsg.
  unfold Client.process_with_groq, Client.try_clauses, bind, lift, ret.
  rewrite Htools, Hreq, Hmsg. reflexivity.
Qed.

Lemma process_with_openai_after_first_reply (available_tools openai_tools : list dict)
    (s : state) (w1 : W) (choices : list Client.oa_message) (message : Client.oa_message) :
  map_result Client.function_tool available_tools = Ok openai_tools ->
  openai_create (Client.messages s) (Some openai_tools) (Client.world s)
    = (Ok choices, w1) ->
  Client.first_choice choices = Ok message ->
  process_with_openai available_tools s
  = bind (for_each (Client.openai_tool_calls message) (Client.openai_first_text message)
            openai_tool_round)
      (fun final_text => lift (join_values nl final_text))
      (Client.mkState w1
         (Client.trace s
          ++ [Client.SdkRequest Client.OpenAI (Client.messages s) (Some openai_tools)])
         (Client.messages s)).
Proof.
  intros Htools Hcreate Hchoice.
  unfold Client.process_with_openai, try_except, Client.get_messages, Client.perform,
    bind, lift, ret.
  rewrite Htools, Hcreate. simpl. rewrite Hchoice.
  unfold Client.openai_tool_calls, Client.openai_first_text.
  destruct (Client.oa_tool_calls message) as [[|tc tcs]|]; reflexivity.
Qed.

(** ** Provider failures *)

Lemma groq_sorry_text (e : exn) :
  startswith Client.sorry_prefix (Client.groq_sorry e) = true
  /\ contains (exn_str e) (Client.groq_sorry e) = true.
Proof. unfold Client.groq_sorry. destruct (is_RequestException e); apply sorry_text. Qed.

End Adapters.

(** ** The scripted runs *)

(** C1 as stated fails. In the first run the reply to the follow-up
    request asks for [get_forecast]; the adapter does not execute it and
    does not ask again: one tool was dispatched, two requests were sent,
    and the run is done with a reply that holds a tool call, the third
    scripted reply never asked for. In the second run the first reply
    holds two tool calls, and the provider is asked again after each of
    them, not once after both. *)
Lemma groq_is_done_with_a_tool_call_pending :
  fst (Scripted.process_query Client.Groq "alerts in CA" Scripted.pending_forecast)
    = Ok ("[Calling tool get_alerts with args {'state': 'CA'}]" ++ nl
          ++ "No alerts. Let me check the forecast.",
          VStr "No active alerts for this state.")
  /\ filter Client.is_tool_call
       (Client.trace
          (snd (Scripted.process_query Client.Groq "alerts in CA" Scripted.pending_forecast)))
     = [Client.ToolCall (VStr "get_alerts") (VDict [("state", VStr "CA")])]
  /\ Client.count Client.is_model_request
       (Client.trace
          (snd (Scripted.process_query Client.Groq "alerts in CA" Scripted.pending_forecast)))
     = 2
  /\ Scripted.http_replies
       (Client.world
          (snd (Scripted.process_query Client.Groq "alerts in CA" Scripted.pending_forecast)))
     = [Ok (Scripted.completion [("content", VStr "It is sunny.")])]
  /\ map Client.is_tool_call
       (Client.trace
          (snd (Scripted.process_query Client.Groq "alerts and forecast" Scripted.two_calls)))
     = [false; false; true; false; true; false]
  /\ map Client.is_model_request
       (Client.trace
          (snd (Scripted.process_query Client.Groq "alerts and forecast" Scripted.two_calls)))
     = [false; true; false; true; false; true].
Proof. repeat split; vm_compute; reflexivity. Qed.

Lemma claude_tool_results_are_user_turns_witness :
  Forall (fun m => Client.has_role "tool" m = false)
         (Client.messages
            (snd (Scripted.process_query Client.Anthropic "alerts in CA"
                    Scripted.claude_tool_use)))
  /\ Client.messages
       (snd (Scripted.process_query Client.Anthropic "alerts in CA"
               Scripted.claude_tool_use))
     = [ [("role", VStr "user"); ("content", VStr "alerts in CA")];
         [("role", VStr "user");
          ("content", Scripted.text_content "No active alerts for this state.")] ].
Proof.
  split; [|reflexivity].
  exact (proj1 (claude_tool_results_are_user_turns (B := Scripted.builtins)
                  Scripted.script Scripted.list_tools Scripted.call_tool
                  Scripted.anthropic_create Scripted.openai_create Scripted.http_post
                  "alerts in CA" (Scripted.start Scripted.claude_tool_use))).
Defined.

(** C3 as stated fails. The session breaks while [get_alerts] is called:
    the exception leaves [process_query], the log holds the user turn
    only, with no tool turn, and the loop of [chat_loop] prints an error
    line instead of an answer. *)
Lemma groq_dispatch_failure_ends_the_query :
  fst (Scripted.process_query Client.Groq "alerts in CA" Scripted.dispatch_fails)
    = Raise Scripted.connection_closed
  /\ Client.messages
       (snd (Scripted.process_query Client.Groq "alerts in CA" Scripted.dispatch_fails))
     = [[("role", VStr "user"); ("content", VStr "alerts in CA")]]
  /\ fst (Scripted.chat_round Client.Groq "alerts in CA" Scripted.dispatch_fails)
     = Client.ErrorLine (nl ++ "Error: Connection closed").
Proof. repeat split; vm_compute; reflexivity. Qed.

End AdapterFacts.

(* ===================================================================== *)
(** * Words and prefixes *)
(* ===================================================================== *)

Module WordFacts.

Import PyStr Py.

(** A text that begins with a non-empty prefix begins with its first
    character. *)
Lemma startswith_head (a : ascii) (p t : string) :
  startswith (String a p) t = true -> exists rest, t = String a rest.
Proof.
  destruct t as [|c rest]; simpl; [discriminate|].
  intros H. apply andb_true_iff in H as [H _]. apply Ascii.eqb_eq in H. subst c.
  now exists rest.
Qed.

Lemma lower_head (c : ascii) (q rest : string) :
  lower q = String c rest -> exists x q', q = String x q' /\ lower_char x = c.
Proof.
  destruct q as [|x q']; simpl; [discriminate|].
  intros H. injection H as H _. now exists x, q'.
Qed.

(** The letters that begin the three commands of [chat] are no white
    space, in either case. *)
Lemma command_letter_not_space (x : ascii) :
  lower_char x = "a"%char \/ lower_char x = "f"%char \/ lower_char x = "h"%char ->
  is_space x = false.
Proof.
  destruct x as [[] [] [] [] [] [] [] []]; vm_compute; intros [H | [H | H]];
    solve [reflexivity | discriminate].
Qed.

(** Reading on from inside a word always yields a word. *)
Lemma split_aux_in_word (s w : string) : split_aux (Some w) s <> [].
Proof.
  revert w. induction s as [|c s IH]; intros w; simpl.
  - discriminate.
  - destruct (is_space c); [discriminate | apply IH].
Qed.

Lemma split_word_first (x : ascii) (q : string) :
  is_space x = false -> split (String x q) <> [].
Proof. intros H. unfold split. simpl. rewrite H. apply split_aux_in_word. Qed.

Lemma last1_some (parts : list string) :
  parts <> [] -> exists word, Weather.last1 parts = Ok word.
Proof.
  intros H. unfold Weather.last1.
  destruct (rev parts) as [|word rest] eqn:E.
  - apply (f_equal (@rev string)) in E. rewrite rev_involutive in E. contradiction.
  - now exists word.
Qed.

(** The three commands exclude one another. *)
Lemma history_is_no_other_command (t : string) :
  startswith "history for" t = true ->
  startswith "alerts in" t = false /\ startswith "forecast for" t = false.
Proof. intros H. apply startswith_head in H as [rest ->]. now split. Qed.

Lemma forecast_is_no_alerts_command (t : string) :
  startswith "forecast for" t = true -> startswith "alerts in" t = false.
Proof. intros H. apply startswith_head in H as [rest ->]. reflexivity. Qed.

End WordFacts.

(* ===================================================================== *)
(** * The weather server: requests, fallbacks and the [/chat] commands *)
(* ===================================================================== *)

Module ServerFacts.

Import PyStr Py PyStrFacts WordFacts.

Section Server.

Context {B : Builtins}.
Variable W : Type.
Variable http_get : string -> dict -> W -> result value * W.

#[local] Abbreviation state := (Weather.state W).
#[local] Abbreviation make_nws_request := (Weather.make_nws_request W http_get).
#[local] Abbreviation get_forecast := (Weather.get_forecast W http_get).
#[local] Abbreviation get_global_forecast := (Weather.get_global_forecast W http_get).
#[local] Abbreviation nws_then_global := (Weather.nws_then_global W http_get).
#[local] Abbreviation geocode_location := (Weather.geocode_location W http_get).
#[local] Abbreviation forecast_by_name := (Weather.forecast_by_name W http_get).
#[local] Abbreviation get_alerts := (Weather.get_alerts W http_get).
#[local] Abbreviation chat := (Weather.chat W http_get).

(** [ask_upstream r w] splits on the answer to the request the goal makes
    next. *)
Ltac ask_upstream r w :=
  match goal with
  | |- context [http_get ?u ?p ?x] => destruct (http_get u p x) as [r w] eqn:?
  end.

(** ** One request *)

Lemma make_nws_request_ok (url : string) (s : state) (v : value) (w' : W) :
  http_get url [] (Weather.world W s) = (Ok v, w') ->
  make_nws_request url s = (Ok v, Weather.mkState W w' (Weather.sent W s ++ [url])).
Proof.
  intros H. unfold Weather.make_nws_request, try_except, Weather.fetch. now rewrite H.
Qed.

Lemma make_nws_request_raise (url : string) (s : state) (e : exn) (w' : W) :
  http_get url [] (Weather.world W s) = (Raise e, w') ->
  make_nws_request url s = (Ok VNone, Weather.mkState W w' (Weather.sent W s ++ [url])).
Proof.
  intros H. unfold Weather.make_nws_request, try_except, Weather.fetch. now rewrite H.
Qed.

Lemma make_nws_request_no_body (url : string) (s : state) (r : result value) (w' : W) :
  http_get url [] (Weather.world W s) = (r, w') ->
  Weather.no_body r ->
  exists v,
    make_nws_request url s = (Ok v, Weather.mkState W w' (Weather.sent W s ++ [url]))
    /\ truthy v = false.
Proof.
  intros H Hr. destruct r as [body|e].
  - exists body. split; [now apply make_nws_request_ok | exact Hr].
  - exists VNone. split; [now apply make_nws_request_raise with (e := e) | reflexivity].
Qed.

Lemma make_nws_request_outcome (url : string) (s : state) :
  exists v w',
    make_nws_request url s = (Ok v, Weather.mkState W w' (Weather.sent W s ++ [url])).
Proof.
  destruct (http_get url [] (Weather.world W s)) as [[v|e] w'] eqn:H.
  - exists v, w'. now apply make_nws_request_ok.
  - exists VNone, w'. now apply make_nws_request_raise with (e := e).
Qed.

Lemma map_result_length {X Y} (f : X -> result Y) :
  forall l l', map_result f l = Ok l' -> List.length l' = List.length l.
Proof.
  induction l as [|x l IH]; simpl; intros l' H.
  - now injection H as <-.
  - destruct (f x); [|discriminate]. destruct (map_result f l) as [ys|]; [|discriminate].
    injection H as <-. simpl. now rewrite (IH ys).
Qed.

(** ** The helpers that never raise *)

Lemma global_forecast_outcome (lat lon : float) (s : state) :
  exists text : string,
    get_global_forecast lat lon s
      = (Ok text,
         Weather.mkState W
           (snd (http_get (Weather.global_url lat lon) [] (Weather.world W s)))
           (Weather.sent W s ++ [Weather.global_url lat lon]))
    /\ (text = Weather.unable_global
        \/ exists temperature windspeed weathercode,
             text = Weather.current_weather_text temperature windspeed weathercode)
    /\ (forall e w1,
          http_get (Weather.global_url lat lon) [] (Weather.world W s) = (Raise e, w1) ->
          text = Weather.unable_global).
Proof.
  unfold Weather.get_global_forecast, try_except, bind, Weather.fetch, lift, ret.
  fold (Weather.global_url lat lon).
  ask_upstream r w1. destruct r as [data|e]; cbn [snd].
  2:{ exists Weather.unable_global. split; [reflexivity|]. split; [now left | reflexivity]. }
  assert (Hfail : exists text : string,
            (Ok Weather.unable_global,
             Weather.mkState W w1 (Weather.sent W s ++ [Weather.global_url lat lon]))
            = (Ok text, Weather.mkState W w1 (Weather.sent W s ++ [Weather.global_url lat lon]))
            /\ (text = Weather.unable_global
                \/ exists temperature windspeed weathercode,
                     text = Weather.current_weather_text temperature windspeed weathercode)
            /\ (forall (e : exn) (w2 : W), (Ok data, w1) = (Raise e, w2) ->
                  text = Weather.unable_global)).
  { exists Weather.unable_global. split; [reflexivity|]. split; [now left | reflexivity]. }
  destruct (contains_key "current_weather" data) as [[|]|e]; try exact Hfail.
  destruct (getitem data "current_weather") as [cw|e]; try exact Hfail.
  destruct (getitem cw "temperature") as [temperature|e]; try exact Hfail.
  destruct (getitem cw "windspeed") as [windspeed|e]; try exact Hfail.
  destruct (getitem cw "weathercode") as [weathercode|e]; try exact Hfail.
  eexists. split; [reflexivity|]. split.
  - right. now exists temperature, windspeed, weathercode.
  - discriminate.
Qed.

(** X1. [get_global_forecast] never raises, whatever the service answers:
    it sends one request, to the Open-Meteo address of the point, and
    returns either the "Current Weather" text of three readings or the
    sentence "Unable to fetch global forecast."; the latter whenever the
    exchange raised. *)
Theorem get_global_forecast_never_raises :
  forall (lat lon : float) (s : state),
  exists text : string,
    get_global_forecast lat lon s
      = (Ok text,
         Weather.mkState W
           (snd (http_get (Weather.global_url lat lon) [] (Weather.world W s)))
           (Weather.sent W s ++ [Weather.global_url lat lon]))
    /\ (text = "Unable to fetch global forecast."
        \/ exists temperature windspeed weathercode,
             text = "Current Weather:" ++ nl
                    ++ "Temperature: " ++ str temperature ++ degree ++ "C" ++ nl
                    ++ "Wind: " ++ str windspeed ++ " km/h" ++ nl
                    ++ "Weather Code: " ++ str weathercode ++ nl)
    /\ (forall e w1,
          http_get (Weather.global_url lat lon) [] (Weather.world W s) = (Raise e, w1) ->
          text = "Unable to fetch global forecast.").
Proof. intros lat lon s. exact (global_forecast_outcome lat lon s). Qed.

(** What the body of the geocoder must hold for [coords] to come back. *)
Lemma geocode_outcome (location : string) (s : state) :
  exists coords : option (float * float),
    geocode_location location s
      = (Ok coords,
         Weather.mkState W
           (snd (http_get Weather.geocode_url (Weather.geocode_params location)
                   (Weather.world W s)))
           (Weather.sent W s ++ [Weather.geocode_url]))
    /\ match fst (http_get Weather.geocode_url (Weather.geocode_params location)
                    (Weather.world W s)) with
       | Raise _ => coords = None
       | Ok data =>
           if truthy data then
             forall lat lon, coords = Some (lat, lon) ->
               exists first lat_v lon_v,
                 getitem0 data = Ok first
                 /\ getitem first "lat" = Ok lat_v /\ to_float lat_v = Ok lat
                 /\ getitem first "lon" = Ok lon_v /\ to_float lon_v = Ok lon
           else coords = None
       end.
Proof.
  unfold Weather.geocode_location, try_except, bind, Weather.fetch, lift, ret.
  fold Weather.geocode_url. fold (Weather.geocode_params location).
  ask_upstream r w1. destruct r as [data|e]; cbn [fst snd].
  2:{ exists None. split; reflexivity. }
  destruct (truthy data) eqn:Hdata.
  2:{ exists None. split; reflexivity. }
  assert (Hnone : exists coords : option (float * float),
            (Ok (@None (float * float)),
             Weather.mkState W w1 (Weather.sent W s ++ [Weather.geocode_url]))
            = (Ok coords, Weather.mkState W w1 (Weather.sent W s ++ [Weather.geocode_url]))
            /\ (forall lat lon, coords = Some (lat, lon) ->
                  exists first lat_v lon_v,
                    getitem0 data = Ok first
                    /\ getitem first "lat" = Ok lat_v /\ to_float lat_v = Ok lat
                    /\ getitem first "lon" = Ok lon_v /\ to_float lon_v = Ok lon)).
  { exists None. split; [reflexivity | discriminate]. }
  destruct (getitem0 data) as [first|e] eqn:Hfirst; try exact Hnone.
  destruct (getitem first "lat") as [lat_v|e] eqn:Hlat; try exact Hnone.
  destruct (to_float lat_v) as [lat|e] eqn:Hflat; try exact Hnone.
  destruct (getitem first "lon") as [lon_v|e] eqn:Hlon; try exact Hnone.
  destruct (to_float lon_v) as [lon|e] eqn:Hflon; try exact Hnone.
  exists (Some (lat, lon)). split; [reflexivity|].
  intros lat' lon' H. injection H as <- <-.
  now exists first, lat_v, lon_v.
Qed.

(** X2. [geocode_location] never raises: it sends one request, to the
    Nominatim search address with the place as [q], and answers [None]
    when the exchange raised or the body is empty; coordinates come back
    only when the first item of the body has a [lat] and a [lon] that
    [float] accepts. *)
Theorem geocode_location_never_raises :
  forall (location : string) (s : state),
  exists coords : option (float * float),
    geocode_location location s
      = (Ok coords,
         Weather.mkState W
           (snd (http_get "https://nominatim.openstreetmap.org/search"
                   [("q", VStr location); ("format", VStr "json"); ("limit", VInt 1)]
                   (Weather.world W s)))
           (Weather.sent W s ++ ["https://nominatim.openstreetmap.org/search"]))
    /\ match fst (http_get "https://nominatim.openstreetmap.org/search"
                    [("q", VStr location); ("format", VStr "json"); ("limit", VInt 1)]
                    (Weather.world W s)) with
       | Raise _ => coords = None
       | Ok data =>
           if truthy data then
             forall lat lon, coords = Some (lat, lon) ->
               exists first lat_v lon_v,
                 getitem0 data = Ok first
                 /\ getitem first "lat" = Ok lat_v /\ to_float lat_v = Ok lat
                 /\ getitem first "lon" = Ok lon_v /\ to_float lon_v = Ok lon
           else coords = None
       end.
Proof. intros location s. exact (geocode_outcome location s). Qed.

(** ** [get_forecast] *)

(** X3. When both requests of [get_forecast] bring a body, the text is
    made of the first five periods only, one block each, joined by the
    "---" line; the periods after the fifth are never read, so they
    neither show nor can make the tool raise. The second request goes to
    the address the first body names. *)
Theorem get_forecast_shows_first_five_periods :
  forall (latitude longitude : float) (s : state)
         (points properties forecast properties' : value) (u : string)
         (periods : list value) (w1 w2 : W),
    http_get (Weather.points_url latitude longitude) [] (Weather.world W s) = (Ok points, w1) ->
    truthy points = true ->
    getitem points "properties" = Ok properties ->
    getitem properties "forecast" = Ok (VStr u) ->
    http_get u [] w1 = (Ok forecast, w2) ->
    truthy forecast = true ->
    getitem forecast "properties" = Ok properties' ->
    getitem properties' "periods" = Ok (VList periods) ->
    get_forecast latitude longitude s
    = (match map_result Weather.format_period (firstn 5 periods) with
       | Ok forecasts => Ok (join (nl ++ "---" ++ nl) forecasts)
       | Raise e => Raise e
       end,
       Weather.mkState W w2 (Weather.sent W s ++ [Weather.points_url latitude longitude; u]))
    /\ (forall forecasts,
          map_result Weather.format_period (firstn 5 periods) = Ok forecasts ->
          List.length forecasts = Nat.min 5 (List.length periods)).
Proof.
  intros latitude longitude s points properties forecast properties' u periods w1 w2
    Hpoints Htruthy Hprops Hurl Hforecast Htruthy' Hprops' Hperiods.
  split.
  - unfold Weather.get_forecast. fold (Weather.points_url latitude longitude).
    unfold bind at 1. rewrite (make_nws_request_ok _ _ _ _ Hpoints).
    rewrite Htruthy. cbn [negb]. unfold bind at 1 2 3, lift. rewrite Hprops, Hurl.
    rewrite (make_nws_request_ok u (Weather.mkState W w1 _) forecast w2 Hforecast).
    rewrite Htruthy'. cbn [negb]. unfold bind, lift, ret. rewrite Hprops', Hperiods.
    cbn [slice_to iterate Weather.sent]. rewrite <- app_assoc.
    now destruct (map_result Weather.format_period (firstn 5 periods)).
  - intros forecasts H. apply map_result_length in H. rewrite H. apply length_firstn.
Qed.

(** What [get_forecast] sends: the points request, and at most one
    more. *)
Lemma get_forecast_traffic (latitude longitude : float) (s s' : state)
    (r : result string) :
  get_forecast latitude longitude s = (r, s') ->
  exists new,
    Weather.sent W s' = (Weather.sent W s ++ new)%list /\ List.length new <= 2.
Proof.
  unfold Weather.get_forecast. fold (Weather.points_url latitude longitude).
  unfold bind at 1.
  destruct (make_nws_request_outcome (Weather.points_url latitude longitude) s)
    as [points [w1 ->]].
  assert (Hone : forall (r0 : result string),
            (r0, Weather.mkState W w1
                   (Weather.sent W s ++ [Weather.points_url latitude longitude])) = (r, s') ->
            exists new,
              Weather.sent W s' = (Weather.sent W s ++ new)%list /\ List.length new <= 2).
  { intros r0 H. injection H as <- <-. eexists. split; [reflexivity | simpl; lia]. }
  destruct (negb (truthy points)); [apply Hone|].
  unfold bind at 1, lift at 1.
  destruct (getitem points "properties") as [properties|e]; [|apply Hone].
  unfold bind at 1, lift at 1.
  destruct (getitem properties "forecast") as [forecast_url|e]; [|apply Hone].
  unfold bind at 1.
  assert (Hrest : forall (forecast_data : value) (s2 : state),
            (exists new, Weather.sent W s2 = (Weather.sent W s ++ new)%list
                         /\ List.length new <= 2) ->
            (if negb (truthy forecast_data) then ret Weather.unable_detailed
             else
               bind (lift (getitem forecast_data "properties")) (fun properties' =>
               bind (lift (getitem properties' "periods")) (fun periods =>
               bind (lift (slice_to 5 periods)) (fun first5 =>
               bind (lift (iterate first5)) (fun items =>
               bind (lift (map_result Weather.format_period items)) (fun forecasts =>
               ret (join Weather.separator forecasts))))))) s2 = (r, s') ->
            exists new,
              Weather.sent W s' = (Weather.sent W s ++ new)%list /\ List.length new <= 2).
  { intros forecast_data s2 Hs2.
    destruct (negb (truthy forecast_data)); [intros H; now injection H as <- <-|].
    unfold bind, lift, ret.
    destruct (getitem forecast_data "properties") as [p|e];
      [|intros H; now injection H as <- <-].
    destruct (getitem p "periods") as [ps|e]; [|intros H; now injection H as <- <-].
    destruct (slice_to 5 ps) as [f5|e]; [|intros H; now injection H as <- <-].
    destruct (iterate f5) as [items|e]; [|intros H; now injection H as <- <-].
    destruct (map_result Weather.format_period items);
      intros H; now injection H as <- <-. }
  set (s1 := Weather.mkState W w1
                (Weather.sent W s ++ [Weather.points_url latitude longitude])).
  destruct forecast_url as [| | | | u | | |];
    try (intros H; apply (Hrest VNone s1);
         [eexists; split; [reflexivity | simpl; lia] | exact H]).
  destruct (make_nws_request_outcome u s1) as [forecast [w2 ->]].
  apply Hrest. eexists. split; [simpl; rewrite <- app_assoc; reflexivity | simpl; lia].
Qed.

(** ** The forecast step of [chat]: NWS first, then the global service *)

Lemma unable_forecast_found : contains Weather.unable_forecast Weather.unable_forecast = true.
Proof. reflexivity. Qed.

Lemma unable_detailed_clear : contains Weather.unable_forecast Weather.unable_detailed = false.
Proof. reflexivity. Qed.

(** X4. The forecast step falls back to the global service when the
    points request of NWS fails or brings an empty body, and then never
    raises: two requests are sent, and the answer is the "Current
    Weather" text or "Unable to fetch global forecast.". When the points
    request succeeds and it is the forecast request that fails, there is
    no fallback: the answer is "Unable to fetch detailed forecast.". *)
Theorem forecast_falls_back_only_when_the_point_is_unknown :
  forall (lat lon : float) (s : state),
    (forall r w1,
       http_get (Weather.points_url lat lon) [] (Weather.world W s) = (r, w1) ->
       Weather.no_body r ->
       exists text w2,
         nws_then_global lat lon s
         = (Ok text,
            Weather.mkState W w2
              (Weather.sent W s ++ [Weather.points_url lat lon; Weather.global_url lat lon]))
         /\ (text = "Unable to fetch global forecast."
             \/ exists temperature windspeed weathercode,
                  text = Weather.current_weather_text temperature windspeed weathercode))
    /\ (forall points properties u r w1 w2,
          http_get (Weather.points_url lat lon) [] (Weather.world W s) = (Ok points, w1) ->
          truthy points = true ->
          getitem points "properties" = Ok properties ->
          getitem properties "forecast" = Ok (VStr u) ->
          http_get u [] w1 = (r, w2) ->
          Weather.no_body r ->
          nws_then_global lat lon s
          = (Ok "Unable to fetch detailed forecast.",
             Weather.mkState W w2 (Weather.sent W s ++ [Weather.points_url lat lon; u]))).
Proof.
  intros lat lon s. split.
  - intros r w1 Hpoints Hr.
    destruct (make_nws_request_no_body _ _ _ _ Hpoints Hr) as [v [Hv Hfalse]].
    unfold Weather.nws_then_global, bind at 1, Weather.get_forecast.
    fold (Weather.points_url lat lon). unfold bind at 1. rewrite Hv, Hfalse.
    cbn [negb]. unfold ret at 1. rewrite unable_forecast_found. cbn [negb].
    destruct (global_forecast_outcome lat lon
                (Weather.mkState W w1 (Weather.sent W s ++ [Weather.points_url lat lon])))
      as [text [Hg [Htext _]]].
    exists text. eexists. rewrite Hg. cbn [Weather.sent]. rewrite <- app_assoc.
    split; [reflexivity | exact Htext].
  - intros points properties u r w1 w2 Hpoints Htruthy Hprops Hurl Hforecast Hr.
    destruct (make_nws_request_no_body u
                (Weather.mkState W w1 (Weather.sent W s ++ [Weather.points_url lat lon]))
                r w2 Hforecast Hr) as [v [Hv Hfalse]].
    unfold Weather.nws_then_global, bind at 1, Weather.get_forecast.
    fold (Weather.points_url lat lon).
    unfold bind at 1. rewrite (make_nws_request_ok _ _ _ _ Hpoints).
    rewrite Htruthy. cbn [negb]. unfold bind at 1 2 3, lift. rewrite Hprops, Hurl.
    rewrite Hv, Hfalse. cbn [negb]. unfold ret at 1.
    rewrite unable_detailed_clear. cbn [negb Weather.sent]. rewrite <- app_assoc.
    reflexivity.
Qed.

(** What the forecast step sends: at most three requests, and at most two
    when it raises, since only [get_forecast] can raise. *)
Lemma nws_then_global_traffic (lat lon : float) (s s' : state) (r : result string) :
  nws_then_global lat lon s = (r, s') ->
  exists new,
    Weather.sent W s' = (Weather.sent W s ++ new)%list
    /\ List.length new <= 3
    /\ (forall e, r = Raise e -> List.length new <= 2).
Proof.
  unfold Weather.nws_then_global, bind.
  destruct (get_forecast lat lon s) as [[nws_result|e] s1] eqn:Hf;
    destruct (get_forecast_traffic _ _ _ _ _ Hf) as [new [Hsent Hlen]].
  2:{ intros H. injection H as <- <-. exists new.
      split; [exact Hsent|]. split; [lia | intros _ _; exact Hlen]. }
  destruct (negb (contains Weather.unable_forecast nws_result)).
  - intros H. injection H as <- <-. exists new.
    split; [exact Hsent|]. split; [lia | discriminate].
  - destruct (global_forecast_outcome lat lon s1) as [text [Hg _]].
    rewrite Hg. intros H. injection H as <- <-.
    exists (new ++ [Weather.global_url lat lon])%list. cbn [Weather.sent].
    rewrite Hsent, <- app_assoc, length_app. simpl.
    split; [reflexivity|]. split; [lia | discriminate].
Qed.

Lemma forecast_by_name_traffic (location : string) (s s' : state) (r : result string) :
  forecast_by_name location s = (r, s') ->
  exists new,
    Weather.sent W s' = (Weather.sent W s ++ new)%list /\ List.length new <= 4.
Proof.
  unfold Weather.forecast_by_name.
  destruct (Weather.lookup_location Weather.location_map (lower location)) as [[lat lon]|].
  - intros H. apply nws_then_global_traffic in H as [new [Hsent [Hlen _]]].
    exists new. split; [exact Hsent | lia].
  - unfold bind.
    destruct (geocode_outcome location s) as [coords [-> _]].
    destruct coords as [[lat lon]|].
    + intros H. apply nws_then_global_traffic in H as [new [Hsent [Hlen _]]].
      exists (Weather.geocode_url :: new). cbn [Weather.sent] in Hsent.
      rewrite Hsent, <- app_assoc. split; [reflexivity | simpl; lia].
    + intros H. injection H as <- <-. eexists. split; [reflexivity | simpl; lia].
Qed.

Lemma get_alerts_traffic (state_code : string) (s s' : state) (r : result string) :
  get_alerts state_code s = (r, s') ->
  Weather.sent W s' = (Weather.sent W s ++ [Weather.alerts_url state_code])%list.
Proof.
  unfold Weather.get_alerts. fold (Weather.alerts_url state_code). unfold bind at 1.
  destruct (make_nws_request_outcome (Weather.alerts_url state_code) s) as [data [w1 ->]].
  destruct (negb (truthy data)); [intros H; now injection H as <- <-|].
  unfold bind, lift, ret.
  destruct (contains_key "features" data) as [has|e]; [|intros H; now injection H as <- <-].
  destruct (negb has); [intros H; now injection H as <- <-|].
  destruct (getitem data "features") as [features|e]; [|intros H; now injection H as <- <-].
  destruct (negb (truthy features)); [intros H; now injection H as <- <-|].
  destruct (iterate features) as [items|e]; [|intros H; now injection H as <- <-].
  destruct (map_result Weather.format_alert items); intros H; now injection H as <- <-.
Qed.

(** ** Reading the coordinates *)

(** [parse_coordinates] sends nothing. *)
Lemma parse_coordinates_pure (parts : list string) (s : state) :
  exists r, Weather.parse_coordinates W parts s = (r, s).
Proof.
  unfold Weather.parse_coordinates, bind, lift, ret.
  destruct (Weather.last2 parts) as [a|e]; [|eauto].
  destruct (to_float (VStr a)) as [lat|e]; [|eauto].
  destruct (Weather.last1 parts) as [b|e]; [|eauto].
  destruct (to_float (VStr b)) as [lon|e]; eauto.
Qed.

Lemma parse_coordinates_refused (parts : list string) (s : state) (a : string) (e : exn) :
  Weather.last2 parts = Ok a ->
  to_float (VStr a) = Raise e ->
  Weather.parse_coordinates W parts s = (Raise e, s).
Proof.
  intros Ha He. unfold Weather.parse_coordinates, bind, lift. now rewrite Ha, He.
Qed.

(** ** The commands of [chat] *)

Lemma chat_query (d : dict) (query : string) (s : state) :
  dict_get d "query" = Some (VStr query) ->
  chat (VDict d) s = chat (VDict [("query", VStr query)]) s.
Proof.
  intros H. unfold Weather.chat, bind at 1, lift at 1, get_method, dict_get_default.
  rewrite H. reflexivity.
Qed.

Lemma chat_alerts_command (query : string) (s : state) :
  startswith "alerts in" (lower query) = true ->
  chat (VDict [("query", VStr query)]) s
  = bind (lift (Weather.last1 (split query)))
         (fun last => get_alerts (upper last)) s.
Proof.
  intros H. unfold Weather.chat, bind at 1, lift at 1, get_method, dict_get_default.
  replace (dict_get [("query", VStr query)] "query") with (Some (VStr query))
    by reflexivity.
  cbv beta iota. rewrite H. reflexivity.
Qed.

Lemma chat_forecast_command (query : string) (s : state) :
  startswith "forecast for" (lower query) = true ->
  chat (VDict [("query", VStr query)]) s
  = try_except
      (bind (Weather.parse_coordinates W (split query))
            (fun c => nws_then_global (fst c) (snd c)))
      any_exception
      (fun _ => forecast_by_name (Weather.location_of query)) s.
Proof.
  intros H. pose proof (forecast_is_no_alerts_command _ H) as Ha.
  unfold Weather.chat, bind at 1, lift at 1, get_method, dict_get_default.
  replace (dict_get [("query", VStr query)] "query") with (Some (VStr query))
    by reflexivity.
  cbv beta iota. rewrite Ha, H. reflexivity.
Qed.

Lemma chat_history_command (query : string) (s : state) :
  startswith "history for" (lower query) = true ->
  chat (VDict [("query", VStr query)]) s
  = try_except
      (bind (Weather.parse_coordinates W (split query))
            (fun c => Weather.get_historical_weather W (fst c) (snd c)))
      any_exception
      (fun _ => ret Weather.invalid_coordinates) s.
Proof.
  intros H. destruct (history_is_no_other_command _ H) as [Ha Hf].
  unfold Weather.chat, bind at 1, lift at 1, get_method, dict_get_default.
  replace (dict_get [("query", VStr query)] "query") with (Some (VStr query))
    by reflexivity.
  cbv beta iota. rewrite Ha, Hf, H. reflexivity.
Qed.

Lemma chat_no_query (d : dict) (s : state) :
  dict_get d "query" = None -> chat (VDict d) s = (Ok Weather.usage, s).
Proof.
  intros H. unfold Weather.chat, bind at 1, lift at 1, get_method, dict_get_default.
  now rewrite H.
Qed.

Lemma chat_no_command (query : string) (s : state) :
  startswith "alerts in" (lower query) = false ->
  startswith "forecast for" (lower query) = false ->
  startswith "history for" (lower query) = false ->
  chat (VDict [("query", VStr query)]) s = (Ok Weather.usage, s).
Proof.
  intros Ha Hf Hh. unfold Weather.chat, bind at 1, lift at 1, get_method, dict_get_default.
  replace (dict_get [("query", VStr query)] "query") with (Some (VStr query))
    by reflexivity.
  cbv beta iota. now rewrite Ha, Hf, Hh.
Qed.

(** X5. What [chat] does with a body that holds no command: a body
    without [query], and a query that begins with none of "alerts in",
    "forecast for", "history for" (in any letter case), are answered with
    the usage line; a [query] that is not a string, and a body that is
    not an object, raise [AttributeError]. In all four cases no request
    is sent. *)
Theorem chat_without_a_command_sends_nothing :
  forall (data : value) (s : state),
    match data with
    | VDict d =>
        match dict_get d "query" with
        | None =>
            chat data s
            = (Ok "Try: alerts in <STATE>, forecast for <LAT> <LON>, or history for <LAT> <LON>",
               s)
        | Some (VStr query) =>
            startswith "alerts in" (lower query)
            || startswith "forecast for" (lower query)
            || startswith "history for" (lower query) = false ->
            chat data s
            = (Ok "Try: alerts in <STATE>, forecast for <LAT> <LON>, or history for <LAT> <LON>",
               s)
        | Some v =>
            chat data s
            = (Raise (mkExn AttributeError
                        (quote (type_name v) ++ " object has no attribute 'lower'")), s)
        end
    | _ =>
        chat data s
        = (Raise (mkExn AttributeError
                    (quote (type_name data) ++ " object has no attribute 'get'")), s)
    end.
Proof.
  intros data s. destruct data as [| | | | | | d |]; try reflexivity.
  destruct (dict_get d "query") as [v|] eqn:Hq; [|now apply chat_no_query].
  destruct v as [| | | | query | | |];
    try (unfold Weather.chat, bind at 1, lift at 1, get_method, dict_get_default;
         rewrite Hq; reflexivity).
  intros H. apply orb_false_iff in H as [H Hh]. apply orb_false_iff in H as [Ha Hf].
  rewrite (chat_query d query s Hq). now apply chat_no_command.
Qed.

(** X6. A history query never sends a request and never raises: the
    answer is the mock report for the two numbers that end the query,
    or, when the last two words are not two numbers, the sentence
    "Invalid coordinates. Use: history for <lat> <lon>". *)
Theorem chat_history_sends_nothing :
  forall (d : dict) (query : string) (s : state),
    dict_get d "query" = Some (VStr query) ->
    startswith "history for" (lower query) = true ->
    exists text,
      chat (VDict d) s = (Ok text, s)
      /\ match fst (Weather.parse_coordinates W (split query) s) with
         | Ok (lat, lon) => text = Weather.historical_text lat lon
         | Raise _ => text = "Invalid coordinates. Use: history for <lat> <lon>"
         end.
Proof.
  intros d query s Hq Hh.
  rewrite (chat_query d query s Hq), (chat_history_command query s Hh).
  unfold try_except, bind.
  destruct (parse_coordinates_pure (split query) s) as [r ->].
  destruct r as [[lat lon]|e]; eexists; split; reflexivity.
Qed.

(** X7. An alerts query always finds a last word (the query begins with
    a letter, so [split] yields at least one), and asks the alerts
    service for that word in upper case, with one request; the answer is
    that of [get_alerts]. So "alerts in" alone asks for the area IN. *)
Theorem chat_alerts_asks_for_the_last_word :
  forall (d : dict) (query : string) (s : state),
    dict_get d "query" = Some (VStr query) ->
    startswith "alerts in" (lower query) = true ->
    exists word,
      Weather.last1 (split query) = Ok word
      /\ chat (VDict d) s = get_alerts (upper word) s
      /\ Weather.sent W (snd (chat (VDict d) s))
         = (Weather.sent W s
            ++ [("https://api.weather.gov/alerts/active/area/" ++ upper word)%string])%list.
Proof.
  intros d query s Hq Ha.
  assert (Hword : exists word, Weather.last1 (split query) = Ok word).
  { apply startswith_head in Ha as Hhead. destruct Hhead as [rest Hl].
    apply lower_head in Hl as [x [q' [-> Hx]]].
    apply last1_some, split_word_first, command_letter_not_space. now left. }
  destruct Hword as [word Hword]. exists word. split; [exact Hword|].
  assert (Heq : chat (VDict d) s = get_alerts (upper word) s).
  { rewrite (chat_query d query s Hq), (chat_alerts_command query s Ha).
    unfold bind, lift. now rewrite Hword. }
  split; [exact Heq|]. rewrite Heq.
  destruct (get_alerts (upper word) s) as [r s'] eqn:Hg.
  exact (get_alerts_traffic _ _ _ _ Hg).
Qed.

(** ** Forecast queries by name *)

Lemma chat_forecast_refused (query a : string) (e : exn) (s : state) :
  startswith "forecast for" (lower query) = true ->
  Weather.last2 (split query) = Ok a ->
  to_float (VStr a) = Raise e ->
  chat (VDict [("query", VStr query)]) s
  = forecast_by_name (Weather.location_of query) s.
Proof.
  intros Hf Ha He. rewrite (chat_forecast_command query s Hf).
  unfold try_except, bind. now rewrite (parse_coordinates_refused _ s a e Ha He).
Qed.

Lemma chat_forecast_by_table (query a : string) (e : exn) (lat lon : float) (s : state) :
  startswith "forecast for" (lower query) = true ->
  Weather.last2 (split query) = Ok a ->
  to_float (VStr a) = Raise e ->
  Weather.lookup_location Weather.location_map (lower (Weather.location_of query))
    = Some (lat, lon) ->
  chat (VDict [("query", VStr query)]) s = nws_then_global lat lon s.
Proof.
  intros Hf Ha He Hl. rewrite (chat_forecast_refused query a e s Hf Ha He).
  unfold Weather.forecast_by_name. now rewrite Hl.
Qed.

(** X8. Every name of the coordinate table is found: for "forecast for"
    followed by a listed name, [chat] runs the forecast step on the
    coordinates the table gives for it, without asking the geocoder,
    provided [float] refuses the words of the query. *)
Theorem chat_forecast_finds_every_listed_place :
  forall (name : string) (lat lon : float) (s : state),
    In (name, (lat, lon)) Weather.location_map ->
    (forall word, In word (split ("forecast for " ++ name)) ->
       exists e, to_float (VStr word) = Raise e) ->
    chat (VDict [("query", VStr ("forecast for " ++ name))]) s = nws_then_global lat lon s.
Proof.
  intros name lat lon s Hin Hfloat.
  assert (Hgo : forall a,
            Weather.last2 (split ("forecast for " ++ name)) = Ok a ->
            In a (split ("forecast for " ++ name)) ->
            startswith "forecast for" (lower ("forecast for " ++ name)) = true ->
            Weather.lookup_location Weather.location_map
              (lower (Weather.location_of ("forecast for " ++ name))) = Some (lat, lon) ->
            chat (VDict [("query", VStr ("forecast for " ++ name))]) s
            = nws_then_global lat lon s).
  { intros a Ha Hina Hf Hl. destruct (Hfloat a Hina) as [e He].
    exact (chat_forecast_by_table _ a e lat lon s Hf Ha He Hl). }
  clear Hfloat. unfold Weather.location_map in Hin.
  repeat (destruct Hin as [Hin | Hin];
          [ injection Hin as <- <- <-;
            eapply Hgo; [vm_compute; reflexivity | vm_compute; tauto
                        | vm_compute; reflexivity | vm_compute; reflexivity ]
          | ]).
  destruct Hin.
Qed.

(** A place that neither the table nor the geocoder knows. *)
Lemma forecast_by_name_unknown (location : string) (r : result value) (w1 : W)
    (s : state) :
  Weather.lookup_location Weather.location_map (lower location) = None ->
  http_get Weather.geocode_url (Weather.geocode_params location) (Weather.world W s)
    = (r, w1) ->
  Weather.no_body r ->
  forecast_by_name location s
  = (Ok (Weather.unknown_location location),
     Weather.mkState W w1 (Weather.sent W s ++ [Weather.geocode_url])).
Proof.
  intros Hl Hget Hr. unfold Weather.forecast_by_name. rewrite Hl. unfold bind.
  destruct (geocode_outcome location s) as [coords [-> Hc]].
  rewrite Hget in *. cbn [fst snd] in *.
  assert (Hnone : coords = None).
  { destruct r as [data|e']; [|exact Hc]. simpl in Hr. now rewrite Hr in Hc. }
  now rewrite Hnone.
Qed.

(** X9. A forecast query is answered with the "Unknown location"
    sentence, which names the place as the words after "forecast for"
    joined by single spaces, when neither the table nor the geocoder
    knows that place and the query has given no forecast by coordinates.
    That is so when its last two words are not two numbers: then the
    geocoder's request is the only one sent. It is also so when they are
    two numbers but the forecast for them raised: then the geocoder is
    asked after the requests that attempt had sent. *)
Theorem chat_reports_an_unknown_location :
  (forall (query : string) (e : exn) (r : result value) (w1 : W) (s : state),
     startswith "forecast for" (lower query) = true ->
     fst (Weather.parse_coordinates W (split query) s) = Raise e ->
     Weather.lookup_location Weather.location_map (lower (Weather.location_of query))
       = None ->
     http_get "https://nominatim.openstreetmap.org/search"
       [("q", VStr (Weather.location_of query)); ("format", VStr "json");
        ("limit", VInt 1)]
       (Weather.world W s) = (r, w1) ->
     Weather.no_body r ->
     chat (VDict [("query", VStr query)]) s
     = (Ok ("Unknown location '" ++ strip (join " " (skipn 2 (split query)))
            ++ "'. Try: forecast for <lat> <lon> or forecast for <city/state> (e.g. NewYork)"),
        Weather.mkState W w1
          (Weather.sent W s ++ ["https://nominatim.openstreetmap.org/search"])))
  /\ (forall (query : string) (lat lon : float) (e : exn) (r : result value) (w2 : W)
             (s s1 : state),
        startswith "forecast for" (lower query) = true ->
        fst (Weather.parse_coordinates W (split query) s) = Ok (lat, lon) ->
        nws_then_global lat lon s = (Raise e, s1) ->
        Weather.lookup_location Weather.location_map (lower (Weather.location_of query))
          = None ->
        http_get "https://nominatim.openstreetmap.org/search"
          [("q", VStr (Weather.location_of query)); ("format", VStr "json");
           ("limit", VInt 1)]
          (Weather.world W s1) = (r, w2) ->
        Weather.no_body r ->
        chat (VDict [("query", VStr query)]) s
        = (Ok ("Unknown location '" ++ strip (join " " (skipn 2 (split query)))
               ++ "'. Try: forecast for <lat> <lon> or forecast for <city/state> (e.g. NewYork)"),
           Weather.mkState W w2
             (Weather.sent W s1 ++ ["https://nominatim.openstreetmap.org/search"]))).
Proof.
  split.
  - intros query e r w1 s Hf Hparse Hl Hget Hr.
    rewrite (chat_forecast_command query s Hf). unfold try_except, bind.
    destruct (parse_coordinates_pure (split query) s) as [rp Hp].
    rewrite Hp in *. cbn [fst] in Hparse. subst rp. cbn [any_exception].
    exact (forecast_by_name_unknown _ r w1 s Hl Hget Hr).
  - intros query lat lon e r w2 s s1 Hf Hparse Hnws Hl Hget Hr.
    rewrite (chat_forecast_command query s Hf). unfold try_except, bind.
    destruct (parse_coordinates_pure (split query) s) as [rp Hp].
    rewrite Hp in *. cbn [fst] in Hparse. subst rp. cbn [fst snd].
    rewrite Hnws. cbn [any_exception].
    exact (forecast_by_name_unknown _ r w2 s1 Hl Hget Hr).
Qed.

(** ** The request budget of one query *)

Lemma chat_history_pure (query : string) (s : state) :
  startswith "history for" (lower query) = true ->
  exists r, chat (VDict [("query", VStr query)]) s = (r, s).
Proof.
  intros Hh. rewrite (chat_history_command query s Hh).
  unfold try_except, bind.
  destruct (parse_coordinates_pure (split query) s) as [r ->].
  destruct r as [[lat lon]|e]; eexists; reflexivity.
Qed.

Lemma chat_traffic (data : value) (s : state) :
  exists new,
    Weather.sent W (snd (chat data s)) = (Weather.sent W s ++ new)%list
    /\ List.length new <= 6.
Proof.
  assert (Hnothing : forall r, chat data s = (r, s) ->
            exists new,
              Weather.sent W (snd (chat data s)) = (Weather.sent W s ++ new)%list
              /\ List.length new <= 6).
  { intros r ->. exists []. rewrite app_nil_r. split; [reflexivity | simpl; lia]. }
  destruct data as [| | | | | | d |]; try (eapply Hnothing; reflexivity).
  destruct (dict_get d "query") as [v|] eqn:Hq;
    [|eapply Hnothing; now apply chat_no_query].
  destruct v as [| | | | query | | |];
    try (eapply Hnothing;
         unfold Weather.chat, bind at 1, lift at 1, get_method, dict_get_default;
         rewrite Hq; reflexivity).
  rewrite (chat_query d query s Hq) in *.
  destruct (startswith "alerts in" (lower query)) eqn:Ha.
  { rewrite (chat_alerts_command query s Ha). unfold bind, lift.
    destruct (Weather.last1 (split query)) as [word|e].
    - destruct (get_alerts (upper word) s) as [r s'] eqn:Hg.
      exists [Weather.alerts_url (upper word)].
      split; [exact (get_alerts_traffic _ _ _ _ Hg) | simpl; lia].
    - exists []. rewrite app_nil_r. split; [reflexivity | simpl; lia]. }
  destruct (startswith "forecast for" (lower query)) eqn:Hf.
  { rewrite (chat_forecast_command query s Hf). unfold try_except, bind.
    destruct (parse_coordinates_pure (split query) s) as [r ->].
    destruct r as [c|e]; cbn [any_exception].
    - destruct (nws_then_global (fst c) (snd c) s) as [[text|e] s1] eqn:Hn;
        destruct (nws_then_global_traffic _ _ _ _ _ Hn) as [new1 [Hs1 [Hl1 Hraise]]].
      + exists new1. split; [exact Hs1 | lia].
      + destruct (forecast_by_name (Weather.location_of query) s1) as [r2 s2] eqn:Hb.
        destruct (forecast_by_name_traffic _ _ _ _ Hb) as [new2 [Hs2 Hl2]].
        exists (new1 ++ new2)%list. cbn [snd].
        rewrite Hs2, Hs1, <- app_assoc, length_app.
        split; [reflexivity|]. specialize (Hraise e eq_refl). lia.
    - destruct (forecast_by_name (Weather.location_of query) s) as [r2 s2] eqn:Hb.
      destruct (forecast_by_name_traffic _ _ _ _ Hb) as [new2 [Hs2 Hl2]].
      exists new2. split; [exact Hs2 | lia]. }
  destruct (startswith "history for" (lower query)) eqn:Hh.
  { destruct (chat_history_pure query s Hh) as [r Hr]. eapply Hnothing. exact Hr. }
  eapply Hnothing. now apply chat_no_command.
Qed.

(** ** When [get_alerts] raises *)

Lemma format_alert_ok_iff (feature : value) :
  (exists text, Weather.format_alert feature = Ok text)
  <-> Weather.has_properties feature = true.
Proof.
  unfold Weather.format_alert, Weather.has_properties, getitem, key_error, type_error,
    not_subscriptable.
  destruct feature as [| | | | | | d |];
    try (split; [intros [text H]; discriminate | discriminate]).
  destruct (dict_get d "properties") as [[| | | | | | props |]|];
    try (split; [intros [text H]; discriminate | discriminate]).
  split; [reflexivity|]. intros _. simpl. eexists. reflexivity.
Qed.

Lemma map_result_ok_iff {X Y} (f : X -> result Y) (ok : X -> bool) :
  (forall x, (exists y, f x = Ok y) <-> ok x = true) ->
  forall l, (exists l', map_result f l = Ok l') <-> forallb ok l = true.
Proof.
  intros Hf. induction l as [|x l IH]; simpl.
  - split; [reflexivity | intros _; now exists []].
  - rewrite andb_true_iff, <- IH, <- Hf. split.
    + intros [l' H]. destruct (f x) as [y|]; [|discriminate].
      destruct (map_result f l) as [ys|]; [|discriminate]. split; eauto.
    + intros [[y ->] [ys ->]]. eauto.
Qed.

(** X10. When the alerts service answers with an object whose [features]
    is a list, [get_alerts] returns a text exactly when every feature is
    an object with a [properties] object; one feature without it makes
    the whole call raise. When it returns for a non-empty list, the text
    is one block per feature, joined by the "---" line. *)
Theorem get_alerts_returns_exactly_when_every_feature_has_properties :
  forall (state_code : string) (s : state) (body : dict) (features : list value) (w1 : W),
    http_get (Weather.alerts_url state_code) [] (Weather.world W s) = (Ok (VDict body), w1) ->
    dict_get body "features" = Some (VList features) ->
    ((exists text, fst (get_alerts state_code s) = Ok text)
     <-> forallb Weather.has_properties features = true)
    /\ (forall text,
          fst (get_alerts state_code s) = Ok text -> features <> [] ->
          exists alerts,
            map_result Weather.format_alert features = Ok alerts
            /\ List.length alerts = List.length features
            /\ text = join (nl ++ "---" ++ nl) alerts).
Proof.
  intros state_code s body features w1 Hget Hfeatures.
  assert (Hrun : fst (get_alerts state_code s)
                 = match features with
                   | [] => Ok Weather.no_alerts
                   | _ =>
                       match map_result Weather.format_alert features with
                       | Ok alerts => Ok (join Weather.separator alerts)
                       | Raise e => Raise e
                       end
                   end).
  { unfold Weather.get_alerts. fold (Weather.alerts_url state_code).
    unfold bind at 1. rewrite (make_nws_request_ok _ _ _ _ Hget).
    destruct body as [|kv body]; [discriminate|].
    cbn [truthy negb]. unfold bind, lift, ret, contains_key, getitem, dict_has.
    rewrite Hfeatures. cbn [negb].
    destruct features as [|f features]; [reflexivity|].
    cbn [truthy negb iterate].
    now destruct (map_result Weather.format_alert (f :: features)). }
  rewrite Hrun. split.
  - rewrite <- (map_result_ok_iff Weather.format_alert Weather.has_properties
                  format_alert_ok_iff).
    destruct features as [|f features].
    + split; [intros _; now exists [] | intros _; now eexists].
    + destruct (map_result Weather.format_alert (f :: features)) as [alerts|e].
      * split; [intros _; now exists alerts | intros _; now eexists].
      * split; [intros [text H]; discriminate | intros [l' H]; discriminate].
  - intros text Htext Hne. destruct features as [|f features]; [contradiction|].
    destruct (map_result Weather.format_alert (f :: features)) as [alerts|e] eqn:Hm;
      [|discriminate].
    injection Htext as <-. exists alerts. split; [reflexivity|]. split; [|reflexivity].
    exact (map_result_length _ _ _ Hm).
Qed.

End Server.

(** ** The examples *)

(** X11. One query to [chat] sends at most six requests, whatever the
    services answer; and six are reached, when NWS first answers with a
    body [get_forecast] cannot read, and a forecast text then quotes the
    sentence that triggers the fallback. *)
Theorem chat_sends_at_most_six_requests :
  (forall (B : Builtins) (W : Type)
          (http_get : string -> dict -> W -> result value * W) (data : value),
     Weather.sends_at_most W 6 (Weather.chat W http_get data))
  /\ List.length
       (Weather.sent Scripted.upstream
          (snd (Weather.chat (B := Scripted.builtins) Scripted.upstream Scripted.http_get
                  (VDict [("query", VStr "forecast for 40.7 -74.0")])
                  (Scripted.server Scripted.six_replies))))
     = 6.
Proof.
  split.
  - intros B W http_get data s. unfold Weather.sends. apply chat_traffic.
  - vm_compute. reflexivity.
Qed.

#[warnings="-inexact-float"]
Lemma get_forecast_shows_first_five_periods_witness :
  Weather.get_forecast (B := Scripted.builtins) Scripted.upstream Scripted.http_get
    40.7%float (-74.0)%float
    (Scripted.server [Ok Scripted.points_body; Ok (Scripted.forecast_body Scripted.week)])
  = (match map_result (Weather.format_period (B := Scripted.builtins))
             (firstn 5 Scripted.week) with
     | Ok forecasts => Ok (join (nl ++ "---" ++ nl) forecasts)
     | Raise e => Raise e
     end,
     Weather.mkState Scripted.upstream []
       ["https://api.weather.gov/points/40.7,-74.0"; Scripted.grid_url]).
Proof.
  refine (proj1 (get_forecast_shows_first_five_periods (B := Scripted.builtins)
                   Scripted.upstream Scripted.http_get _ _
                   (Scripted.server [Ok Scripted.points_body;
                                     Ok (Scripted.forecast_body Scripted.week)])
                   Scripted.points_body
                   (VDict [("forecast", VStr Scripted.grid_url)])
                   (Scripted.forecast_body Scripted.week)
                   (VDict [("periods", VList Scripted.week)])
                   Scripted.grid_url Scripted.week
                   [Ok (Scripted.forecast_body Scripted.week)] []
                   _ _ _ _ _ _ _ _)); reflexivity.
Defined.

#[warnings="-inexact-float"]
Lemma forecast_falls_back_only_when_the_point_is_unknown_witness :
  Weather.nws_then_global (B := Scripted.builtins) Scripted.upstream Scripted.http_get
    40.7%float (-74.0)%float
    (Scripted.server [Ok Scripted.points_body; Raise Scripted.exhausted])
  = (Ok "Unable to fetch detailed forecast.",
     Weather.mkState Scripted.upstream []
       ["https://api.weather.gov/points/40.7,-74.0"; Scripted.grid_url]).
Proof.
  refine (proj2 (forecast_falls_back_only_when_the_point_is_unknown
                   (B := Scripted.builtins) Scripted.upstream Scripted.http_get _ _
                   (Scripted.server [Ok Scripted.points_body; Raise Scripted.exhausted]))
            Scripted.points_body (VDict [("forecast", VStr Scripted.grid_url)])
            Scripted.grid_url (Raise Scripted.exhausted) [Raise Scripted.exhausted] []
            _ _ _ _ _ _); first [reflexivity | exact I].
Defined.

#[warnings="-inexact-float"]
Lemma chat_history_sends_nothing_witness :
  Weather.chat (B := Scripted.builtins) Scripted.upstream Scripted.http_get
    (VDict [("query", VStr "History for 40.7 -74.0")]) (Scripted.server [])
  = (Ok (Weather.historical_text (B := Scripted.builtins) 40.7%float (-74.0)%float),
     Scripted.server []).
Proof.
  destruct (chat_history_sends_nothing (B := Scripted.builtins) Scripted.upstream
              Scripted.http_get [("query", VStr "History for 40.7 -74.0")]
              "History for 40.7 -74.0" (Scripted.server []) eq_refl eq_refl)
    as [text [Hrun Htext]].
  rewrite Hrun. simpl in Htext. now rewrite Htext.
Defined.

Lemma chat_alerts_asks_for_the_last_word_witness :
  Weather.chat (B := Scripted.builtins) Scripted.upstream Scripted.http_get
    (VDict [("query", VStr "alerts in")]) (Scripted.server [])
  = Weather.get_alerts (B := Scripted.builtins) Scripted.upstream Scripted.http_get "IN"
      (Scripted.server []).
Proof.
  destruct (chat_alerts_asks_for_the_last_word (B := Scripted.builtins) Scripted.upstream
              Scripted.http_get [("query", VStr "alerts in")] "alerts in"
              (Scripted.server []) eq_refl eq_refl)
    as [word [Hword [Hrun _]]].
  injection Hword as <-. exact Hrun.
Defined.

#[warnings="-inexact-float"]
Lemma chat_forecast_finds_every_listed_place_witness :
  Weather.chat (B := Scripted.builtins) Scripted.upstream Scripted.http_get
    (VDict [("query", VStr "forecast for new york")]) (Scripted.server [])
  = Weather.nws_then_global (B := Scripted.builtins) Scripted.upstream Scripted.http_get
      40.7128%float (-74.0060)%float (Scripted.server []).
Proof.
  apply (chat_forecast_finds_every_listed_place (B := Scripted.builtins) Scripted.upstream
           Scripted.http_get "new york").
  - unfold Weather.location_map. do 31 right. left. reflexivity.
  - intros word Hin. vm_compute in Hin.
    destruct Hin as [<- | [<- | [<- | [<- | []]]]]; eexists; reflexivity.
Defined.

(** A name the geocoder does not find, after one request; and two
    numbers for which the points service answers with a body that holds
    no [properties], after two. *)
Lemma chat_reports_an_unknown_location_witness :
  Weather.chat (B := Scripted.builtins) Scripted.upstream Scripted.http_get
    (VDict [("query", VStr "forecast for   Atlantis  City")])
    (Scripted.server [Ok (VList [])])
  = (Ok ("Unknown location 'Atlantis City'. "
         ++ "Try: forecast for <lat> <lon> or forecast for <city/state> (e.g. NewYork)"),
     Weather.mkState Scripted.upstream [] ["https://nominatim.openstreetmap.org/search"])
  /\ Weather.chat (B := Scripted.builtins) Scripted.upstream Scripted.http_get
       (VDict [("query", VStr "forecast for 40.7 -74.0")])
       (Scripted.server [Ok (VDict [("title", VStr "Not Found")]); Ok (VList [])])
     = (Ok ("Unknown location '40.7 -74.0'. "
            ++ "Try: forecast for <lat> <lon> or forecast for <city/state> (e.g. NewYork)"),
        Weather.mkState Scripted.upstream []
          ["https://api.weather.gov/points/40.7,-74.0";
           "https://nominatim.openstreetmap.org/search"]).
Proof.
  split.
  - exact (proj1 (chat_reports_an_unknown_location (B := Scripted.builtins)
                    Scripted.upstream Scripted.http_get)
             "forecast for   Atlantis  City"
             (mkExn ValueError "could not convert string to float: 'Atlantis'")
             (Ok (VList [])) [] (Scripted.server [Ok (VList [])])
             eq_refl eq_refl eq_refl eq_refl eq_refl).
  - refine (proj2 (chat_reports_an_unknown_location (B := Scripted.builtins)
                     Scripted.upstream Scripted.http_get)
              "forecast for 40.7 -74.0" _ _ (mkExn KeyError "'properties'")
              (Ok (VList [])) []
              (Scripted.server [Ok (VDict [("title", VStr "Not Found")]); Ok (VList [])])
              (Weather.mkState Scripted.upstream [Ok (VList [])]
                 ["https://api.weather.gov/points/40.7,-74.0"])
              eq_refl eq_refl eq_refl eq_refl eq_refl eq_refl).
Defined.

Lemma get_alerts_returns_exactly_when_every_feature_has_properties_witness :
  exists text,
    fst (Weather.get_alerts (B := Scripted.builtins) Scripted.upstream Scripted.http_get "CA"
           (Scripted.server [Ok (VDict [("features", VList [Scripted.storm])])]))
    = Ok text.
Proof.
  apply (proj1 (get_alerts_returns_exactly_when_every_feature_has_properties
                  (B := Scripted.builtins) Scripted.upstream Scripted.http_get "CA"
                  (Scripted.server [Ok (VDict [("features", VList [Scripted.storm])])])
                  [("features", VList [Scripted.storm])] [Scripted.storm] []
                  eq_refl eq_refl)).
  reflexivity.
Defined.

End ServerFacts.

(* ===================================================================== *)
(** * The client: what is sent and what is logged *)
(* ===================================================================== *)

Module LogFacts.

Import PyStr Py DictFacts SanitizeFacts.

Section Sanitize.

Context {B : Builtins}.

(** ** The shape of a sanitized entry *)

Lemma dict_has_set_other (d : dict) (k k' : string) (v : value) :
  String.eqb k k' = false ->
  dict_has (dict_set d k v) k' = dict_has d k'.
Proof.
  intros Hne. unfold dict_has. induction d as [|[k0 v0] d IH]; simpl.
  - now rewrite Hne.
  - destruct (String.eqb k0 k) eqn:E; simpl.
    + apply String.eqb_eq in E. subst k0. now rewrite Hne.
    + destruct (String.eqb k0 k'); [reflexivity | exact IH].
Qed.

Lemma dict_has_removed (d : dict) (k : string) : dict_has (dict_remove d k) k = false.
Proof.
  unfold dict_has, dict_remove. induction d as [|[k0 v0] d IH]; simpl; [reflexivity|].
  destruct (String.eqb k0 k) eqn:E; simpl; [exact IH | now rewrite E].
Qed.

Lemma drop_parameters_dropped (f : dict) :
  dict_has (Client.drop_parameters f) "parameters" = false.
Proof.
  unfold Client.drop_parameters.
  destruct (dict_has f "parameters") eqn:E; [apply dict_has_removed | exact E].
Qed.

Lemma sanitize_function_no_parameters (function : value) (func : dict) :
  Client.sanitize_function function = Ok func ->
  dict_has func "parameters" = false.
Proof.
  unfold Client.sanitize_function. destruct function; try discriminate.
  - destruct (existsb _ items); discriminate.
  - pose proof (drop_parameters_dropped entries) as Hd.
    destruct (dict_get (Client.drop_parameters entries) "arguments")
      as [[| | | | s | | a |]|]; intros H;
      try (injection H as <-; now rewrite dict_has_set_other).
    + now injection H as <-.
    + destruct (json_dumps (VDict a)); [|discriminate].
      injection H as <-. now rewrite dict_has_set_other.
Qed.

Lemma sanitize_tool_call_shape (tc v : value) :
  Client.sanitize_tool_call tc = Ok v -> Client.sent_tool_call v.
Proof.
  unfold Client.sanitize_tool_call.
  destruct (getitem tc "function") as [function|]; [|discriminate].
  destruct (Client.sanitize_function function) as [func|] eqn:Ef; [|discriminate].
  destruct (getitem tc "id") as [id|]; [|discriminate].
  destruct (getitem tc "type") as [ty|]; [|discriminate].
  intros H. injection H as <-. exists id, ty, func. split; [reflexivity|]. split.
  - exact (sanitize_function_no_parameters _ _ Ef).
  - exact (sanitize_function_string _ _ Ef).
Qed.

Lemma eq_str_value (v : value) (s : string) : eq_str v s = true -> v = VStr s.
Proof.
  destruct v; try discriminate. simpl. intros H. apply String.eqb_eq in H. now subst.
Qed.

Lemma sanitize_message_shape (m : dict) (entries : list dict) :
  Client.sanitize_message m = Ok entries -> Forall Client.sent_entry entries.
Proof.
  unfold Client.sanitize_message.
  set (role := dict_get_default m "role" VNone).
  set (m' := filter _ m).
  destruct (eq_str role "user") eqn:Eu.
  { intros H. injection H as <-. apply eq_str_value in Eu. rewrite Eu.
    constructor; [|constructor]. left. now eexists. }
  destruct (eq_str role "assistant") eqn:Ea.
  { apply eq_str_value in Ea. rewrite Ea.
    destruct (negb (Client.is_none (dict_get m' "tool_calls"))).
    - destruct (iterate _) as [items|]; [|discriminate].
      destruct (map_result Client.sanitize_tool_call items) as [tcs|] eqn:E;
        [|discriminate].
      intros H. injection H as <-. constructor; [|constructor].
      right. left. exists tcs. split; [reflexivity|].
      eapply map_result_Forall; [|exact E].
      intros x y. apply sanitize_tool_call_shape.
    - destruct (dict_get m' "content") as [[| | | | c | | |]|]; intros H;
        try (injection H as <-; constructor).
      destruct (negb (String.eqb (strip c) "")) eqn:Ec; injection H as <-;
        constructor; [|constructor].
      right. right. left. exists c. split; [reflexivity|].
      now apply negb_true_iff in Ec. }
  destruct (eq_str role "tool"); intros H; injection H as <-; constructor; [|constructor].
  right. right. right. now eexists _, _.
Qed.

Lemma sanitize_messages_shape (msgs sanitized : list dict) :
  Client.sanitize_messages msgs = Ok sanitized -> Forall Client.sent_entry sanitized.
Proof.
  revert sanitized. induction msgs as [|m msgs IH]; simpl; intros sanitized H.
  - injection H as <-. constructor.
  - destruct (Client.sanitize_message m) as [entries|] eqn:Em; [|discriminate].
    destruct (Client.sanitize_messages msgs) as [rest|]; [|discriminate].
    injection H as <-. apply Forall_app. split.
    + exact (sanitize_message_shape _ _ Em).
    + now apply IH.
Qed.

(** ** Entries of that shape pass unchanged *)

Lemma sent_tool_call_fixed (tc : value) :
  Client.sent_tool_call tc -> Client.sanitize_tool_call tc = Ok tc.
Proof.
  intros [id [ty [func [-> [Hp Ha]]]]].
  unfold Client.sanitize_tool_call, Client.sanitize_function, Client.drop_parameters.
  cbn [getitem dict_get String.eqb Ascii.eqb Bool.eqb]. simpl dict_get.
  rewrite Hp.
  destruct (dict_get func "arguments") as [[| | | | a | | |]|]; try discriminate.
  reflexivity.
Qed.

Lemma sent_tool_calls_fixed (tcs : list value) :
  Forall Client.sent_tool_call tcs -> map_result Client.sanitize_tool_call tcs = Ok tcs.
Proof.
  induction 1 as [|tc tcs Htc _ IH]; simpl; [reflexivity|].
  now rewrite (sent_tool_call_fixed tc Htc), IH.
Qed.

Lemma sent_entry_fixed (entry : dict) :
  Client.sent_entry entry -> Client.sanitize_message entry = Ok [entry].
Proof.
  intros [[content ->] | [[tcs [-> Htcs]] | [[c [-> Hc]] | [content [id ->]]]]].
  - reflexivity.
  - unfold Client.sanitize_message. simpl.
    now rewrite (sent_tool_calls_fixed tcs Htcs).
  - unfold Client.sanitize_message. simpl. now rewrite Hc.
  - reflexivity.
Qed.

(** X12. Every entry that [sanitize_messages] sends has one of four
    shapes: a user turn with [role] and [content]; an assistant turn
    with [content] None and [tool_calls], each of them with exactly
    [id], [type] and a [function] that has a string under [arguments]
    and no [parameters]; an assistant turn with a content that is not
    blank; a tool turn with [role], [content] and [tool_call_id]. No
    other key of a message (such as [tool_call_step]) is sent on. *)
Theorem sanitize_messages_sends_four_shapes :
  forall (msgs sanitized : list dict),
    Client.sanitize_messages msgs = Ok sanitized ->
    Forall (fun entry =>
              (exists content, entry = [("role", VStr "user"); ("content", content)])
              \/ (exists tool_calls,
                    entry = [("role", VStr "assistant"); ("content", VNone);
                             ("tool_calls", VList tool_calls)]
                    /\ Forall (fun tc =>
                                 exists id type_ func,
                                   tc = VDict [("id", id); ("type", type_);
                                               ("function", VDict func)]
                                   /\ dict_has func "parameters" = false
                                   /\ Client.is_string (dict_get func "arguments") = true)
                              tool_calls)
              \/ (exists c,
                    entry = [("role", VStr "assistant"); ("content", VStr c)]
                    /\ String.eqb (strip c) "" = false)
              \/ (exists content id,
                    entry = [("role", VStr "tool"); ("content", content);
                             ("tool_call_id", id)]))
           sanitized.
Proof.
  intros msgs sanitized H. exact (sanitize_messages_shape msgs sanitized H).
Qed.

(** X13. Sanitizing is idempotent: what [sanitize_messages] returns
    passes through it unchanged, and without raising. *)
Theorem sanitize_messages_is_idempotent :
  forall (msgs sanitized : list dict),
    Client.sanitize_messages msgs = Ok sanitized ->
    Client.sanitize_messages sanitized = Ok sanitized.
Proof.
  intros msgs sanitized H. apply sanitize_messages_shape in H.
  induction H as [|entry rest Hentry _ IH]; simpl; [reflexivity|].
  now rewrite (sent_entry_fixed entry Hentry), IH.
Qed.

End Sanitize.

Lemma sanitize_messages_sends_four_shapes_witness :
  Forall Client.sent_entry Scripted.alerts_log_sanitized.
Proof.
  exact (sanitize_messages_sends_four_shapes (B := Scripted.builtins)
           Scripted.alerts_log Scripted.alerts_log_sanitized eq_refl).
Defined.

Lemma sanitize_messages_is_idempotent_witness :
  Client.sanitize_messages (B := Scripted.builtins) Scripted.alerts_log_sanitized
  = Ok Scripted.alerts_log_sanitized.
Proof.
  exact (sanitize_messages_is_idempotent (B := Scripted.builtins)
           Scripted.alerts_log Scripted.alerts_log_sanitized eq_refl).
Defined.

(** ** The last tool result *)

Lemma find_tool_result_skips (skipped rest : list dict) :
  Client.no_tool_turn skipped ->
  Client.find_tool_result (skipped ++ rest) = Client.find_tool_result rest.
Proof.
  induction 1 as [|m skipped Hm _ IH]; simpl; [reflexivity|].
  unfold Client.has_role in Hm. now rewrite Hm.
Qed.

(** X14. The tool result that [process_query] hands to the presentation
    is the [content] of the last turn of role "tool" in the log ([None]
    when that turn has no [content]), whatever comes before it and
    whatever turns of other roles come after it; it is [None] when the
    log has no such turn. *)
Theorem last_tool_result_is_the_last_tool_turn :
  forall (msgs : list dict),
    (Forall (fun m => Client.has_role "tool" m = false) msgs ->
     Client.last_tool_result_of msgs = VNone)
    /\ (forall before m after,
          msgs = (before ++ m :: after)%list ->
          Client.has_role "tool" m = true ->
          Forall (fun m' => Client.has_role "tool" m' = false) after ->
          Client.last_tool_result_of msgs = dict_get_default m "content" VNone).
Proof.
  intros msgs. split.
  - intros H. unfold Client.last_tool_result_of.
    rewrite <- (app_nil_r (rev msgs)). rewrite find_tool_result_skips; [reflexivity|].
    now apply Forall_rev.
  - intros before m after -> Hm Hafter. unfold Client.last_tool_result_of.
    rewrite rev_app_distr. simpl. rewrite <- app_assoc.
    rewrite find_tool_result_skips by now apply Forall_rev.
    simpl. unfold Client.has_role in Hm. now rewrite Hm.
Qed.

Lemma last_tool_result_is_the_last_tool_turn_witness :
  Client.last_tool_result_of Scripted.alerts_log
  = VStr "No active alerts for this state.".
Proof.
  exact (proj2 (last_tool_result_is_the_last_tool_turn Scripted.alerts_log)
           [[("role", VStr "user"); ("content", VStr "alerts in CA")];
            Client.groq_assistant_turn (VStr "call_1") (VStr "get_alerts")
              (VDict [("state", VStr "CA")])]
           (Client.groq_tool_turn (VStr "call_1") "No active alerts for this state.")
           [] eq_refl eq_refl (Forall_nil _)).
Defined.

(** ** The tool declarations *)

(** X15. The tool list that [process_query] builds from the session's
    tools is always accepted by the adapters' conversions: neither the
    OpenAI and Groq format nor the Llama format can raise [KeyError],
    and each yields one declaration per tool, in order, with the name,
    the description and the input schema (as [parameters]) of the
    tool. *)
Theorem tool_declarations_are_always_built :
  forall tools : list Client.tool,
    map_result Client.function_tool (map Client.tool_entry tools)
    = Ok (map (fun t =>
                 [("type", VStr "function");
                  ("function", VDict [("name", VStr (Client.tool_name t));
                                      ("description", Client.tool_description t);
                                      ("parameters", Client.tool_inputSchema t)])])
              tools)
    /\ map_result Client.llama_function (map Client.tool_entry tools)
       = Ok (map (fun t =>
                    [("name", VStr (Client.tool_name t));
                     ("description", Client.tool_description t);
                     ("parameters", Client.tool_inputSchema t)])
                 tools).
Proof.
  induction tools as [|t tools [IHf IHl]]; [split; reflexivity|].
  split; simpl.
  - simpl in IHf. now rewrite IHf.
  - simpl in IHl. now rewrite IHl.
Qed.

End LogFacts.

(* ===================================================================== *)
(** * The client: connecting to the server script *)
(* ===================================================================== *)

Module ConnectionFacts.

Import PyStr Py PyStrFacts.
Local Open Scope py_scope.

(** ** Suffixes *)

Lemma endswith_app (suffix stem : string) : endswith suffix (stem ++ suffix) = true.
Proof.
  induction stem as [|c stem IH]; simpl.
  - destruct suffix; simpl; [reflexivity|].
    now rewrite Ascii.eqb_refl, String.eqb_refl.
  - rewrite IH. apply orb_true_r.
Qed.

Lemma endswith_stem (suffix s : string) :
  endswith suffix s = true -> exists stem, s = stem ++ suffix.
Proof.
  induction s as [|c s IH]; simpl.
  - rewrite orb_false_r. intros H. apply String.eqb_eq in H. subst. now exists "".
  - intros H. apply orb_true_iff in H as [H | H].
    + apply String.eqb_eq in H. subst. now exists "".
    + destruct (IH H) as [stem ->]. now exists (String c stem).
Qed.

Lemma length_append (a b : string) :
  String.length (a ++ b) = String.length a + String.length b.
Proof. induction a as [|c a IH]; simpl; [reflexivity | now rewrite IH]. Qed.

(** Two texts with endings of the same length have the same ending. *)
Lemma same_ending (a b x y : string) :
  a ++ x = b ++ y -> String.length x = String.length y -> x = y.
Proof.
  revert b. induction a as [|c a IH]; intros b H Hlen.
  - destruct b as [|d b]; [exact H|].
    apply (f_equal String.length) in H. simpl in H. rewrite length_append in H. lia.
  - destruct b as [|d b].
    + apply (f_equal String.length) in H. simpl in H. rewrite length_append in H. lia.
    + simpl in H. injection H as _ H. now apply IH with (b := b).
Qed.

Lemma py_is_not_js (stem : string) : endswith ".py" (stem ++ ".js") = false.
Proof.
  destruct (endswith ".py" (stem ++ ".js")) eqn:E; [|reflexivity].
  apply endswith_stem in E as [stem' E].
  apply same_ending in E; [discriminate | reflexivity].
Qed.

Section Connection.

Variable W : Type.
Variable open_session : Client.server_parameters -> W -> result unit * W.
Variable list_tools : W -> result (list Client.tool) * W.

#[local] Abbreviation connect_to_server :=
  (Client.connect_to_server W open_session list_tools).

(** X16. [connect_to_server] accepts exactly the paths that end in ".py"
    or ".js": any other path raises [ValueError] before anything is
    started; a ".py" path starts the server with the command python and
    a ".js" path with node, the path being its only argument, and the
    tool names of the session are what is printed. *)
Theorem connect_to_server_checks_the_script_path :
  forall (server_script_path : string) (w : W),
    ((forall stem, server_script_path <> stem ++ ".py") ->
     (forall stem, server_script_path <> stem ++ ".js") ->
     connect_to_server server_script_path w
     = (Raise (mkExn ValueError "Server script must be a .py or .js file"), w))
    /\ (forall stem command,
          (server_script_path = stem ++ ".py" /\ command = "python")
          \/ (server_script_path = stem ++ ".js" /\ command = "node") ->
          connect_to_server server_script_path w
          = (open_session (Client.mkParameters command [server_script_path]) ;;;
             tools <- list_tools ;;
             ret (map Client.tool_name tools)) w).
Proof.
  intros path w. unfold Client.connect_to_server. split.
  - intros Hpy Hjs.
    destruct (endswith ".py" path) eqn:Epy.
    { apply endswith_stem in Epy as [stem E]. now destruct (Hpy stem). }
    destruct (endswith ".js" path) eqn:Ejs.
    { apply endswith_stem in Ejs as [stem E]. now destruct (Hjs stem). }
    reflexivity.
  - intros stem command [[-> ->] | [-> ->]].
    + now rewrite endswith_app.
    + now rewrite py_is_not_js, endswith_app.
Qed.

End Connection.

Lemma connect_to_server_checks_the_script_path_witness :
  Client.connect_to_server Scripted.script Scripted.open_session Scripted.list_tools
    "weather.py" Scripted.silent
  = (Ok ["get_alerts"; "get_forecast"; "get_historical_weather"], Scripted.silent).
Proof.
  rewrite (proj2 (connect_to_server_checks_the_script_path Scripted.script
                    Scripted.open_session Scripted.list_tools "weather.py" Scripted.silent)
             "weather" "python" (or_introl (conj eq_refl eq_refl))).
  reflexivity.
Defined.

End ConnectionFacts.

(* ===================================================================== *)
(** * The client: the log and the traffic of the four adapters *)
(* ===================================================================== *)

Module ProviderFacts.

Import PyStr Py AdapterFacts.
Local Open Scope py_scope.

Section Adapters.

Context {B : Builtins}.
Variable W : Type.
Variable list_tools : W -> result (list Client.tool) * W.
Variable call_tool : value -> value -> W -> result value * W.
Variable anthropic_create :
  list dict -> option (list dict) -> W -> result (list Client.block) * W.
Variable openai_create :
  list dict -> option (list dict) -> W -> result (list Client.oa_message) * W.
Variable http_post : string -> dict -> W -> result value * W.

#[local] Abbreviation state := (Client.state W).
#[local] Abbreviation process_query :=
  (Client.process_query W list_tools call_tool anthropic_create openai_create http_post).
#[local] Abbreviation chat_round :=
  (Client.chat_round W list_tools call_tool anthropic_create openai_create http_post).
#[local] Abbreviation claude_block := (Client.claude_block W call_tool anthropic_create).
#[local] Abbreviation process_with_claude :=
  (Client.process_with_claude W call_tool anthropic_create).
#[local] Abbreviation groq_tool_round := (Client.groq_tool_round W call_tool http_post).
#[local] Abbreviation groq_follow_up := (Client.groq_follow_up W http_post).
#[local] Abbreviation groq_request := (Client.groq_request W http_post).
#[local] Abbreviation process_with_groq := (Client.process_with_groq W call_tool http_post).
#[local] Abbreviation openai_tool_round := (Client.openai_tool_round W call_tool openai_create).
#[local] Abbreviation process_with_openai :=
  (Client.process_with_openai W call_tool openai_create).
#[local] Abbreviation llama_tool_round := (Client.llama_tool_round W call_tool http_post).
#[local] Abbreviation process_with_llama :=
  (Client.process_with_llama W call_tool http_post).

(** [run] follows the computation of the goal through every branch. *)
Ltac run :=
  cbv beta;
  repeat match goal with
         | |- context [match ?x with _ => _ end] =>
             lazymatch x with
             | context [match _ with _ => _ end] => fail
             | _ => destruct x; simpl
             end
         end.

(** ** The Llama adapter keeps its turns to itself *)

Lemma llama_tool_round_log (functions : list dict) (acc : list value * list dict)
    (tool_call : value) (s : state) :
  Client.messages (snd (llama_tool_round functions acc tool_call s)) = Client.messages s.
Proof.
  destruct acc as [final_text formatted_messages].
  unfold Client.llama_tool_round, bind, lift, try_except, ret, Client.do_call_tool,
    Client.do_post, Client.perform.
  run; reflexivity.
Qed.

Lemma process_with_llama_log (available_tools : list dict) (s : state) :
  Client.messages (snd (process_with_llama available_tools s)) = Client.messages s.
Proof.
  unfold Client.process_with_llama, bind at 1 2 3, lift at 1 2, Client.get_messages.
  destruct (map_result Client.llama_function available_tools) as [functions|e];
    [|reflexivity].
  destruct (map_result Client.llama_message (Client.messages s)) as [formatted|e];
    [|reflexivity].
  unfold bind at 1.
  match goal with
  | |- context [Client.try_clauses ?c ?h s] =>
      assert (Hfirst : Client.messages (snd (Client.try_clauses c h s)) = Client.messages s)
  end.
  { unfold Client.try_clauses, bind, lift, ret, Client.do_post, Client.perform.
    cbn [Client.first_handler].
    destruct (http_post _ _ _) as [[data|e] w1]; simpl.
    - run; reflexivity.
    - destruct (is_RequestException e); [reflexivity|].
      destruct (is_JSONDecodeError e); reflexivity. }
  match goal with
  | |- context [Client.try_clauses ?c ?h s] =>
      destruct (Client.try_clauses c h s) as [[[sorry|response_data]|e] s1]
  end; simpl in Hfirst; try exact Hfirst.
  unfold bind at 1, lift at 1.
  destruct (Client.first_message response_data) as [assistant_message|e]; [|exact Hfirst].
  unfold bind at 1, lift at 1.
  destruct (Client.present_and_truthy assistant_message "content") as [has_content|e];
    [|exact Hfirst].
  unfold bind at 1.
  match goal with
  | |- context [(if has_content then ?a else ?b) s1] =>
      assert (Hc : snd ((if has_content then a else b) s1) = s1)
        by (destruct has_content; unfold bind, lift, ret; run; reflexivity);
      destruct ((if has_content then a else b) s1) as [[final_text|e] s2]
  end; simpl in Hc; subst s2; [|exact Hfirst].
  unfold bind at 1, lift at 1.
  destruct (Client.present_and_truthy assistant_message "tool_calls") as [has_calls|e];
    [|exact Hfirst].
  unfold bind at 1.
  assert (Hloop : forall items acc,
            Client.messages (snd (for_each items acc (llama_tool_round functions) s1))
            = Client.messages s).
  { intros items acc.
    apply (for_each_invariant (fun st : state => Client.messages st = Client.messages s)
             (llama_tool_round functions)); [|exact Hfirst].
    intros acc' x st Hst. now rewrite llama_tool_round_log. }
  destruct has_calls.
  - unfold bind at 1, lift at 1.
    destruct (getitem assistant_message "tool_calls") as [tool_calls_v|e]; [|exact Hfirst].
    unfold bind at 1, lift at 1.
    destruct (iterate tool_calls_v) as [tool_calls|e]; [|exact Hfirst].
    unfold bind at 1. specialize (Hloop tool_calls (final_text, formatted)).
    destruct (for_each tool_calls (final_text, formatted) (llama_tool_round functions) s1)
      as [[acc|e] s3]; simpl in Hloop; [|exact Hloop].
    unfold ret, lift. destruct (join_values nl (fst acc)); exact Hloop.
  - unfold ret, lift. destruct (join_values nl final_text); exact Hfirst.
Qed.

(** ** Every adapter only appends to the log *)

(** The log of [st] begins with [base]. *)
Lemma extends_refl (base : list dict) : exists extra : list dict, base = (base ++ extra)%list.
Proof. exists []. now rewrite app_nil_r. Qed.

Lemma process_with_claude_extends (available_tools : list dict) (s : state) :
  exists extra,
    Client.messages (snd (process_with_claude available_tools s))
    = (Client.messages s ++ extra)%list.
Proof.
  unfold Client.process_with_claude, bind at 1.
  unfold try_except, bind, Client.get_messages, Client.perform, ret.
  destruct (anthropic_create (Client.messages s) (Some available_tools) (Client.world s))
    as [[content|e] w1]; simpl; [|apply extends_refl].
  set (s1 := Client.mkState w1 _ (Client.messages s)).
  pose proof (for_each_invariant
                (fun st : state =>
                   exists extra, Client.messages st = (Client.messages s ++ extra)%list)
                claude_block) as Hloop.
  assert (Hround : forall acc x st,
            (exists extra, Client.messages st = (Client.messages s ++ extra)%list) ->
            exists extra,
              Client.messages (snd (claude_block acc x st))
              = (Client.messages s ++ extra)%list).
  { intros acc x st [extra Hst].
    destruct (claude_block_messages W call_tool anthropic_create acc x st)
      as [extra' [Heq _]].
    exists (extra ++ extra')%list. now rewrite Heq, Hst, app_assoc. }
  specialize (Hloop Hround content [] s1 (extends_refl _)).
  destruct (for_each content [] claude_block s1) as [[final_text|e] s2]; exact Hloop.
Qed.

Lemma openai_tool_round_extends (final_text : list value)
    (tool_call : Client.oa_tool_call) (s : state) :
  exists extra,
    Client.messages (snd (openai_tool_round final_text tool_call s))
    = (Client.messages s ++ extra)%list.
Proof.
  unfold Client.openai_tool_round, bind, Client.do_call_tool, Client.perform,
    Client.append_message, try_except, Client.get_messages, lift, ret.
  destruct (call_tool _ _ (Client.world s)) as [[content|e] w1]; simpl;
    [|apply extends_refl].
  destruct (openai_create _ None w1) as [[choices|e] w2]; simpl;
    [destruct (Client.first_choice choices); simpl|];
    eexists; rewrite <- app_assoc; reflexivity.
Qed.

Lemma process_with_openai_extends (available_tools : list dict) (s : state) :
  exists extra,
    Client.messages (snd (process_with_openai available_tools s))
    = (Client.messages s ++ extra)%list.
Proof.
  destruct (map_result Client.function_tool available_tools) as [openai_tools|e] eqn:Htools.
  2:{ unfold Client.process_with_openai, bind, lift. rewrite Htools. apply extends_refl. }
  destruct (openai_create (Client.messages s) (Some openai_tools) (Client.world s))
    as [[choices|e] w1] eqn:Hcreate.
  2:{ unfold Client.process_with_openai, bind, lift, try_except, Client.get_messages,
        Client.perform, ret.
      rewrite Htools, Hcreate. simpl. apply extends_refl. }
  destruct (Client.first_choice choices) as [message|e] eqn:Hchoice.
  2:{ unfold Client.process_with_openai, bind, lift, try_except, Client.get_messages,
        Client.perform, ret.
      rewrite Htools, Hcreate. simpl. rewrite Hchoice. apply extends_refl. }
  rewrite (process_with_openai_after_first_reply W call_tool openai_create
             _ _ _ _ _ _ Htools Hcreate Hchoice).
  set (s1 := Client.mkState w1 _ (Client.messages s)).
  assert (Hloop : exists extra,
            Client.messages
              (snd (for_each (Client.openai_tool_calls message)
                      (Client.openai_first_text message) openai_tool_round s1))
            = (Client.messages s ++ extra)%list).
  { apply (for_each_invariant
             (fun st : state =>
                exists extra, Client.messages st = (Client.messages s ++ extra)%list)
             openai_tool_round); [|apply extends_refl].
    intros acc' x st [extra Hst].
    destruct (openai_tool_round_extends acc' x st) as [extra' Heq].
    exists (extra ++ extra')%list. now rewrite Heq, Hst, app_assoc. }
  destruct Hloop as [extra Hextra]. exists extra. unfold bind.
  destruct (for_each _ _ openai_tool_round s1) as [[final_text|e] s2];
    simpl in Hextra; [|exact Hextra].
  unfold lift. destruct (join_values nl final_text); exact Hextra.
Qed.

(** A round of the Groq adapter appends turns whose tool turns hold
    text. *)
Lemma groq_tool_round_log (groq_tools : list dict) (final_text : list value)
    (tool_call : value) (s : state) :
  exists extra,
    Client.messages (snd (groq_tool_round groq_tools final_text tool_call s))
    = (Client.messages s ++ extra)%list
    /\ Client.tool_turns_hold_text extra.
Proof.
  assert (Hnone : exists extra : list dict,
            Client.messages s = (Client.messages s ++ extra)%list
            /\ Client.tool_turns_hold_text extra).
  { exists []. rewrite app_nil_r. split; [reflexivity | constructor]. }
  unfold Client.groq_tool_round, bind at 1 2 3 4, lift.
  destruct (getitem tool_call "function") as [fn|e]; simpl; [|exact Hnone].
  destruct (getitem fn "name") as [name|e]; simpl; [|exact Hnone].
  destruct (getitem fn "arguments") as [raw|e]; simpl; [|exact Hnone].
  destruct (Client.groq_arguments raw) as [args|e]; simpl; [|exact Hnone].
  unfold bind at 1, Client.do_call_tool, Client.perform.
  destruct (call_tool name args (Client.world s)) as [[content|e] w1]; simpl;
    [|exact Hnone].
  unfold bind at 1, lift.
  destruct (getitem tool_call "id") as [id|e]; simpl; [|exact Hnone].
  unfold bind, Client.append_message, try_except, ret. simpl.
  match goal with
  | |- context [groq_follow_up groq_tools ?st] =>
      destruct (groq_follow_up groq_tools st) as [[text|e] s3] eqn:Hf;
      destruct (groq_follow_up_effect W http_post groq_tools st _ _ Hf)
        as [new [extra [_ [_ [Hm Hextra]]]]]
  end; simpl in Hm; simpl; rewrite Hm, <- !app_assoc;
    (eexists; split; [reflexivity|]);
    (constructor; [discriminate|]); (constructor; [reflexivity|]);
    (eapply Forall_impl; [|exact Hextra]);
    intros m Ha Ht;
    rewrite (SanitizeFacts.has_role_exclusive m "assistant" "tool" Ha eq_refl) in Ht;
    discriminate.
Qed.

Lemma process_with_groq_log (available_tools : list dict) (s : state) :
  exists extra,
    Client.messages (snd (process_with_groq available_tools s))
    = (Client.messages s ++ extra)%list
    /\ Client.tool_turns_hold_text extra.
Proof.
  assert (Hnone : forall st : state,
            Client.messages st = Client.messages s ->
            exists extra : list dict,
              Client.messages st = (Client.messages s ++ extra)%list
              /\ Client.tool_turns_hold_text extra).
  { intros st ->. exists []. rewrite app_nil_r. split; [reflexivity | constructor]. }
  unfold Client.process_with_groq, bind at 1, lift at 1.
  destruct (map_result Client.function_tool available_tools) as [groq_tools|e];
    [|now apply Hnone].
  unfold bind at 1, Client.try_clauses, bind at 1.
  destruct (groq_request groq_tools s) as [[data|e] s1] eqn:Hreq;
    destruct (groq_request_effect W http_post groq_tools s s1 _ Hreq) as [Hm _].
  2:{ cbn [Client.first_handler]. unfold ret.
      destruct (is_RequestException e); [now apply Hnone|].
      destruct (is_JSONDecodeError e); now apply Hnone. }
  unfold ret at 1. cbv beta iota.
  unfold bind at 1, lift at 1.
  destruct (Client.first_message data) as [response_message|e]; [|now apply Hnone].
  unfold bind at 1, lift at 1.
  destruct (get_method response_message "content" VNone) as [content|e];
    [|now apply Hnone].
  unfold bind at 1, lift at 1.
  destruct (get_method response_message "tool_calls" VNone) as [tool_calls_v|e];
    [|now apply Hnone].
  unfold bind at 1.
  assert (Hloop : forall items acc,
            exists extra,
              Client.messages (snd (for_each items acc (groq_tool_round groq_tools) s1))
              = (Client.messages s ++ extra)%list
              /\ Client.tool_turns_hold_text extra).
  { intros items acc.
    apply (for_each_invariant
             (fun st : state =>
                exists extra, Client.messages st = (Client.messages s ++ extra)%list
                              /\ Client.tool_turns_hold_text extra)
             (groq_tool_round groq_tools)); [|now apply Hnone].
    intros acc' x st [extra [Hst Htext]].
    destruct (groq_tool_round_log groq_tools acc' x st) as [extra' [Heq Htext']].
    exists (extra ++ extra')%list. rewrite Heq, Hst, app_assoc.
    split; [reflexivity | apply Forall_app; now split]. }
  destruct (truthy tool_calls_v).
  - unfold bind at 1, lift at 1.
    destruct (iterate tool_calls_v) as [tool_calls|e]; [|now apply Hnone].
    match goal with
    | |- context [for_each ?items ?acc (groq_tool_round groq_tools) s1] =>
        destruct (Hloop items acc) as [extra Hextra];
        destruct (for_each items acc (groq_tool_round groq_tools) s1)
          as [[final_text|e] s2]
    end; simpl in Hextra; [|now exists extra].
    unfold lift. destruct (join_values nl final_text); now exists extra.
  - unfold ret, lift. run; now apply Hnone.
Qed.

(** [process_query], step by step. *)
Lemma process_query_steps (llm_provider : Client.provider) (query : string) (s : state) :
  process_query llm_provider query s
  = match list_tools (Client.world s) with
    | (Raise e, w1) =>
        (Raise e,
         Client.mkState w1 (Client.trace s ++ [Client.ListTools])
           [[("role", VStr "user"); ("content", VStr query)]])
    | (Ok tools, w1) =>
        match
          match llm_provider with
          | Client.Anthropic => process_with_claude (map Client.tool_entry tools)
          | Client.Llama => process_with_llama (map Client.tool_entry tools)
          | Client.Groq => process_with_groq (map Client.tool_entry tools)
          | Client.OpenAI => process_with_openai (map Client.tool_entry tools)
          end
            (Client.mkState w1 (Client.trace s ++ [Client.ListTools])
               [[("role", VStr "user"); ("content", VStr query)]])
        with
        | (Ok llm_response, s2) =>
            (Ok (llm_response, Client.last_tool_result_of (Client.messages s2)), s2)
        | (Raise e, s2) => (Raise e, s2)
        end
    end.
Proof.
  unfold Client.process_query, bind, Client.perform, Client.get_messages, ret.
  cbn [Client.world Client.trace Client.messages].
  destruct (list_tools (Client.world s)) as [[tools|e] w1]; [|reflexivity].
  match goal with
  | |- context [match llm_provider with
                | Client.Anthropic => ?a | Client.OpenAI => ?o
                | Client.Llama => ?l | Client.Groq => ?g end ?st] =>
      destruct (match llm_provider with
                | Client.Anthropic => a | Client.OpenAI => o
                | Client.Llama => l | Client.Groq => g end st) as [[llm_response|e] s2]
  end; reflexivity.
Qed.

(** X17. The four adapters only append to the log they are given (the
    Llama adapter appends nothing): no turn is removed, replaced or
    moved. So the log after [process_query], returned or raised, begins
    with the user turn of the query. *)
Theorem adapters_only_append_to_the_log :
  (forall (available_tools : list dict) (s : state),
     (exists extra,
        Client.messages (snd (process_with_claude available_tools s))
        = (Client.messages s ++ extra)%list)
     /\ (exists extra,
           Client.messages (snd (process_with_openai available_tools s))
           = (Client.messages s ++ extra)%list)
     /\ Client.messages (snd (process_with_llama available_tools s)) = Client.messages s
     /\ (exists extra,
           Client.messages (snd (process_with_groq available_tools s))
           = (Client.messages s ++ extra)%list))
  /\ (forall (llm_provider : Client.provider) (query : string) (s : state),
        exists extra,
          Client.messages (snd (process_query llm_provider query s))
          = [("role", VStr "user"); ("content", VStr query)] :: extra).
Proof.
  assert (Hgroq : forall available_tools s,
            exists extra,
              Client.messages (snd (process_with_groq available_tools s))
              = (Client.messages s ++ extra)%list).
  { intros available_tools s.
    destruct (process_with_groq_log available_tools s) as [extra [H _]]. now exists extra. }
  split.
  - intros available_tools s.
    split; [apply process_with_claude_extends|].
    split; [apply process_with_openai_extends|].
    split; [apply process_with_llama_log | apply Hgroq].
  - intros llm_provider query s. rewrite process_query_steps.
    destruct (list_tools (Client.world s)) as [[tools|e] w1]; [|now exists []].
    set (s1 := Client.mkState w1 _ _).
    match goal with
    | |- context [match ?adapter s1 with _ => _ end] =>
        assert (Hadapter : exists extra,
                  Client.messages (snd (adapter s1)) = (Client.messages s1 ++ extra)%list);
        [|destruct (adapter s1) as [[llm_response|e] s2]]
    end.
    + destruct llm_provider.
      * apply process_with_claude_extends.
      * apply process_with_openai_extends.
      * exists []. now rewrite process_with_llama_log, app_nil_r.
      * apply Hgroq.
    + exact Hadapter.
    + exact Hadapter.
Qed.

(** X18. The Llama adapter keeps the turns of its rounds in a list of
    its own and never appends to the log of the query: after
    [process_query] the log is the user turn alone, so the tool result
    handed to the presentation is [None] and the presentation shows the
    cleaned reply, never a tool result. *)
Theorem llama_never_logs_a_tool_result :
  forall (query : string) (s : state),
    Client.messages (snd (process_query Client.Llama query s))
    = [[("role", VStr "user"); ("content", VStr query)]]
    /\ match fst (process_query Client.Llama query s) with
       | Ok (llm_response, last_tool_result) =>
           last_tool_result = VNone
           /\ Client.present llm_response last_tool_result
              = Ok (strip (Client.cleaned_of llm_response))
       | Raise _ => True
       end.
Proof.
  intros query s. rewrite process_query_steps.
  destruct (list_tools (Client.world s)) as [[tools|e] w1]; [|split; [reflexivity | exact I]].
  set (s1 := Client.mkState w1 _ _).
  pose proof (process_with_llama_log (map Client.tool_entry tools) s1) as Hlog.
  destruct (process_with_llama (map Client.tool_entry tools) s1) as [[llm_response|e] s2];
    simpl in *; rewrite Hlog; (split; [reflexivity|]); [|exact I].
  split; [reflexivity|]. apply present_without_tool_result.
Qed.

(** ** The Groq adapter logs text only *)

Lemma find_tool_result_text (msgs : list dict) :
  Client.tool_turns_hold_text msgs ->
  Client.find_tool_result msgs = VNone
  \/ exists c, Client.find_tool_result msgs = VStr c.
Proof.
  induction 1 as [|m msgs Hm _ IH]; simpl; [now left|].
  unfold Client.has_role in Hm.
  destruct (eq_str (dict_get_default m "role" VNone) "tool"); [|exact IH].
  specialize (Hm eq_refl). unfold dict_get_default.
  destruct (dict_get m "content") as [[| | | | c | | |]|]; try discriminate.
  right. now exists c.
Qed.

Lemma present_text (llm_response c : string) :
  exists shown, Client.present llm_response (VStr c) = Ok shown.
Proof.
  unfold Client.present.
  destruct (Client.is_placeholder (Client.cleaned_of llm_response) && truthy (VStr c));
    eexists; reflexivity.
Qed.

(** X19. With the Groq adapter every tool turn of the log carries a
    string (the flattened content of the tool's result), so the tool
    result handed to the presentation is [None] or a string, and the
    presentation of what [process_query] returned cannot raise. *)
Theorem groq_presentation_never_raises :
  forall (query : string) (s : state),
    Forall (fun m => Client.has_role "tool" m = true ->
                     Client.is_string (dict_get m "content") = true)
           (Client.messages (snd (process_query Client.Groq query s)))
    /\ match fst (process_query Client.Groq query s) with
       | Ok (llm_response, last_tool_result) =>
           (last_tool_result = VNone \/ exists c, last_tool_result = VStr c)
           /\ exists shown, Client.present llm_response last_tool_result = Ok shown
       | Raise _ => True
       end.
Proof.
  intros query s. rewrite process_query_steps.
  destruct (list_tools (Client.world s)) as [[tools|e] w1].
  2:{ split; [|exact I]. constructor; [discriminate | constructor]. }
  set (s1 := Client.mkState w1 _ _).
  destruct (process_with_groq_log (map Client.tool_entry tools) s1)
    as [extra [Hlog Htext]].
  assert (Hall : Client.tool_turns_hold_text
                   (Client.messages (snd (process_with_groq (map Client.tool_entry tools) s1)))).
  { rewrite Hlog. apply Forall_app. split; [|exact Htext].
    constructor; [discriminate | constructor]. }
  destruct (process_with_groq (map Client.tool_entry tools) s1) as [[llm_response|e] s2];
    simpl in *; (split; [exact Hall|]); [|exact I].
  assert (Hlast : Client.last_tool_result_of (Client.messages s2) = VNone
                  \/ exists c, Client.last_tool_result_of (Client.messages s2) = VStr c).
  { apply find_tool_result_text. now apply Forall_rev. }
  split; [exact Hlast|].
  destruct Hlast as [-> | [c ->]].
  - eexists. apply present_without_tool_result.
  - apply present_text.
Qed.

(** ** Rounds add up *)

Lemma sends_nothing {A} (shape : Client.event -> Prop) (s : state) (e : exn) :
  Client.sends_rounds (A := A) 0 shape s (Raise e) s.
Proof.
  exists []. rewrite app_nil_r. split; [reflexivity|]. split; [constructor|].
  split; [apply Nat.le_refl|]. split; [apply Nat.le_refl | discriminate].
Qed.

Lemma sends_rounds_more {A} (n m : nat) (shape : Client.event -> Prop) (s s' : state)
    (e : exn) :
  n <= m ->
  Client.sends_rounds (A := A) n shape s (Raise e) s' ->
  Client.sends_rounds (A := A) m shape s (Raise e) s'.
Proof.
  intros Hle [new [Ht [Hs [Hc [Hm _]]]]]. exists new.
  split; [exact Ht|]. split; [exact Hs|]. split; [lia|]. split; [lia | discriminate].
Qed.

Lemma for_each_sends_rounds {A X} (body : A -> X -> M state A) (weight : X -> nat)
    (shape : Client.event -> Prop) :
  (forall acc x s s' r,
     body acc x s = (r, s') -> Client.sends_rounds (weight x) shape s r s') ->
  forall (items : list X) (acc : A) (s s' : state) (r : result A),
    for_each items acc body s = (r, s') ->
    Client.sends_rounds (list_sum (map weight items)) shape s r s'.
Proof.
  intros Hbody. induction items as [|x rest IH]; intros acc s s' r Hrun.
  - injection Hrun as <- <-. exists []. rewrite app_nil_r.
    split; [reflexivity|]. split; [constructor|].
    split; [apply Nat.le_refl|]. split; [apply Nat.le_refl|]. now split.
  - simpl in Hrun. unfold bind in Hrun.
    destruct (body acc x s) as [[acc1|e] s1] eqn:Hround;
      apply Hbody in Hround as [new1 [Ht1 [Hs1 [Hc1 [Hm1 Hok1]]]]].
    + apply IH in Hrun as [new2 [Ht2 [Hs2 [Hc2 [Hm2 Hok2]]]]].
      destruct (Hok1 acc1 eq_refl) as [Hc1' Hm1'].
      exists (new1 ++ new2)%list. rewrite !SanitizeFacts.count_app.
      split; [now rewrite Ht2, Ht1, app_assoc|].
      split; [apply Forall_app; now split|].
      split; [simpl; lia|]. split; [simpl; lia|].
      intros a ->. destruct (Hok2 a eq_refl) as [Hc2' Hm2']. simpl. lia.
    + injection Hrun as <- <-. exists new1.
      split; [exact Ht1|]. split; [exact Hs1|].
      split; [simpl; lia|]. split; [simpl; lia | discriminate].
Qed.

Lemma count_as_sum {X} (p : X -> bool) (l : list X) :
  list_sum (map (fun x => if p x then 1 else 0) l) = Client.count p l.
Proof.
  unfold Client.count. induction l as [|x l IH]; simpl; [reflexivity|].
  destruct (p x); simpl; now rewrite IH.
Qed.

(** ** The Anthropic adapter *)

Lemma claude_block_traffic (final_text : list string) (content : Client.block)
    (s s' : state) (r : result (list string)) :
  claude_block final_text content s = (r, s') ->
  Client.sends_rounds (if Client.is_tool_use content then 1 else 0)
    Client.claude_round_event s r s'.
Proof.
  assert (Hidle : forall ft : list string,
            Client.sends_rounds 0 Client.claude_round_event s (Ok ft) s).
  { intros ft. exists []. rewrite app_nil_r. split; [reflexivity|]. split; [constructor|].
    split; [apply Nat.le_refl|]. split; [apply Nat.le_refl|]. now split. }
  destruct content as [t | name input text | ty]; simpl;
    try (intros H; injection H as <- <-; apply Hidle).
  unfold Client.claude_block, Client.do_call_tool, Client.perform, bind at 1.
  destruct (call_tool (VStr name) input (Client.world s)) as [[content|e] w1].
  2:{ intros H. injection H as <- <-. exists [Client.ToolCall (VStr name) input].
      split; [reflexivity|]. split; [repeat constructor|].
      split; [apply Nat.le_refl|]. split; [apply Nat.le_0_l | discriminate]. }
  unfold try_except, bind, Client.get_messages, Client.perform, Client.append_message,
    lift, ret.
  assert (Hround : forall msgs,
            Forall Client.claude_round_event
              [Client.ToolCall (VStr name) input;
               Client.SdkRequest Client.Anthropic msgs None]).
  { intros msgs. constructor; [now left|]. constructor; [right; now exists msgs|].
    constructor. }
  destruct text as [t|]; [destruct (negb (String.eqb t ""))|]; simpl;
    match goal with
    | |- context [anthropic_create ?m ?t ?w] =>
        destruct (anthropic_create m t w) as [[response|e] w2]; simpl;
        [destruct (Client.first_block_text response); simpl|]
    end;
    intros H; injection H as <- <-; simpl;
    eexists; rewrite <- app_assoc;
    (split; [reflexivity|]); (split; [apply Hround|]);
    (split; [apply Nat.le_refl|]); (split; [apply Nat.le_refl|]); now split.
Qed.

(** X20. The Anthropic adapter asks the provider once with the tool
    declarations; for each [tool_use] block of that first reply it
    dispatches one tool call and sends one follow-up request, which
    carries no tool declarations, and nothing else: blocks of a
    follow-up reply are never executed. So a run sends at most as many
    dispatches and follow-up requests as the first reply has [tool_use]
    blocks, and exactly as many when it returns. *)
Theorem claude_runs_one_round_per_tool_use_block :
  forall (available_tools : list dict) (s s' : state) (content : list Client.block)
         (w1 : W) (r : result string),
    anthropic_create (Client.messages s) (Some available_tools) (Client.world s)
      = (Ok content, w1) ->
    process_with_claude available_tools s = (r, s') ->
    exists new,
      Client.trace s'
      = (Client.trace s
         ++ Client.SdkRequest Client.Anthropic (Client.messages s) (Some available_tools)
            :: new)%list
      /\ Forall (fun ev =>
                   Client.is_tool_call ev = true
                   \/ exists msgs, ev = Client.SdkRequest Client.Anthropic msgs None)
                new
      /\ Client.count Client.is_tool_call new <= Client.count Client.is_tool_use content
      /\ Client.count Client.is_model_request new <= Client.count Client.is_tool_use content
      /\ (forall answer,
            r = Ok answer ->
            Client.count Client.is_tool_call new = Client.count Client.is_tool_use content
            /\ Client.count Client.is_model_request new
               = Client.count Client.is_tool_use content).
Proof.
  intros available_tools s s' content w1 r Hcreate.
  unfold Client.process_with_claude, bind at 1.
  unfold try_except, bind at 1 2, Client.get_messages, Client.perform, ret.
  rewrite Hcreate. cbv beta iota.
  set (s1 := Client.mkState w1 _ (Client.messages s)).
  unfold bind.
  destruct (for_each content [] claude_block s1) as [[final_text|e] s2] eqn:Hloop;
    apply (for_each_sends_rounds claude_block
             (fun b => if Client.is_tool_use b then 1 else 0)
             Client.claude_round_event claude_block_traffic) in Hloop;
    rewrite count_as_sum in Hloop;
    destruct Hloop as [new [Ht [Hs [Hc [Hm Hok]]]]];
    intros H; injection H as <- <-; exists new;
    (split; [rewrite Ht; simpl; now rewrite <- app_assoc|]);
    (split; [exact Hs|]); (split; [exact Hc|]); (split; [exact Hm|]).
  - intros answer _. exact (Hok final_text eq_refl).
  - discriminate.
Qed.

Lemma claude_text_blocks (content : list Client.block) :
  Client.count Client.is_tool_use content = 0 ->
  forall (final_text : list string) (s : state),
    for_each content final_text claude_block s
    = (Ok (final_text ++ Client.block_texts content)%list, s).
Proof.
  induction content as [|b content IH]; intros Hnone final_text s; simpl.
  - now rewrite app_nil_r.
  - destruct b as [t | name input text | ty]; try discriminate;
      unfold bind; simpl; unfold ret; rewrite IH by exact Hnone.
    + now rewrite <- app_assoc.
    + reflexivity.
Qed.

(** X21. A first reply of the Anthropic provider that holds no
    [tool_use] block is answered as it is: the texts of its text blocks,
    in order, joined by newlines (blocks of other types are skipped);
    one request was sent, no tool was called, and the log is as it
    was. *)
Theorem claude_text_reply_is_joined :
  forall (available_tools : list dict) (s : state) (content : list Client.block) (w1 : W),
    anthropic_create (Client.messages s) (Some available_tools) (Client.world s)
      = (Ok content, w1) ->
    Client.count Client.is_tool_use content = 0 ->
    process_with_claude available_tools s
    = (Ok (join nl (Client.block_texts content)),
       Client.mkState w1
         (Client.trace s
          ++ [Client.SdkRequest Client.Anthropic (Client.messages s) (Some available_tools)])
         (Client.messages s)).
Proof.
  intros available_tools s content w1 Hcreate Hnone.
  unfold Client.process_with_claude, bind at 1.
  unfold try_except, bind at 1 2, Client.get_messages, Client.perform, ret.
  rewrite Hcreate. cbv beta iota. unfold bind.
  now rewrite (claude_text_blocks content Hnone).
Qed.

(** ** The Llama adapter *)

Lemma llama_tool_round_traffic (functions : list dict) (acc : list value * list dict)
    (tool_call : value) (s s' : state) (r : result (list value * list dict)) :
  llama_tool_round functions acc tool_call s = (r, s') ->
  Client.sends_rounds 1 Client.llama_round_event s r s'.
Proof.
  destruct acc as [final_text formatted_messages].
  assert (Hearly : forall e : exn,
            (Raise e, s) = (r, s') ->
            Client.sends_rounds 1 Client.llama_round_event s r s').
  { intros e H. injection H as <- <-.
    apply sends_rounds_more with (n := 0); [lia | apply sends_nothing]. }
  unfold Client.llama_tool_round, bind at 1 2 3 4, lift.
  destruct (getitem tool_call "function") as [fn|e]; [|apply Hearly].
  destruct (getitem fn "name") as [tool_name|e]; [|apply Hearly].
  destruct (getitem fn "arguments") as [tool_args|e]; [|apply Hearly].
  destruct (Client.loads_value tool_args) as [parsed|e]; [|apply Hearly].
  clear Hearly.
  unfold bind at 1, Client.do_call_tool, Client.perform.
  assert (Hstop : forall (e : exn) (w1 : W),
            (Raise e,
             Client.mkState w1 (Client.trace s ++ [Client.ToolCall tool_name parsed])
               (Client.messages s)) = (r, s') ->
            Client.sends_rounds 1 Client.llama_round_event s r s').
  { intros e w1 H. injection H as <- <-. exists [Client.ToolCall tool_name parsed].
    split; [reflexivity|]. split; [repeat constructor|].
    split; [apply Nat.le_refl|]. split; [apply Nat.le_0_l | discriminate]. }
  destruct (call_tool tool_name parsed (Client.world s)) as [[content|e] w1];
    [|apply Hstop].
  unfold bind at 1.
  destruct (getitem tool_call "id") as [id|e]; [|apply Hstop].
  unfold try_except, bind, Client.do_post, Client.perform, lift, ret.
  cbn [Client.world Client.trace Client.messages].
  destruct (http_post _ _ w1) as [[response_data|e] w2];
    [destruct (Client.first_message response_data) as [assistant_message|e];
     [destruct (getitem assistant_message "content")|]|];
    simpl; intros H; injection H as <- <-; eexists; rewrite <- app_assoc;
    (split; [reflexivity|]);
    (split; [constructor; [now left|];
             constructor; [right; eexists; reflexivity | constructor]|]);
    (split; [apply Nat.le_refl|]); (split; [apply Nat.le_refl|]); now split.
Qed.

Lemma sum_of_ones {X} (l : list X) : list_sum (map (fun _ => 1) l) = List.length l.
Proof. induction l as [|x l IH]; simpl; [reflexivity | now rewrite IH]. Qed.

(** The first request of the Llama adapter, when it brings a body. *)
Lemma llama_first_reply (available_tools functions formatted_messages : list dict)
    (s : state) (data : value) (w1 : W) :
  map_result Client.llama_function available_tools = Ok functions ->
  map_result Client.llama_message (Client.messages s) = Ok formatted_messages ->
  http_post Client.llama_url (Client.llama_payload formatted_messages functions)
    (Client.world s) = (Ok data, w1) ->
  contains_key "error" data = Ok false ->
  process_with_llama available_tools s
  = bind (lift (Client.first_message data)) (fun assistant_message =>
    bind (lift (Client.present_and_truthy assistant_message "content")) (fun has_content =>
    bind (if has_content
          then bind (lift (getitem assistant_message "content")) (fun c => ret [c])
          else ret []) (fun final_text =>
    bind (lift (Client.present_and_truthy assistant_message "tool_calls")) (fun has_calls =>
    bind (if has_calls then
            bind (lift (getitem assistant_message "tool_calls")) (fun tool_calls_v =>
            bind (lift (iterate tool_calls_v)) (fun tool_calls =>
            bind (for_each tool_calls (final_text, formatted_messages)
                    (llama_tool_round functions)) (fun acc => ret (fst acc))))
          else ret final_text) (fun final_text =>
    lift (join_values nl final_text))))))
      (Client.mkState w1
         (Client.trace s
          ++ [Client.Post Client.llama_url
                (Client.llama_payload formatted_messages functions)])
         (Client.messages s)).
Proof.
  intros Htools Hmsgs Hpost Herror.
  unfold Client.process_with_llama, bind at 1 2 3, lift at 1 2, Client.get_messages.
  rewrite Htools. cbv beta iota. rewrite Hmsgs. cbv beta iota.
  unfold bind at 1, Client.try_clauses, bind at 1, Client.do_post, Client.perform.
  rewrite Hpost. unfold bind at 1, lift at 1. rewrite Herror. reflexivity.
Qed.

(** X22. After a first reply without [error], the Llama adapter goes
    once through the tool calls of that reply: for each it parses the
    [arguments] as JSON, dispatches the call and posts one follow-up
    request to the same address; tool calls of a follow-up reply are
    never executed. A run sends at most as many dispatches and follow-up
    requests as the first reply has tool calls, and exactly as many when
    it returns. *)
Theorem llama_runs_one_round_per_first_reply_tool_call :
  forall (available_tools functions formatted_messages : list dict) (s s' : state)
         (data : value) (w1 : W) (r : result string),
    map_result Client.llama_function available_tools = Ok functions ->
    map_result Client.llama_message (Client.messages s) = Ok formatted_messages ->
    http_post Client.llama_url (Client.llama_payload formatted_messages functions)
      (Client.world s) = (Ok data, w1) ->
    contains_key "error" data = Ok false ->
    process_with_llama available_tools s = (r, s') ->
    exists new,
      Client.trace s'
      = (Client.trace s
         ++ Client.Post Client.llama_url (Client.llama_payload formatted_messages functions)
            :: new)%list
      /\ Forall (fun ev =>
                   Client.is_tool_call ev = true
                   \/ exists payload, ev = Client.Post Client.llama_url payload)
                new
      /\ Client.count Client.is_tool_call new <= List.length (Client.llama_tool_calls data)
      /\ Client.count Client.is_model_request new
         <= List.length (Client.llama_tool_calls data)
      /\ (forall answer,
            r = Ok answer ->
            Client.count Client.is_tool_call new
            = List.length (Client.llama_tool_calls data)
            /\ Client.count Client.is_model_request new
               = List.length (Client.llama_tool_calls data)).
Proof.
  intros available_tools functions formatted_messages s s' data w1 r
    Htools Hmsgs Hpost Herror.
  rewrite (llama_first_reply _ _ _ _ _ _ Htools Hmsgs Hpost Herror).
  set (s1 := Client.mkState w1 _ (Client.messages s)).
  intros Hrun.
  assert (Hgoal : Client.sends_rounds (List.length (Client.llama_tool_calls data))
                    Client.llama_round_event s1 r s').
  { revert Hrun. unfold Client.llama_tool_calls.
    assert (Hearly : forall (n : nat) (e : exn),
              (Raise e, s1) = (r, s') ->
              Client.sends_rounds n Client.llama_round_event s1 r s').
    { intros n e H. injection H as <- <-.
      apply sends_rounds_more with (n := 0); [lia | apply sends_nothing]. }
    assert (Hidle : forall final_text,
              lift (join_values nl final_text) s1 = (r, s') ->
              Client.sends_rounds 0 Client.llama_round_event s1 r s').
    { intros final_text H. unfold lift in H. injection H as <- <-.
      exists []. rewrite app_nil_r. split; [reflexivity|]. split; [constructor|].
      split; [apply Nat.le_refl|]. split; [apply Nat.le_refl|]. now split. }
    unfold bind at 1, lift at 1.
    destruct (Client.first_message data) as [assistant_message|e]; [|apply Hearly].
    unfold bind at 1, lift at 1.
    destruct (Client.present_and_truthy assistant_message "content") as [has_content|e];
      [|apply Hearly].
    unfold bind at 1.
    assert (Hcontent : exists rc : result (list value),
              (if has_content
               then bind (lift (getitem assistant_message "content")) (fun c => ret [c])
               else ret []) s1 = (rc, s1)).
    { destruct has_content; unfold bind, lift, ret; [|now eexists].
      destruct (getitem assistant_message "content"); now eexists. }
    destruct Hcontent as [rc ->]. destruct rc as [final_text|e]; [|apply Hearly].
    unfold bind at 1, lift at 1.
    destruct (Client.present_and_truthy assistant_message "tool_calls") as [[|]|e];
      [| |apply Hearly].
    2:{ unfold bind, ret. apply Hidle. }
    unfold bind at 1 2, lift at 1.
    destruct (getitem assistant_message "tool_calls") as [tool_calls_v|e]; [|apply Hearly].
    unfold bind at 1, lift at 1.
    destruct (iterate tool_calls_v) as [tool_calls|e]; [|apply Hearly].
    unfold bind at 1.
    destruct (for_each tool_calls (final_text, formatted_messages)
                (llama_tool_round functions) s1) as [[acc|e] s2] eqn:Hloop;
      apply (for_each_sends_rounds (llama_tool_round functions) (fun _ => 1)
               Client.llama_round_event (llama_tool_round_traffic functions)) in Hloop;
      rewrite sum_of_ones in Hloop;
      destruct Hloop as [new [Ht [Hs [Hc [Hm Hok]]]]].
    - unfold ret, lift. intros H. injection H as <- <-. exists new.
      split; [exact Ht|]. split; [exact Hs|]. split; [exact Hc|]. split; [exact Hm|].
      intros answer _. exact (Hok acc eq_refl).
    - intros H. injection H as <- <-. exists new.
      split; [exact Ht|]. split; [exact Hs|]. split; [exact Hc|].
      split; [exact Hm | discriminate]. }
  destruct Hgoal as [new [Ht [Hs [Hc [Hm Hok]]]]]. exists new.
  split; [rewrite Ht; simpl; now rewrite <- app_assoc|].
  split; [exact Hs|]. split; [exact Hc|]. split; [exact Hm | exact Hok].
Qed.

(** ** Failures of the first request: OpenAI and Llama *)

Lemma llama_functions_built (tools : list Client.tool) :
  exists functions,
    map_result Client.llama_function (map Client.tool_entry tools) = Ok functions.
Proof.
  induction tools as [|t tools [functions IH]]; simpl.
  - now exists [].
  - rewrite IH. eexists. reflexivity.
Qed.

Lemma llama_user_turn (query : string) :
  map_result Client.llama_message [[("role", VStr "user"); ("content", VStr query)]]
  = Ok [[("role", VStr "user"); ("content", VStr query)]].
Proof. reflexivity. Qed.

(** X23. A first request that fails is answered with a "Sorry" text and
    no tool result, and the query is done. The OpenAI adapter does so
    for every exception. The Llama adapter does so for a
    [RequestException] ("when connecting to Llama API"), for a
    [json.JSONDecodeError] that is no [RequestException] ("parsing the
    response from Llama API") and for a body that holds an [error]
    (answered with that error); an exception of any other class is not
    caught and leaves [process_query]. *)
Theorem openai_and_llama_failures_become_sorry_replies :
  (forall (e : exn) (query : string) (s : state) (tools : list Client.tool) (w1 w2 : W),
     list_tools (Client.world s) = (Ok tools, w1) ->
     (forall msgs tls, openai_create msgs tls w1 = (Raise e, w2)) ->
     exists request,
       process_query Client.OpenAI query s
       = (Ok ("Sorry, I encountered an error when connecting to OpenAI: " ++ exn_str e,
              VNone),
          Client.mkState w2 (Client.trace s ++ [Client.ListTools; request])
            [[("role", VStr "user"); ("content", VStr query)]])
       /\ Client.is_model_request request = true)
  /\ (forall (e : exn) (query : string) (s : state) (tools : list Client.tool) (w1 w2 : W),
        list_tools (Client.world s) = (Ok tools, w1) ->
        (forall payload, http_post Client.llama_url payload w1 = (Raise e, w2)) ->
        fst (process_query Client.Llama query s)
        = if is_RequestException e then
            Ok ("Sorry, I encountered an error when connecting to Llama API: "
                ++ exn_str e, VNone)
          else if is_JSONDecodeError e then
            Ok ("Sorry, I encountered an error parsing the response from Llama API: "
                ++ exn_str e, VNone)
          else Raise e)
  /\ (forall (data err : value) (query : string) (s : state) (tools : list Client.tool)
             (w1 w2 : W),
        list_tools (Client.world s) = (Ok tools, w1) ->
        (forall payload, http_post Client.llama_url payload w1 = (Ok data, w2)) ->
        contains_key "error" data = Ok true ->
        getitem data "error" = Ok err ->
        fst (process_query Client.Llama query s)
        = Ok ("Sorry, I encountered an error when connecting to Llama API: " ++ str err,
              VNone)).
Proof.
  split; [|split].
  - intros e query s tools w1 w2 Htools Hcreate.
    destruct (function_tools_ok tools) as [openai_tools Hot].
    rewrite process_query_steps, Htools.
    unfold Client.process_with_openai, bind at 1, lift at 1. rewrite Hot.
    unfold bind, try_except, Client.get_messages, Client.perform, ret.
    cbn [Client.world Client.trace Client.messages]. rewrite Hcreate.
    cbn [any_exception Client.messages Client.trace Client.world].
    eexists. rewrite <- app_assoc. split; reflexivity.
  - intros e query s tools w1 w2 Htools Hpost.
    destruct (llama_functions_built tools) as [functions Hf].
    rewrite process_query_steps, Htools.
    unfold Client.process_with_llama, bind at 1 2 3, lift at 1 2, Client.get_messages.
    rewrite Hf. cbn [Client.messages]. cbv beta iota. rewrite llama_user_turn.
    cbv beta iota.
    unfold bind at 1, Client.try_clauses, bind at 1, Client.do_post, Client.perform.
    cbn [Client.world]. rewrite Hpost. cbn [Client.first_handler].
    destruct (is_RequestException e); [reflexivity|].
    destruct (is_JSONDecodeError e); reflexivity.
  - intros data err query s tools w1 w2 Htools Hpost Herror Herr.
    destruct (llama_functions_built tools) as [functions Hf].
    rewrite process_query_steps, Htools.
    unfold Client.process_with_llama, bind at 1 2 3, lift at 1 2, Client.get_messages.
    rewrite Hf. cbn [Client.messages]. cbv beta iota. rewrite llama_user_turn.
    cbv beta iota.
    unfold bind at 1, Client.try_clauses, bind at 1, Client.do_post, Client.perform.
    cbn [Client.world]. rewrite Hpost.
    unfold bind, lift, ret. rewrite Herror, Herr. reflexivity.
Qed.

End Adapters.

(** ** The scripted runs *)

Lemma claude_runs_one_round_per_tool_use_block_witness :
  exists new,
    Client.trace (snd (Scripted.process_with_claude "alerts in CA" Scripted.claude_tool_use))
    = ([Client.ListTools]
       ++ Client.SdkRequest Client.Anthropic [Scripted.user_turn "alerts in CA"]
            (Some (map Client.tool_entry Scripted.weather_tools))
          :: new)%list
    /\ Client.count Client.is_tool_call new = 1
    /\ Client.count Client.is_model_request new = 1.
Proof.
  destruct (claude_runs_one_round_per_tool_use_block (B := Scripted.builtins)
              Scripted.script Scripted.call_tool Scripted.anthropic_create
              (map Client.tool_entry Scripted.weather_tools)
              (Scripted.asked "alerts in CA" Scripted.claude_tool_use)
              (snd (Scripted.process_with_claude "alerts in CA" Scripted.claude_tool_use))
              _ _
              (fst (Scripted.process_with_claude "alerts in CA" Scripted.claude_tool_use))
              eq_refl (surjective_pairing _))
    as [new [Ht [_ [_ [_ Hok]]]]].
  exists new. split; [exact Ht|]. exact (Hok _ eq_refl).
Defined.

Lemma claude_text_reply_is_joined_witness :
  fst (Scripted.process_with_claude "forecast" Scripted.claude_text_only)
  = Ok ("It is sunny." ++ nl ++ "Have a nice day.").
Proof.
  exact (f_equal fst
           (claude_text_reply_is_joined (B := Scripted.builtins)
              Scripted.script Scripted.call_tool Scripted.anthropic_create
              (map Client.tool_entry Scripted.weather_tools)
              (Scripted.asked "forecast" Scripted.claude_text_only) _ _ eq_refl eq_refl)).
Defined.

Lemma llama_runs_one_round_per_first_reply_tool_call_witness :
  exists payload new,
    Client.trace (snd (Scripted.process_with_llama "alerts in CA" Scripted.one_call))
    = ([Client.ListTools] ++ Client.Post Client.llama_url payload :: new)%list
    /\ Client.count Client.is_tool_call new = 1
    /\ Client.count Client.is_model_request new = 1.
Proof.
  destruct (llama_runs_one_round_per_first_reply_tool_call (B := Scripted.builtins)
              Scripted.script Scripted.call_tool Scripted.http_post
              (map Client.tool_entry Scripted.weather_tools) _ _
              (Scripted.asked "alerts in CA" Scripted.one_call)
              (snd (Scripted.process_with_llama "alerts in CA" Scripted.one_call))
              (Scripted.completion Scripted.asks_alerts) _
              (fst (Scripted.process_with_llama "alerts in CA" Scripted.one_call))
              eq_refl eq_refl eq_refl eq_refl (surjective_pairing _))
    as [new [Ht [_ [_ [_ Hok]]]]].
  eexists _, new. split; [exact Ht|]. exact (Hok _ eq_refl).
Defined.

Lemma openai_and_llama_failures_become_sorry_replies_witness :
  fst (Scripted.process_query Client.OpenAI "alerts in CA" Scripted.silent)
  = Ok ("Sorry, I encountered an error when connecting to OpenAI: script exhausted", VNone).
Proof.
  destruct (proj1 (openai_and_llama_failures_become_sorry_replies (B := Scripted.builtins)
                     Scripted.script Scripted.list_tools Scripted.call_tool
                     Scripted.anthropic_create Scripted.openai_create Scripted.http_post)
              Scripted.exhausted "alerts in CA" (Scripted.start Scripted.silent)
              Scripted.weather_tools Scripted.silent Scripted.silent
              eq_refl (fun _ _ => eq_refl))
    as [request [Hrun _]].
  exact (f_equal fst Hrun).
Defined.

End ProviderFacts.

(* ===================================================================== *)
(** * The loop over the tool calls, round by round *)
(* ===================================================================== *)

Module RoundFacts.

Import PyStr Py AdapterFacts ProviderFacts.
Local Open Scope py_scope.

(** ** Loops *)

Lemma for_each_app {S A X} (body : A -> X -> M S A) (pre post : list X) (acc : A) (s : S) :
  for_each (pre ++ post) acc body s
  = bind (for_each pre acc body) (fun acc1 => for_each post acc1 body) s.
Proof.
  revert acc s. induction pre as [|x pre IH]; intros acc s; simpl.
  - reflexivity.
  - unfold bind. destruct (body acc x s) as [[acc1|e] s1]; [|reflexivity].
    rewrite IH. reflexivity.
Qed.

(** A round that raises ends the loop: the items after it are not
    reached, and the exception leaves the loop with the state of the
    raise. *)
Lemma for_each_raises_at {S A X} (body : A -> X -> M S A) (pre post : list X) (x : X)
    (acc acc1 : A) (s s1 s2 : S) (e : exn) :
  for_each pre acc body s = (Ok acc1, s1) ->
  body acc1 x s1 = (Raise e, s2) ->
  for_each (pre ++ x :: post) acc body s = (Raise e, s2).
Proof.
  intros Hpre Hx. rewrite for_each_app. unfold bind at 1. rewrite Hpre.
  simpl. unfold bind. now rewrite Hx.
Qed.

Section Adapters.

Context {B : Builtins}.
Variable W : Type.
Variable list_tools : W -> result (list Client.tool) * W.
Variable call_tool : value -> value -> W -> result value * W.
Variable anthropic_create :
  list dict -> option (list dict) -> W -> result (list Client.block) * W.
Variable openai_create :
  list dict -> option (list dict) -> W -> result (list Client.oa_message) * W.
Variable http_post : string -> dict -> W -> result value * W.

#[local] Abbreviation state := (Client.state W).
#[local] Abbreviation process_query :=
  (Client.process_query W list_tools call_tool anthropic_create openai_create http_post).
#[local] Abbreviation chat_round :=
  (Client.chat_round W list_tools call_tool anthropic_create openai_create http_post).
#[local] Abbreviation claude_block := (Client.claude_block W call_tool anthropic_create).
#[local] Abbreviation process_with_claude :=
  (Client.process_with_claude W call_tool anthropic_create).
#[local] Abbreviation groq_tool_round := (Client.groq_tool_round W call_tool http_post).
#[local] Abbreviation groq_follow_up := (Client.groq_follow_up W http_post).
#[local] Abbreviation groq_request := (Client.groq_request W http_post).
#[local] Abbreviation process_with_groq := (Client.process_with_groq W call_tool http_post).
#[local] Abbreviation openai_tool_round := (Client.openai_tool_round W call_tool openai_create).
#[local] Abbreviation process_with_openai :=
  (Client.process_with_openai W call_tool openai_create).
#[local] Abbreviation llama_tool_round := (Client.llama_tool_round W call_tool http_post).
#[local] Abbreviation process_with_llama :=
  (Client.process_with_llama W call_tool http_post).
#[local] Abbreviation groq_round := (Client.groq_round W call_tool http_post).
#[local] Abbreviation openai_round := (Client.openai_round W call_tool openai_create).

(** A loop whose rounds are those of [round] is a chain of them. *)
Lemma for_each_rounds {X} (body : list value -> X -> M state (list value))
    (round : X -> state -> list value -> state -> list value -> Prop) :
  (forall x s text s1 text1,
     body text x s = (Ok text1, s1) <-> round x s text s1 text1) ->
  forall (items : list X) (s : state) (text : list value) (s' : state)
         (text' : list value),
    for_each items text body s = (Ok text', s')
    <-> Client.rounds round items s text s' text'.
Proof.
  intros Hround. induction items as [|x rest IH]; intros s text s' text'.
  - simpl. unfold ret. split.
    + intros H. injection H as <- <-. constructor.
    + intros H. inversion H; subst. reflexivity.
  - simpl. unfold bind. split.
    + destruct (body text x s) as [[text1|e] s1] eqn:Hx; [|discriminate].
      intros H. apply IH in H. apply Hround in Hx.
      now apply Client.rounds_next with (s1 := s1) (text1 := text1).
    + intros H. inversion H as [|x0 rest0 s0 s1 s0' t0 text1 t0' Hx Hrest]; subst.
      apply Hround in Hx. rewrite Hx. now apply IH.
Qed.

(** ** A round of the Groq adapter *)

(** The follow-up request, step by step. *)
Lemma groq_follow_up_steps (groq_tools : list dict) (st : state) :
  groq_follow_up groq_tools st
  = match Client.sanitize_messages (Client.messages st) with
    | Raise e => (Raise e, st)
    | Ok sanitized =>
        let payload := Client.groq_payload sanitized groq_tools in
        let (reply, w2) := http_post Client.groq_url payload (Client.world st) in
        match Client.groq_follow_up_reply reply with
        | Ok response_message =>
            (Ok (dict_get_default response_message "content" (VStr "")),
             Client.mkState w2 (Client.trace st ++ [Client.Post Client.groq_url payload])
               (Client.messages st ++ [Client.groq_follow_up_turn response_message]))
        | Raise e =>
            (Raise e,
             Client.mkState w2 (Client.trace st ++ [Client.Post Client.groq_url payload])
               (Client.messages st))
        end
    end.
Proof.
  unfold Client.groq_follow_up, Client.groq_request, bind, Client.get_messages, lift,
    Client.do_post, Client.perform.
  destruct (Client.sanitize_messages (Client.messages st)) as [sanitized|e];
    [|reflexivity].
  cbv zeta.
  destruct (http_post Client.groq_url _ (Client.world st)) as [[data|e] w2];
    [|reflexivity].
  unfold Client.groq_follow_up_reply.
  destruct (Client.first_message data) as [response_message|e]; [|reflexivity].
  destruct response_message as [| | | | | | m |]; try reflexivity.
  unfold get_method, Client.groq_follow_up_turn, Client.append_message.
  destruct (truthy (dict_get_default m "content" VNone)); reflexivity.
Qed.

(** What a round needs to get as far as the dispatch. *)
Lemma groq_tool_round_ends (groq_tools : list dict) (final_text final_text' : list value)
    (tool_call : value) (s s' : state) :
  groq_tool_round groq_tools final_text tool_call s = (Ok final_text', s') ->
  exists fn name raw args id content w1,
    getitem tool_call "function" = Ok fn
    /\ getitem fn "name" = Ok name
    /\ getitem fn "arguments" = Ok raw
    /\ Client.groq_arguments raw = Ok args
    /\ call_tool name args (Client.world s) = (Ok content, w1)
    /\ getitem tool_call "id" = Ok id.
Proof.
  unfold Client.groq_tool_round, bind at 1 2 3 4, lift.
  destruct (getitem tool_call "function") as [fn|e] eqn:Hfn; simpl; [|discriminate].
  destruct (getitem fn "name") as [name|e] eqn:Hname; simpl; [|discriminate].
  destruct (getitem fn "arguments") as [raw|e] eqn:Hraw; simpl; [|discriminate].
  destruct (Client.groq_arguments raw) as [args|e] eqn:Hargs; simpl; [|discriminate].
  unfold bind at 1, Client.do_call_tool, Client.perform.
  destruct (call_tool name args (Client.world s)) as [[content|e] w1] eqn:Hcall; simpl;
    [|discriminate].
  unfold bind at 1, lift.
  destruct (getitem tool_call "id") as [id|e] eqn:Hid; simpl; [|discriminate].
  intros _. now exists fn, name, raw, args, id, content, w1.
Qed.

Lemma groq_round_spec (groq_tools : list dict) (tool_call : value)
    (s : state) (text : list value) (s1 : state) (text1 : list value) :
  groq_tool_round groq_tools text tool_call s = (Ok text1, s1)
  <-> groq_round groq_tools tool_call s text s1 text1.
Proof.
  split.
  - intros Hrun.
    destruct (groq_tool_round_ends _ _ _ _ _ _ Hrun)
      as [fn [name [raw [args [id [content [w1 [Hfn [Hname [Hraw [Hargs [Hcall Hid]]]]]]]]]]]].
    exists fn, name, raw, args, id, content, w1.
    repeat (split; [assumption|]).
    rewrite (groq_tool_round_returns W call_tool http_post groq_tools text tool_call fn name
               raw args id content s w1 Hfn Hname Hraw Hargs Hid Hcall) in Hrun.
    rewrite groq_follow_up_steps in Hrun.
    unfold Client.after_tool_call in Hrun.
    cbn [Client.world Client.trace Client.messages] in Hrun. cbv zeta.
    destruct (Client.sanitize_messages _) as [sanitized|e].
    + cbv zeta in Hrun.
      destruct (http_post Client.groq_url _ w1) as [reply w2].
      exists reply, w2. split; [reflexivity|].
      destruct (Client.groq_follow_up_reply reply) as [m|e];
        injection Hrun as <- <-; rewrite <- !app_assoc; split; reflexivity.
    + injection Hrun as <- <-. split; reflexivity.
  - intros [fn [name [raw [args [id [content [w1
             [Hfn [Hname [Hraw [Hargs [Hcall [Hid Hrest]]]]]]]]]]]]].
    rewrite (groq_tool_round_returns W call_tool http_post groq_tools text tool_call fn name
               raw args id content s w1 Hfn Hname Hraw Hargs Hid Hcall).
    rewrite groq_follow_up_steps. unfold Client.after_tool_call.
    cbn [Client.world Client.trace Client.messages]. cbv zeta in Hrest.
    destruct (Client.sanitize_messages _) as [sanitized|e].
    + cbv zeta. destruct Hrest as [reply [w2 [Hpost Hrest]]]. rewrite Hpost.
      destruct (Client.groq_follow_up_reply reply) as [m|e];
        destruct Hrest as [-> ->]; rewrite <- !app_assoc; reflexivity.
    + destruct Hrest as [-> ->]. reflexivity.
Qed.

(** ** A round of the OpenAI adapter *)

Lemma openai_round_spec (tool_call : Client.oa_tool_call)
    (s : state) (text : list value) (s1 : state) (text1 : list value) :
  openai_tool_round text tool_call s = (Ok text1, s1)
  <-> openai_round tool_call s text s1 text1.
Proof.
  unfold Client.openai_round, Client.openai_tool_round, bind at 1, Client.do_call_tool,
    Client.perform.
  cbv zeta.
  destruct (call_tool _ _ (Client.world s)) as [[content|e] w1].
  2:{ split; [discriminate|]. intros [content [w1' [reply [w2 [H _]]]]]. discriminate. }
  unfold bind, Client.append_message, try_except, Client.get_messages, Client.perform,
    lift, ret.
  cbn [Client.world Client.trace Client.messages].
  fold (Client.openai_assistant_turn tool_call).
  fold (Client.openai_tool_turn tool_call content).
  rewrite <- !app_assoc. cbn [app].
  destruct (openai_create _ None w1) as [reply w2] eqn:Hcreate.
  split.
  - intros H. exists content, w1, reply, w2. split; [reflexivity|].
    split; [exact Hcreate|].
    unfold Client.openai_follow_up_item.
    destruct reply as [choices|e]; cbv beta iota in H;
      [destruct (Client.first_choice choices) as [m|e]; cbv beta iota in H|];
      injection H as <- <-; rewrite <- !app_assoc; split; reflexivity.
  - intros [content' [w1' [reply' [w2' [Hcall [Hc [-> ->]]]]]]].
    injection Hcall as <- <-. rewrite Hcreate in Hc. injection Hc as <- <-.
    unfold Client.openai_follow_up_item.
    destruct reply as [choices|e]; cbv beta iota;
      [destruct (Client.first_choice choices) as [m|e]; cbv beta iota|];
      rewrite <- !app_assoc; reflexivity.
Qed.


(** ** The loop of the two adapters *)

(** Whatever the first reply holds under [tool_calls] (a list, or
    nothing that counts), what the Groq adapter does next is the loop
    over those tool calls. *)
Lemma groq_loop (message : dict) (tool_calls : list value) (groq_tools : list dict)
    (s1 : state) :
  (dict_get_default message "tool_calls" VNone = VList tool_calls
   \/ (truthy (dict_get_default message "tool_calls" VNone) = false /\ tool_calls = [])) ->
  (if truthy (dict_get_default message "tool_calls" VNone)
   then bind (lift (iterate (dict_get_default message "tool_calls" VNone)))
          (fun tcs => for_each tcs (Client.first_text message) (groq_tool_round groq_tools))
   else ret (Client.first_text message)) s1
  = for_each tool_calls (Client.first_text message) (groq_tool_round groq_tools) s1.
Proof.
  intros [Hlist | [Hfalse ->]].
  - rewrite Hlist. destruct tool_calls as [|tc rest]; reflexivity.
  - now rewrite Hfalse.
Qed.

Lemma process_with_groq_loop (available_tools groq_tools : list dict)
    (s s1 : state) (data : value) (message : dict) (tool_calls : list value) :
  map_result Client.function_tool available_tools = Ok groq_tools ->
  groq_request groq_tools s = (Ok data, s1) ->
  Client.first_message data = Ok (VDict message) ->
  (dict_get_default message "tool_calls" VNone = VList tool_calls
   \/ (truthy (dict_get_default message "tool_calls" VNone) = false /\ tool_calls = [])) ->
  process_with_groq available_tools s
  = match for_each tool_calls (Client.first_text message) (groq_tool_round groq_tools) s1 with
    | (Ok final_text, s2) => (join_values nl final_text, s2)
    | (Raise e, s2) => (Raise e, s2)
    end.
Proof.
  intros Htools Hreq Hmsg Hcalls.
  rewrite (process_with_groq_after_first_reply W call_tool http_post
             _ _ _ _ _ _ Htools Hreq Hmsg).
  unfold bind at 1. rewrite (groq_loop message tool_calls groq_tools s1 Hcalls).
  reflexivity.
Qed.

Lemma process_with_openai_loop (available_tools openai_tools : list dict)
    (s : state) (w1 : W) (choices : list Client.oa_message) (message : Client.oa_message) :
  map_result Client.function_tool available_tools = Ok openai_tools ->
  openai_create (Client.messages s) (Some openai_tools) (Client.world s)
    = (Ok choices, w1) ->
  Client.first_choice choices = Ok message ->
  process_with_openai available_tools s
  = match for_each (Client.openai_tool_calls message) (Client.openai_first_text message)
            openai_tool_round
            (Client.mkState w1
               (Client.trace s
                ++ [Client.SdkRequest Client.OpenAI (Client.messages s) (Some openai_tools)])
               (Client.messages s))
    with
    | (Ok final_text, s2) => (join_values nl final_text, s2)
    | (Raise e, s2) => (Raise e, s2)
    end.
Proof.
  intros Htools Hcreate Hchoice.
  now rewrite (process_with_openai_after_first_reply W call_tool openai_create
                 _ _ _ _ _ _ Htools Hcreate Hchoice).
Qed.

(** The first request of the Groq adapter carries the sanitized log and
    leaves the log as it was. *)
Lemma groq_request_sent (groq_tools : list dict) (s s1 : state) (data : value) :
  groq_request groq_tools s = (Ok data, s1) ->
  exists sanitized,
    Client.sanitize_messages (Client.messages s) = Ok sanitized
    /\ Client.trace s1
       = (Client.trace s
          ++ [Client.Post Client.groq_url (Client.groq_payload sanitized groq_tools)])%list
    /\ Client.messages s1 = Client.messages s.
Proof.
  unfold Client.groq_request, bind, Client.get_messages, lift, Client.do_post,
    Client.perform.
  destruct (Client.sanitize_messages (Client.messages s)) as [sanitized|e];
    [|discriminate].
  destruct (http_post _ _ _) as [r w1]. intros H. injection H as -> <-.
  now exists sanitized.
Qed.

(** What a loop sends, whether it ends or raises. *)
Lemma loop_traffic (n : nat) (first : list value) (s1 s2 : state)
    (r : result (list value)) :
  Client.loop_effect n first s1 r s2 ->
  exists new,
    Client.trace s2 = (Client.trace s1 ++ new)%list
    /\ List.length new
       = Client.count Client.is_tool_call new + Client.count Client.is_model_request new
    /\ Client.count Client.is_tool_call new <= n
    /\ Client.count Client.is_model_request new <= n.
Proof.
  intros [new [Ht [Hl [Hc [Hm _]]]]]. now exists new.
Qed.

(** C1, as the code has it, for the Groq adapter and the OpenAI adapter.
    The adapter asks the provider once. When that first reply holds no
    tool calls the run is over: nothing more is sent and the answer is
    the reply's text. Otherwise the adapter goes once through the tool
    calls of the first reply, in the order received, and a run that
    returns is the chain of their rounds: in each round the tool is
    called, the assistant turn and the tool turn are appended (no user
    turn), the provider is asked once more with the log as it then
    stands (sanitized, with Groq), and the marker and the text of that
    follow-up reply, or "Error getting follow-up response: ...", are
    added to the text. The answer is the text of the first reply (when
    it has some) and what the rounds added, in order, joined by
    newlines. Tool calls of a follow-up reply are never executed: any
    run, returning or raising, sends nothing but tool dispatches and
    model requests after the first request, at most as many of each as
    the first reply held tool calls. *)
Theorem adapters_run_one_round_per_first_reply_tool_call :
  (forall (available_tools groq_tools : list dict) (s s1 s' : state) (data : value)
          (message : dict) (tool_calls : list value) (r : result string),
     map_result Client.function_tool available_tools = Ok groq_tools ->
     groq_request groq_tools s = (Ok data, s1) ->
     Client.first_message data = Ok (VDict message) ->
     (dict_get_default message "tool_calls" VNone = VList tool_calls
      \/ (truthy (dict_get_default message "tool_calls" VNone) = false
          /\ tool_calls = [])) ->
     process_with_groq available_tools s = (r, s') ->
     (exists sanitized,
        Client.sanitize_messages (Client.messages s) = Ok sanitized
        /\ Client.trace s1
           = (Client.trace s
              ++ [Client.Post Client.groq_url
                    (Client.groq_payload sanitized groq_tools)])%list
        /\ Client.messages s1 = Client.messages s)
     /\ (exists new,
           Client.trace s' = (Client.trace s1 ++ new)%list
           /\ List.length new
              = Client.count Client.is_tool_call new
                + Client.count Client.is_model_request new
           /\ Client.count Client.is_tool_call new <= List.length tool_calls
           /\ Client.count Client.is_model_request new <= List.length tool_calls)
     /\ (tool_calls = [] ->
         s' = s1 /\ r = join_values nl (Client.first_text message))
     /\ (forall answer,
           r = Ok answer ->
           exists text',
             Client.rounds (Client.groq_round W call_tool http_post groq_tools)
               tool_calls s1 (Client.first_text message) s' text'
             /\ join_values nl text' = Ok answer))
  /\ (forall (available_tools openai_tools : list dict) (s s' : state) (w1 : W)
             (choices : list Client.oa_message) (message : Client.oa_message)
             (r : result string),
        map_result Client.function_tool available_tools = Ok openai_tools ->
        openai_create (Client.messages s) (Some openai_tools) (Client.world s)
          = (Ok choices, w1) ->
        Client.first_choice choices = Ok message ->
        process_with_openai available_tools s = (r, s') ->
        let s1 :=
          Client.mkState w1
            (Client.trace s
             ++ [Client.SdkRequest Client.OpenAI (Client.messages s) (Some openai_tools)])
            (Client.messages s) in
        (exists new,
           Client.trace s' = (Client.trace s1 ++ new)%list
           /\ List.length new
              = Client.count Client.is_tool_call new
                + Client.count Client.is_model_request new
           /\ Client.count Client.is_tool_call new
              <= List.length (Client.openai_tool_calls message)
           /\ Client.count Client.is_model_request new
              <= List.length (Client.openai_tool_calls message))
        /\ (Client.openai_tool_calls message = [] ->
            s' = s1 /\ r = join_values nl (Client.openai_first_text message))
        /\ (forall answer,
              r = Ok answer ->
              exists text',
                Client.rounds (Client.openai_round W call_tool openai_create)
                  (Client.openai_tool_calls message) s1
                  (Client.openai_first_text message) s' text'
                /\ join_values nl text' = Ok answer)).
Proof.
  split.
  - intros available_tools groq_tools s s1 s' data message tool_calls r
      Htools Hreq Hmsg Hcalls Hrun.
    rewrite (process_with_groq_loop _ _ _ _ _ _ _ Htools Hreq Hmsg Hcalls) in Hrun.
    split; [exact (groq_request_sent _ _ _ _ Hreq)|].
    destruct (for_each tool_calls (Client.first_text message) (groq_tool_round groq_tools) s1)
      as [rl s2] eqn:Hloop.
    pose proof (for_each_loop_effect W (groq_tool_round groq_tools)
                  (fun ft x st rt st' =>
                     groq_tool_round_effect W call_tool http_post groq_tools ft x st st' rt)
                  tool_calls _ _ _ _ Hloop) as Heffect.
    apply loop_traffic in Heffect.
    assert (Hs : s' = s2) by (destruct rl; now injection Hrun).
    subst s2. split; [exact Heffect|]. split.
    + intros ->. simpl in Hloop. injection Hloop as <- <-.
      split; [reflexivity|]. now injection Hrun.
    + intros answer ->. destruct rl as [text'|e]; [|discriminate].
      injection Hrun as Hjoin. exists text'. split; [|exact Hjoin].
      now apply (for_each_rounds (groq_tool_round groq_tools) _
                   (groq_round_spec groq_tools)).
  - intros available_tools openai_tools s s' w1 choices message r
      Htools Hcreate Hchoice Hrun s1.
    rewrite (process_with_openai_loop _ _ _ _ _ _ Htools Hcreate Hchoice) in Hrun.
    fold s1 in Hrun.
    destruct (for_each (Client.openai_tool_calls message)
                (Client.openai_first_text message) openai_tool_round s1)
      as [rl s2] eqn:Hloop.
    pose proof (for_each_loop_effect W openai_tool_round
                  (fun ft x st rt st' =>
                     openai_tool_round_effect W call_tool openai_create ft x st st' rt)
                  _ _ _ _ _ Hloop) as Heffect.
    apply loop_traffic in Heffect.
    assert (Hs : s' = s2) by (destruct rl; now injection Hrun).
    subst s2. split; [exact Heffect|]. split.
    + intros Hnone. rewrite Hnone in Hloop. simpl in Hloop. injection Hloop as <- <-.
      split; [reflexivity|]. now injection Hrun.
    + intros answer ->. destruct rl as [text'|e]; [|discriminate].
      injection Hrun as Hjoin. exists text'. split; [|exact Hjoin].
      now apply (for_each_rounds openai_tool_round _ openai_round_spec).
Qed.

(** ** A tool call whose dispatch returns, adapter by adapter *)

Lemma groq_dispatch_returns (groq_tools : list dict) (final_text : list value)
    (tool_call fn name raw args id content : value) (s : state) (w1 : W) :
  getitem tool_call "function" = Ok fn ->
  getitem fn "name" = Ok name ->
  getitem fn "arguments" = Ok raw ->
  Client.groq_arguments raw = Ok args ->
  getitem tool_call "id" = Ok id ->
  call_tool name args (Client.world s) = (Ok content, w1) ->
  exists text new extra s',
    groq_tool_round groq_tools final_text tool_call s
    = (Ok (final_text ++ [VStr (Client.calling_marker name args); text])%list, s')
    /\ Client.trace s' = (Client.trace s ++ Client.ToolCall name args :: new)%list
    /\ Client.messages s'
       = (Client.messages s
          ++ [Client.groq_assistant_turn id name args;
              [("role", VStr "tool");
               ("content", VStr (Client.flatten_content content));
               ("tool_call_id", id)]]
          ++ extra)%list
    /\ Forall (fun m => Client.has_role "assistant" m = true) extra.
Proof.
  intros Hfn Hname Hraw Hargs Hid Hcall.
  rewrite (groq_tool_round_returns W call_tool http_post groq_tools final_text tool_call
             fn name raw args id content s w1 Hfn Hname Hraw Hargs Hid Hcall).
  destruct (groq_follow_up groq_tools (Client.after_tool_call s w1 id name args content))
    as [[text|e] s3] eqn:Hf;
    destruct (groq_follow_up_effect W http_post _ _ _ _ Hf)
      as [new [extra [Ht [_ [Hm Hextra]]]]];
    eexists _, new, extra, s3; (split; [reflexivity|]);
    (split; [rewrite Ht; unfold Client.after_tool_call; simpl; now rewrite <- app_assoc|]);
    (split; [|exact Hextra]);
    rewrite Hm; unfold Client.after_tool_call; simpl; now rewrite <- app_assoc.
Qed.

Lemma openai_dispatch_returns (final_text : list value) (tool_call : Client.oa_tool_call)
    (content : value) (s : state) (w1 : W) :
  call_tool (VStr (Client.tc_name tool_call)) (VStr (Client.tc_arguments tool_call))
    (Client.world s) = (Ok content, w1) ->
  exists text w2,
    openai_tool_round final_text tool_call s
    = (Ok (final_text
           ++ [VStr (Client.calling_marker (VStr (Client.tc_name tool_call))
                       (VStr (Client.tc_arguments tool_call)));
               text])%list,
       Client.mkState w2
         (Client.trace s
          ++ [Client.ToolCall (VStr (Client.tc_name tool_call))
                (VStr (Client.tc_arguments tool_call));
              Client.SdkRequest Client.OpenAI
                (Client.messages s
                 ++ [Client.openai_assistant_turn tool_call;
                     [("role", VStr "tool"); ("content", content);
                      ("tool_call_id", VStr (Client.tc_id tool_call))]]) None])
         (Client.messages s
          ++ [Client.openai_assistant_turn tool_call;
              [("role", VStr "tool"); ("content", content);
               ("tool_call_id", VStr (Client.tc_id tool_call))]])).
Proof.
  intros Hcall.
  destruct (openai_create
              (Client.messages s
               ++ [Client.openai_assistant_turn tool_call;
                   Client.openai_tool_turn tool_call content]) None w1)
    as [reply w2] eqn:Hcreate.
  exists (Client.openai_follow_up_item reply), w2.
  apply openai_round_spec. exists content, w1, reply, w2.
  split; [exact Hcall|]. split; [exact Hcreate|]. split; reflexivity.
Qed.

Lemma claude_dispatch_returns (final_text : list string) (name : string)
    (input : value) (text : option string) (content : value) (s : state) (w1 : W) :
  call_tool (VStr name) input (Client.world s) = (Ok content, w1) ->
  exists item before s',
    claude_block final_text (Client.ToolUseBlock name input text) s
    = (Ok (final_text ++ [Client.calling_marker (VStr name) input; item])%list, s')
    /\ Client.messages s'
       = (Client.messages s ++ before
          ++ [[("role", VStr "user"); ("content", content)]])%list
    /\ Forall (fun m => Client.has_role "assistant" m = true) before
    /\ Client.trace s'
       = (Client.trace s
          ++ [Client.ToolCall (VStr name) input;
              Client.SdkRequest Client.Anthropic (Client.messages s') None])%list.
Proof.
  intros Hcall.
  unfold Client.claude_block, Client.do_call_tool, Client.perform, bind.
  rewrite Hcall.
  unfold try_except, bind, Client.get_messages, Client.perform, Client.append_message,
    lift, ret.
  destruct text as [t|]; [destruct (negb (String.eqb t ""))|]; simpl;
    match goal with
    | |- context [anthropic_create ?m ?t ?w] =>
        destruct (anthropic_create m t w) as [[response|e] w2]; simpl;
        [destruct (Client.first_block_text response); simpl|]
    end;
    first [ eexists _, [[("role", VStr "assistant"); ("content", VStr t)]], _;
            split; [rewrite <- app_assoc; reflexivity|];
            cbn [Client.messages Client.trace];
            split; [rewrite <- ?app_assoc; reflexivity|];
            split; [repeat constructor | rewrite <- !app_assoc; reflexivity]
          | eexists _, [], _;
            split; [rewrite <- app_assoc; reflexivity|];
            cbn [Client.messages Client.trace];
            split; [reflexivity|];
            split; [constructor | rewrite <- !app_assoc; reflexivity] ].
Qed.

Lemma llama_dispatch_returns (functions : list dict) (final_text : list value)
    (formatted_messages : list dict) (tool_call fn name raw parsed id content : value)
    (s : state) (w1 : W) :
  getitem tool_call "function" = Ok fn ->
  getitem fn "name" = Ok name ->
  getitem fn "arguments" = Ok raw ->
  Client.loads_value raw = Ok parsed ->
  getitem tool_call "id" = Ok id ->
  call_tool name parsed (Client.world s) = (Ok content, w1) ->
  exists text w2,
    llama_tool_round functions (final_text, formatted_messages) tool_call s
    = (Ok ((final_text ++ [VStr (Client.calling_marker name raw); text])%list,
           (formatted_messages ++ Client.llama_round_turns id name raw content)%list),
       Client.mkState w2
         (Client.trace s
          ++ [Client.ToolCall name parsed;
              Client.Post Client.llama_url
                (Client.llama_payload
                   (formatted_messages ++ Client.llama_round_turns id name raw content)
                   functions)])
         (Client.messages s)).
Proof.
  intros Hfn Hname Hraw Hparsed Hid Hcall.
  unfold Client.llama_tool_round, bind at 1 2 3 4 5, lift.
  rewrite Hfn, Hname, Hraw, Hparsed.
  unfold Client.do_call_tool, Client.perform. rewrite Hcall.
  unfold bind at 1. rewrite Hid.
  unfold try_except, bind, Client.do_post, Client.perform, lift, ret.
  cbn [Client.world Client.trace Client.messages].
  fold (Client.llama_round_turns id name raw content).
  destruct (http_post _ _ w1) as [[response_data|e] w2];
    [destruct (Client.first_message response_data) as [assistant_message|e];
     [destruct (getitem assistant_message "content")|]|];
    simpl; eexists _, w2; rewrite <- !app_assoc; reflexivity.
Qed.

(** ** A tool call whose dispatch raises, adapter by adapter *)

Lemma openai_dispatch_raises (final_text : list value) (tool_call : Client.oa_tool_call)
    (s : state) (w1 : W) (e : exn) :
  call_tool (VStr (Client.tc_name tool_call)) (VStr (Client.tc_arguments tool_call))
    (Client.world s) = (Raise e, w1) ->
  openai_tool_round final_text tool_call s
  = (Raise e,
     Client.mkState w1
       (Client.trace s
        ++ [Client.ToolCall (VStr (Client.tc_name tool_call))
              (VStr (Client.tc_arguments tool_call))])
       (Client.messages s)).
Proof.
  intros Hcall.
  unfold Client.openai_tool_round, bind at 1, Client.do_call_tool, Client.perform.
  now rewrite Hcall.
Qed.

Lemma claude_dispatch_raises (final_text : list string) (name : string) (input : value)
    (text : option string) (s : state) (w1 : W) (e : exn) :
  call_tool (VStr name) input (Client.world s) = (Raise e, w1) ->
  claude_block final_text (Client.ToolUseBlock name input text) s
  = (Raise e,
     Client.mkState w1 (Client.trace s ++ [Client.ToolCall (VStr name) input])
       (Client.messages s)).
Proof.
  intros Hcall.
  unfold Client.claude_block, bind at 1, Client.do_call_tool, Client.perform.
  now rewrite Hcall.
Qed.

Lemma llama_dispatch_raises (functions : list dict) (acc : list value * list dict)
    (tool_call fn name raw parsed : value) (s : state) (w1 : W) (e : exn) :
  getitem tool_call "function" = Ok fn ->
  getitem fn "name" = Ok name ->
  getitem fn "arguments" = Ok raw ->
  Client.loads_value raw = Ok parsed ->
  call_tool name parsed (Client.world s) = (Raise e, w1) ->
  llama_tool_round functions acc tool_call s
  = (Raise e,
     Client.mkState w1 (Client.trace s ++ [Client.ToolCall name parsed])
       (Client.messages s)).
Proof.
  intros Hfn Hname Hraw Hparsed Hcall. destruct acc as [final_text formatted_messages].
  unfold Client.llama_tool_round, bind at 1 2 3 4 5, lift.
  rewrite Hfn, Hname, Hraw, Hparsed.
  unfold Client.do_call_tool, Client.perform. now rewrite Hcall.
Qed.

(** ** What a loop raises leaves the adapter *)

Lemma process_with_claude_loop (available_tools : list dict) (s : state)
    (content : list Client.block) (w1 : W) :
  anthropic_create (Client.messages s) (Some available_tools) (Client.world s)
    = (Ok content, w1) ->
  process_with_claude available_tools s
  = match for_each content [] claude_block
            (Client.mkState w1
               (Client.trace s
                ++ [Client.SdkRequest Client.Anthropic (Client.messages s)
                      (Some available_tools)])
               (Client.messages s))
    with
    | (Ok final_text, s2) => (Ok (join nl final_text), s2)
    | (Raise e, s2) => (Raise e, s2)
    end.
Proof.
  intros Hcreate.
  unfold Client.process_with_claude, bind at 1.
  unfold try_except, bind at 1 2, Client.get_messages, Client.perform, ret.
  rewrite Hcreate. reflexivity.
Qed.

(** A first reply of the Llama provider that holds tool calls is an
    object, and the adapter goes through them. *)
Lemma process_with_llama_loop (available_tools functions formatted_messages : list dict)
    (s : state) (data : value) (w1 : W) (tool_call : value) (rest : list value) :
  map_result Client.llama_function available_tools = Ok functions ->
  map_result Client.llama_message (Client.messages s) = Ok formatted_messages ->
  http_post Client.llama_url (Client.llama_payload formatted_messages functions)
    (Client.world s) = (Ok data, w1) ->
  contains_key "error" data = Ok false ->
  Client.llama_tool_calls data = tool_call :: rest ->
  process_with_llama available_tools s
  = match for_each (Client.llama_tool_calls data)
            (Client.llama_first_text data, formatted_messages)
            (llama_tool_round functions)
            (Client.mkState w1
               (Client.trace s
                ++ [Client.Post Client.llama_url
                      (Client.llama_payload formatted_messages functions)])
               (Client.messages s))
    with
    | (Ok acc, s2) => (join_values nl (fst acc), s2)
    | (Raise e, s2) => (Raise e, s2)
    end.
Proof.
  intros Htools Hmsgs Hpost Herror Hcalls.
  rewrite (llama_first_reply W call_tool http_post _ _ _ _ _ _ Htools Hmsgs Hpost Herror).
  revert Hcalls. unfold Client.llama_tool_calls, Client.llama_first_text.
  unfold bind at 1, lift at 1.
  destruct (Client.first_message data) as [assistant_message|e]; [|discriminate].
  destruct assistant_message as [| | | | t | l | d |]; try discriminate.
  - unfold Client.present_and_truthy at 1, contains_key, getitem.
    destruct (contains "tool_calls" t); discriminate.
  - unfold Client.present_and_truthy at 1, contains_key, getitem.
    destruct (existsb _ l); discriminate.
  - set (first := match Client.present_and_truthy (VDict d) "content" with
                  | Ok true => match getitem (VDict d) "content" with
                               | Ok c => [c]
                               | Raise _ => []
                               end
                  | _ => []
                  end) in *.
    destruct (Client.present_and_truthy (VDict d) "tool_calls") as [[|]|e] eqn:Hp;
      try discriminate.
    destruct (getitem (VDict d) "tool_calls") as [tool_calls_v|e] eqn:Hg;
      [|discriminate].
    destruct (iterate tool_calls_v) as [tool_calls|e] eqn:Hi; [|discriminate].
    intros _.
    assert (Hfirst : forall k : list value -> M state string,
              bind (lift (Client.present_and_truthy (VDict d) "content")) (fun has_content =>
                bind (if has_content
                      then bind (lift (getitem (VDict d) "content")) (fun c => ret [c])
                      else ret [] : M state (list value)) k)
              = k first).
    { intros k. subst first.
      unfold Client.present_and_truthy, contains_key, getitem, dict_has, bind, lift, ret.
      destruct (dict_get d "content") as [c|]; [|reflexivity].
      destruct (truthy c); reflexivity. }
    rewrite Hfirst.
    unfold bind, ret, lift. cbv beta iota. rewrite Hi.
    destruct (for_each tool_calls (first, formatted_messages) (llama_tool_round functions) _)
      as [[acc|e] s2]; reflexivity.
Qed.

Lemma groq_round_raises_anywhere (available_tools groq_tools : list dict)
    (s s1 s2 s3 : state) (data : value) (message : dict)
    (pre post : list value) (tool_call : value) (text2 : list value) (e : exn) :
  map_result Client.function_tool available_tools = Ok groq_tools ->
  groq_request groq_tools s = (Ok data, s1) ->
  Client.first_message data = Ok (VDict message) ->
  dict_get_default message "tool_calls" VNone = VList (pre ++ tool_call :: post) ->
  for_each pre (Client.first_text message) (groq_tool_round groq_tools) s1
    = (Ok text2, s2) ->
  groq_tool_round groq_tools text2 tool_call s2 = (Raise e, s3) ->
  process_with_groq available_tools s = (Raise e, s3).
Proof.
  intros Htools Hreq Hmsg Hcalls Hpre Hround.
  rewrite (process_with_groq_loop _ _ _ _ _ _ _ Htools Hreq Hmsg (or_introl Hcalls)).
  now rewrite (for_each_raises_at _ pre post tool_call _ _ _ _ _ _ Hpre Hround).
Qed.

Lemma openai_round_raises_anywhere (available_tools openai_tools : list dict)
    (s s2 s3 : state) (w1 : W) (choices : list Client.oa_message)
    (message : Client.oa_message) (pre post : list Client.oa_tool_call)
    (tool_call : Client.oa_tool_call) (text2 : list value) (e : exn) :
  map_result Client.function_tool available_tools = Ok openai_tools ->
  openai_create (Client.messages s) (Some openai_tools) (Client.world s)
    = (Ok choices, w1) ->
  Client.first_choice choices = Ok message ->
  Client.openai_tool_calls message = (pre ++ tool_call :: post)%list ->
  for_each pre (Client.openai_first_text message) openai_tool_round
    (Client.mkState w1
       (Client.trace s
        ++ [Client.SdkRequest Client.OpenAI (Client.messages s) (Some openai_tools)])
       (Client.messages s))
    = (Ok text2, s2) ->
  openai_tool_round text2 tool_call s2 = (Raise e, s3) ->
  process_with_openai available_tools s = (Raise e, s3).
Proof.
  intros Htools Hcreate Hchoice Hcalls Hpre Hround.
  rewrite (process_with_openai_loop _ _ _ _ _ _ Htools Hcreate Hchoice), Hcalls.
  now rewrite (for_each_raises_at _ pre post tool_call _ _ _ _ _ _ Hpre Hround).
Qed.

Lemma claude_block_raises_anywhere (available_tools : list dict) (s s2 s3 : state)
    (w1 : W) (pre post : list Client.block) (content : Client.block)
    (text2 : list string) (e : exn) :
  anthropic_create (Client.messages s) (Some available_tools) (Client.world s)
    = (Ok (pre ++ content :: post)%list, w1) ->
  for_each pre [] claude_block
    (Client.mkState w1
       (Client.trace s
        ++ [Client.SdkRequest Client.Anthropic (Client.messages s) (Some available_tools)])
       (Client.messages s))
    = (Ok text2, s2) ->
  claude_block text2 content s2 = (Raise e, s3) ->
  process_with_claude available_tools s = (Raise e, s3).
Proof.
  intros Hcreate Hpre Hround.
  rewrite (process_with_claude_loop _ _ _ _ Hcreate).
  now rewrite (for_each_raises_at _ pre post content _ _ _ _ _ _ Hpre Hround).
Qed.

Lemma llama_round_raises_anywhere (available_tools functions formatted_messages : list dict)
    (s s2 s3 : state) (data : value) (w1 : W) (pre post : list value)
    (tool_call : value) (acc2 : list value * list dict) (e : exn) :
  map_result Client.llama_function available_tools = Ok functions ->
  map_result Client.llama_message (Client.messages s) = Ok formatted_messages ->
  http_post Client.llama_url (Client.llama_payload formatted_messages functions)
    (Client.world s) = (Ok data, w1) ->
  contains_key "error" data = Ok false ->
  Client.llama_tool_calls data = (pre ++ tool_call :: post)%list ->
  for_each pre (Client.llama_first_text data, formatted_messages)
    (llama_tool_round functions)
    (Client.mkState w1
       (Client.trace s
        ++ [Client.Post Client.llama_url
              (Client.llama_payload formatted_messages functions)])
       (Client.messages s))
    = (Ok acc2, s2) ->
  llama_tool_round functions acc2 tool_call s2 = (Raise e, s3) ->
  process_with_llama available_tools s = (Raise e, s3).
Proof.
  intros Htools Hmsgs Hpost Herror Hcalls Hpre Hround.
  assert (Hsome : exists tc rest, Client.llama_tool_calls data = tc :: rest).
  { rewrite Hcalls. destruct pre as [|tc pre']; simpl; eauto. }
  destruct Hsome as [tc [rest Hsome]].
  rewrite (process_with_llama_loop _ _ _ _ _ _ _ _ Htools Hmsgs Hpost Herror Hsome), Hcalls.
  now rewrite (for_each_raises_at _ pre post tool_call _ _ _ _ _ _ Hpre Hround).
Qed.

(** ** What the adapter raises leaves the query *)

Lemma process_query_reraises (llm_provider : Client.provider) (query : string)
    (s s2 : state) (tools : list Client.tool) (w1 : W) (e : exn) :
  list_tools (Client.world s) = (Ok tools, w1) ->
  match llm_provider with
  | Client.Anthropic => process_with_claude (map Client.tool_entry tools)
  | Client.Llama => process_with_llama (map Client.tool_entry tools)
  | Client.Groq => process_with_groq (map Client.tool_entry tools)
  | Client.OpenAI => process_with_openai (map Client.tool_entry tools)
  end (Client.mkState w1 (Client.trace s ++ [Client.ListTools])
         [[("role", VStr "user"); ("content", VStr query)]])
  = (Raise e, s2) ->
  process_query llm_provider query s = (Raise e, s2).
Proof.
  intros Htools Hrun.
  rewrite (process_query_steps W list_tools call_tool anthropic_create openai_create
             http_post llm_provider query s), Htools.
  now rewrite Hrun.
Qed.

Lemma chat_round_error_line (llm_provider : Client.provider) (line : string)
    (s s2 : state) (e : exn) :
  String.eqb (lower (strip line)) "quit" = false ->
  process_query llm_provider (strip line) s = (Raise e, s2) ->
  chat_round llm_provider line s
  = (Client.ErrorLine (nl ++ "Error: " ++ exn_str e), s2).
Proof.
  intros Hquit Hrun. unfold Client.chat_round. rewrite Hquit.
  unfold bind at 1. now rewrite Hrun.
Qed.

(** C3, as the code has it. No adapter looks a tool name up in the tool
    list: the call is dispatched as the reply names it. When the
    dispatch returns (a result that describes an error included), the
    round goes on to the follow-up request and ends with the marker and
    one more item of text, so the loop continues; the result is recorded
    as each adapter does it: as a tool turn with the content flattened
    to text (Groq), as a tool turn with the content as it came (OpenAI),
    as a user turn (Anthropic), and not in the log at all (Llama, which
    puts its two turns into the messages of the follow-up request only).
    When the dispatch raises, the round stops there with no turn
    appended, the exception leaves the loop, the adapter and
    [process_query], whichever tool call of the first reply it was, and
    [chat_loop] prints it as an "Error:" line in place of an answer. *)
Theorem tool_result_is_recorded_and_dispatch_failure_ends_the_query :
  (* a dispatch that returns *)
  (forall (groq_tools : list dict) (final_text : list value)
          (tool_call fn name raw args id content : value) (s : state) (w1 : W),
     getitem tool_call "function" = Ok fn ->
     getitem fn "name" = Ok name ->
     getitem fn "arguments" = Ok raw ->
     Client.groq_arguments raw = Ok args ->
     getitem tool_call "id" = Ok id ->
     call_tool name args (Client.world s) = (Ok content, w1) ->
     exists text new extra s',
       groq_tool_round groq_tools final_text tool_call s
       = (Ok (final_text ++ [VStr (Client.calling_marker name args); text])%list, s')
       /\ Client.trace s' = (Client.trace s ++ Client.ToolCall name args :: new)%list
       /\ Client.messages s'
          = (Client.messages s
             ++ [Client.groq_assistant_turn id name args;
                 [("role", VStr "tool");
                  ("content", VStr (Client.flatten_content content));
                  ("tool_call_id", id)]]
             ++ extra)%list
       /\ Forall (fun m => Client.has_role "assistant" m = true) extra)
  /\ (forall (final_text : list value) (tool_call : Client.oa_tool_call)
             (content : value) (s : state) (w1 : W),
        call_tool (VStr (Client.tc_name tool_call)) (VStr (Client.tc_arguments tool_call))
          (Client.world s) = (Ok content, w1) ->
        exists text w2,
          openai_tool_round final_text tool_call s
          = (Ok (final_text
                 ++ [VStr (Client.calling_marker (VStr (Client.tc_name tool_call))
                             (VStr (Client.tc_arguments tool_call)));
                     text])%list,
             Client.mkState w2
               (Client.trace s
                ++ [Client.ToolCall (VStr (Client.tc_name tool_call))
                      (VStr (Client.tc_arguments tool_call));
                    Client.SdkRequest Client.OpenAI
                      (Client.messages s
                       ++ [Client.openai_assistant_turn tool_call;
                           [("role", VStr "tool"); ("content", content);
                            ("tool_call_id", VStr (Client.tc_id tool_call))]]) None])
               (Client.messages s
                ++ [Client.openai_assistant_turn tool_call;
                    [("role", VStr "tool"); ("content", content);
                     ("tool_call_id", VStr (Client.tc_id tool_call))]])))
  /\ (forall (final_text : list string) (name : string) (input : value)
             (text : option string) (content : value) (s : state) (w1 : W),
        call_tool (VStr name) input (Client.world s) = (Ok content, w1) ->
        exists item before s',
          claude_block final_text (Client.ToolUseBlock name input text) s
          = (Ok (final_text ++ [Client.calling_marker (VStr name) input; item])%list, s')
          /\ Client.messages s'
             = (Client.messages s ++ before
                ++ [[("role", VStr "user"); ("content", content)]])%list
          /\ Forall (fun m => Client.has_role "assistant" m = true) before
          /\ Client.trace s'
             = (Client.trace s
                ++ [Client.ToolCall (VStr name) input;
                    Client.SdkRequest Client.Anthropic (Client.messages s') None])%list)
  /\ (forall (functions : list dict) (final_text : list value)
             (formatted_messages : list dict)
             (tool_call fn name raw parsed id content : value) (s : state) (w1 : W),
        getitem tool_call "function" = Ok fn ->
        getitem fn "name" = Ok name ->
        getitem fn "arguments" = Ok raw ->
        Client.loads_value raw = Ok parsed ->
        getitem tool_call "id" = Ok id ->
        call_tool name parsed (Client.world s) = (Ok content, w1) ->
        exists text w2,
          llama_tool_round functions (final_text, formatted_messages) tool_call s
          = (Ok ((final_text ++ [VStr (Client.calling_marker name raw); text])%list,
                 (formatted_messages
                  ++ [[("role", VStr "assistant"); ("content", VNone);
                       ("tool_calls",
                         VList [VDict [("id", id); ("type", VStr "function");
                                       ("function",
                                         VDict [("name", name); ("arguments", raw)])]])];
                      [("role", VStr "tool"); ("content", content);
                       ("tool_call_id", id)]])%list),
             Client.mkState w2
               (Client.trace s
                ++ [Client.ToolCall name parsed;
                    Client.Post Client.llama_url
                      (Client.llama_payload
                         (formatted_messages
                          ++ Client.llama_round_turns id name raw content)
                         functions)])
               (Client.messages s)))
  (* a dispatch that raises, after any number of completed calls *)
  /\ (forall (available_tools groq_tools : list dict) (s s1 s2 : state) (data : value)
             (message : dict) (pre post : list value)
             (tool_call fn name raw args : value) (text2 : list value) (w3 : W) (e : exn),
        map_result Client.function_tool available_tools = Ok groq_tools ->
        groq_request groq_tools s = (Ok data, s1) ->
        Client.first_message data = Ok (VDict message) ->
        dict_get_default message "tool_calls" VNone = VList (pre ++ tool_call :: post) ->
        for_each pre (Client.first_text message) (groq_tool_round groq_tools) s1
          = (Ok text2, s2) ->
        getitem tool_call "function" = Ok fn ->
        getitem fn "name" = Ok name ->
        getitem fn "arguments" = Ok raw ->
        Client.groq_arguments raw = Ok args ->
        call_tool name args (Client.world s2) = (Raise e, w3) ->
        process_with_groq available_tools s
        = (Raise e,
           Client.mkState w3 (Client.trace s2 ++ [Client.ToolCall name args])
             (Client.messages s2)))
  /\ (forall (available_tools openai_tools : list dict) (s s2 : state) (w1 w3 : W)
             (choices : list Client.oa_message) (message : Client.oa_message)
             (pre post : list Client.oa_tool_call) (tool_call : Client.oa_tool_call)
             (text2 : list value) (e : exn),
        map_result Client.function_tool available_tools = Ok openai_tools ->
        openai_create (Client.messages s) (Some openai_tools) (Client.world s)
          = (Ok choices, w1) ->
        Client.first_choice choices = Ok message ->
        Client.openai_tool_calls message = (pre ++ tool_call :: post)%list ->
        for_each pre (Client.openai_first_text message) openai_tool_round
          (Client.mkState w1
             (Client.trace s
              ++ [Client.SdkRequest Client.OpenAI (Client.messages s) (Some openai_tools)])
             (Client.messages s))
          = (Ok text2, s2) ->
        call_tool (VStr (Client.tc_name tool_call)) (VStr (Client.tc_arguments tool_call))
          (Client.world s2) = (Raise e, w3) ->
        process_with_openai available_tools s
        = (Raise e,
           Client.mkState w3
             (Client.trace s2
              ++ [Client.ToolCall (VStr (Client.tc_name tool_call))
                    (VStr (Client.tc_arguments tool_call))])
             (Client.messages s2)))
  /\ (forall (available_tools : list dict) (s s2 : state) (w1 w3 : W)
             (pre post : list Client.block) (name : string) (input : value)
             (text : option string) (text2 : list string) (e : exn),
        anthropic_create (Client.messages s) (Some available_tools) (Client.world s)
          = (Ok (pre ++ Client.ToolUseBlock name input text :: post)%list, w1) ->
        for_each pre [] claude_block
          (Client.mkState w1
             (Client.trace s
              ++ [Client.SdkRequest Client.Anthropic (Client.messages s)
                    (Some available_tools)])
             (Client.messages s))
          = (Ok text2, s2) ->
        call_tool (VStr name) input (Client.world s2) = (Raise e, w3) ->
        process_with_claude available_tools s
        = (Raise e,
           Client.mkState w3 (Client.trace s2 ++ [Client.ToolCall (VStr name) input])
             (Client.messages s2)))
  /\ (forall (available_tools functions formatted_messages : list dict)
             (s s2 : state) (data : value) (w1 w3 : W) (pre post : list value)
             (tool_call fn name raw parsed : value) (acc2 : list value * list dict)
             (e : exn),
        map_result Client.llama_function available_tools = Ok functions ->
        map_result Client.llama_message (Client.messages s) = Ok formatted_messages ->
        http_post Client.llama_url (Client.llama_payload formatted_messages functions)
          (Client.world s) = (Ok data, w1) ->
        contains_key "error" data = Ok false ->
        Client.llama_tool_calls data = (pre ++ tool_call :: post)%list ->
        for_each pre (Client.llama_first_text data, formatted_messages)
          (llama_tool_round functions)
          (Client.mkState w1
             (Client.trace s
              ++ [Client.Post Client.llama_url
                    (Client.llama_payload formatted_messages functions)])
             (Client.messages s))
          = (Ok acc2, s2) ->
        getitem tool_call "function" = Ok fn ->
        getitem fn "name" = Ok name ->
        getitem fn "arguments" = Ok raw ->
        Client.loads_value raw = Ok parsed ->
        call_tool name parsed (Client.world s2) = (Raise e, w3) ->
        process_with_llama available_tools s
        = (Raise e,
           Client.mkState w3 (Client.trace s2 ++ [Client.ToolCall name parsed])
             (Client.messages s2)))
  (* what the adapter raises *)
  /\ (forall (llm_provider : Client.provider) (line : string) (s s2 : state)
             (tools : list Client.tool) (w1 : W) (e : exn),
        list_tools (Client.world s) = (Ok tools, w1) ->
        match llm_provider with
        | Client.Anthropic => process_with_claude (map Client.tool_entry tools)
        | Client.Llama => process_with_llama (map Client.tool_entry tools)
        | Client.Groq => process_with_groq (map Client.tool_entry tools)
        | Client.OpenAI => process_with_openai (map Client.tool_entry tools)
        end (Client.mkState w1 (Client.trace s ++ [Client.ListTools])
               [[("role", VStr "user"); ("content", VStr (strip line))]])
        = (Raise e, s2) ->
        process_query llm_provider (strip line) s = (Raise e, s2)
        /\ (String.eqb (lower (strip line)) "quit" = false ->
            chat_round llm_provider line s
            = (Client.ErrorLine (nl ++ "Error: " ++ exn_str e), s2))).
Proof.
  split; [exact groq_dispatch_returns|].
  split; [exact openai_dispatch_returns|].
  split; [exact claude_dispatch_returns|].
  split; [exact llama_dispatch_returns|].
  split.
  { intros available_tools groq_tools s s1 s2 data message pre post tool_call fn name raw
      args text2 w3 e Htools Hreq Hmsg Hcalls Hpre Hfn Hname Hraw Hargs Hcall.
    apply (groq_round_raises_anywhere _ _ _ _ _ _ _ _ _ _ _ _ _
             Htools Hreq Hmsg Hcalls Hpre).
    exact (groq_tool_round_raises W call_tool http_post groq_tools text2 tool_call fn name
             raw args s2 w3 e Hfn Hname Hraw Hargs Hcall). }
  split.
  { intros available_tools openai_tools s s2 w1 w3 choices message pre post tool_call
      text2 e Htools Hcreate Hchoice Hcalls Hpre Hcall.
    apply (openai_round_raises_anywhere _ _ _ _ _ _ _ _ _ _ _ _ _
             Htools Hcreate Hchoice Hcalls Hpre).
    now apply openai_dispatch_raises. }
  split.
  { intros available_tools s s2 w1 w3 pre post name input text text2 e Hcreate Hpre Hcall.
    apply (claude_block_raises_anywhere _ _ _ _ _ _ _ _ _ _ Hcreate Hpre).
    now apply claude_dispatch_raises. }
  split.
  { intros available_tools functions formatted_messages s s2 data w1 w3 pre post
      tool_call fn name raw parsed acc2 e Htools Hmsgs Hpost Herror Hcalls Hpre
      Hfn Hname Hraw Hparsed Hcall.
    apply (llama_round_raises_anywhere _ _ _ _ _ _ _ _ _ _ _ _ _
             Htools Hmsgs Hpost Herror Hcalls Hpre).
    exact (llama_dispatch_raises functions acc2 tool_call fn name raw parsed s2 w3 e
             Hfn Hname Hraw Hparsed Hcall). }
  intros llm_provider line s s2 tools w1 e Htools Hrun.
  pose proof (process_query_reraises llm_provider (strip line) s s2 tools w1 e Htools Hrun)
    as Hq.
  split; [exact Hq|]. intros Hquit. now apply chat_round_error_line.
Qed.

(** ** A follow-up request that fails *)

Lemma groq_follow_up_fails (groq_tools : list dict) (final_text : list value)
    (tool_call fn name raw args id content : value) (s : state) (w1 w2 : W)
    (sanitized : list dict) (e : exn) :
  getitem tool_call "function" = Ok fn ->
  getitem fn "name" = Ok name ->
  getitem fn "arguments" = Ok raw ->
  Client.groq_arguments raw = Ok args ->
  getitem tool_call "id" = Ok id ->
  call_tool name args (Client.world s) = (Ok content, w1) ->
  Client.sanitize_messages
    (Client.messages s
     ++ [Client.groq_assistant_turn id name args;
         Client.groq_tool_turn id (Client.flatten_content content)]) = Ok sanitized ->
  http_post Client.groq_url (Client.groq_payload sanitized groq_tools) w1 = (Raise e, w2) ->
  groq_tool_round groq_tools final_text tool_call s
  = (Ok (final_text
         ++ [VStr (Client.calling_marker name args);
             VStr ("Error getting follow-up response: " ++ exn_str e)%string])%list,
     Client.mkState w2
       (Client.trace s
        ++ [Client.ToolCall name args;
            Client.Post Client.groq_url (Client.groq_payload sanitized groq_tools)])
       (Client.messages s
        ++ [Client.groq_assistant_turn id name args;
            Client.groq_tool_turn id (Client.flatten_content content)])).
Proof.
  intros Hfn Hname Hraw Hargs Hid Hcall Hsan Hpost.
  apply groq_round_spec. exists fn, name, raw, args, id, content, w1.
  repeat (split; [assumption|]). cbv zeta. rewrite Hsan.
  exists (Raise e), w2. split; [exact Hpost|]. split; reflexivity.
Qed.

Lemma claude_follow_up_fails (final_text : list string) (name : string) (input : value)
    (text : option string) (content : value) (s : state) (w1 w2 : W) (e : exn) :
  call_tool (VStr name) input (Client.world s) = (Ok content, w1) ->
  (forall msgs, anthropic_create msgs None w1 = (Raise e, w2)) ->
  exists s',
    claude_block final_text (Client.ToolUseBlock name input text) s
    = (Ok (final_text
           ++ [Client.calling_marker (VStr name) input;
               ("Error getting follow-up response: " ++ exn_str e)%string])%list, s')
    /\ Client.world s' = w2.
Proof.
  intros Hcall Hcreate.
  unfold Client.claude_block, Client.do_call_tool, Client.perform, bind.
  rewrite Hcall.
  unfold try_except, bind, Client.get_messages, Client.perform, Client.append_message,
    lift, ret.
  destruct text as [t|]; [destruct (negb (String.eqb t ""))|]; simpl;
    rewrite Hcreate; simpl; eexists; rewrite <- app_assoc; split; reflexivity.
Qed.

(** C4, as the code has it. When the first request of a query fails in
    one of the four ways (transport error, refused status, empty body,
    body that is not JSON), the Groq adapter returns one text that
    starts with "Sorry, I encountered an error" and carries the
    failure's message; no tool is called, nothing is appended to the
    log, and the query is done after that single request:
    [process_query] returns the text with no tool result, and the
    presentation shows it. The Anthropic adapter does the same for any
    exception of its first request. A follow-up request that fails is
    answered otherwise: the tool was called and its turns stay in the
    log, and the round ends with the marker followed by "Error getting
    follow-up response: ..." and the failure's message, after whatever
    text was collected before; the loop then goes on to the next tool
    call. *)
Theorem first_request_failure_is_a_sorry_reply_and_follow_up_failure_an_error_text :
  (forall (f : Client.failure) (requests_json_error : bool) (msg query : string)
          (s : state) (tools : list Client.tool) (w1 w2 : W),
     list_tools (Client.world s) = (Ok tools, w1) ->
     (forall payload,
        http_post Client.groq_url payload w1
        = (Raise (Client.raised requests_json_error f msg), w2)) ->
     exists text payload,
       process_query Client.Groq query s
       = (Ok (text, VNone),
          Client.mkState w2
            (Client.trace s ++ [Client.ListTools; Client.Post Client.groq_url payload])
            [[("role", VStr "user"); ("content", VStr query)]])
       /\ startswith "Sorry, I encountered an error" text = true
       /\ contains msg text = true
       /\ Client.present text VNone = Ok (strip (Client.cleaned_of text)))
  /\ (forall (e : exn) (query : string) (s : state) (tools : list Client.tool)
             (w1 w2 : W),
        list_tools (Client.world s) = (Ok tools, w1) ->
        (forall msgs tls, anthropic_create msgs tls w1 = (Raise e, w2)) ->
        exists text request,
          process_query Client.Anthropic query s
          = (Ok (text, VNone),
             Client.mkState w2 (Client.trace s ++ [Client.ListTools; request])
               [[("role", VStr "user"); ("content", VStr query)]])
          /\ Client.is_model_request request = true
          /\ startswith "Sorry, I encountered an error" text = true
          /\ contains (exn_str e) text = true
          /\ Client.present text VNone = Ok (strip (Client.cleaned_of text)))
  /\ (forall (f : Client.failure) (requests_json_error : bool) (msg : string)
             (groq_tools : list dict) (final_text : list value)
             (tool_call fn name raw args id content : value) (s : state) (w1 w2 : W)
             (sanitized : list dict),
        getitem tool_call "function" = Ok fn ->
        getitem fn "name" = Ok name ->
        getitem fn "arguments" = Ok raw ->
        Client.groq_arguments raw = Ok args ->
        getitem tool_call "id" = Ok id ->
        call_tool name args (Client.world s) = (Ok content, w1) ->
        Client.sanitize_messages
          (Client.messages s
           ++ [Client.groq_assistant_turn id name args;
               Client.groq_tool_turn id (Client.flatten_content content)])
          = Ok sanitized ->
        http_post Client.groq_url (Client.groq_payload sanitized groq_tools) w1
          = (Raise (Client.raised requests_json_error f msg), w2) ->
        groq_tool_round groq_tools final_text tool_call s
        = (Ok (final_text
               ++ [VStr (Client.calling_marker name args);
                   VStr ("Error getting follow-up response: " ++ msg)%string])%list,
           Client.mkState w2
             (Client.trace s
              ++ [Client.ToolCall name args;
                  Client.Post Client.groq_url (Client.groq_payload sanitized groq_tools)])
             (Client.messages s
              ++ [Client.groq_assistant_turn id name args;
                  Client.groq_tool_turn id (Client.flatten_content content)])))
  /\ (forall (final_text : list string) (name : string) (input : value)
             (text : option string) (content : value) (s : state) (w1 w2 : W) (e : exn),
        call_tool (VStr name) input (Client.world s) = (Ok content, w1) ->
        (forall msgs, anthropic_create msgs None w1 = (Raise e, w2)) ->
        exists s',
          claude_block final_text (Client.ToolUseBlock name input text) s
          = (Ok (final_text
                 ++ [Client.calling_marker (VStr name) input;
                     ("Error getting follow-up response: " ++ exn_str e)%string])%list, s')
          /\ Client.world s' = w2).
Proof.
  split; [|split; [|split]].
  - intros f requests_json_error msg query s tools w1 w2 Htools Hpost.
    assert (Hclass : is_RequestException (Client.raised requests_json_error f msg)
                     || is_JSONDecodeError (Client.raised requests_json_error f msg)
                     = true)
      by (destruct f, requests_json_error; reflexivity).
    destruct (groq_first_request_fails W list_tools call_tool anthropic_create
                openai_create http_post query s tools w1 w2 _ Htools Hpost Hclass)
      as [payload Hrun].
    destruct (groq_sorry_text (Client.raised requests_json_error f msg)) as [Hs Hc].
    exists (Client.groq_sorry (Client.raised requests_json_error f msg)), payload.
    split; [exact Hrun|]. split; [exact Hs|]. split; [exact Hc|].
    apply present_without_tool_result.
  - intros e query s tools w1 w2 Htools Hcreate.
    destruct (sorry_text " when connecting to Claude: " (exn_str e)) as [Hs Hc].
    eexists (Client.claude_sorry e), _.
    split; [exact (claude_first_request_fails W list_tools call_tool anthropic_create
                     openai_create http_post query s tools w1 w2 e Htools Hcreate)|].
    split; [reflexivity|]. split; [exact Hs|]. split; [exact Hc|].
    apply present_without_tool_result.
  - intros f requests_json_error msg groq_tools final_text tool_call fn name raw args id
      content s w1 w2 sanitized Hfn Hname Hraw Hargs Hid Hcall Hsan Hpost.
    exact (groq_follow_up_fails groq_tools final_text tool_call fn name raw args id content
             s w1 w2 sanitized _ Hfn Hname Hraw Hargs Hid Hcall Hsan Hpost).
  - exact claude_follow_up_fails.
Qed.

(** ** Arguments that are no JSON *)

Lemma groq_unparsable_round (groq_tools : list dict) (final_text : list value)
    (tool_call fn name : value) (arguments : string) (s : state) (e : exn) :
  getitem tool_call "function" = Ok fn ->
  getitem fn "name" = Ok name ->
  getitem fn "arguments" = Ok (VStr arguments) ->
  json_loads arguments = Raise e ->
  groq_tool_round groq_tools final_text tool_call s = (Raise e, s).
Proof.
  intros Hfn Hname Hraw Hloads.
  unfold Client.groq_tool_round, bind at 1 2 3 4, lift.
  rewrite Hfn, Hname, Hraw. cbn [Client.groq_arguments]. now rewrite Hloads.
Qed.

(** X24. The Groq adapter parses the [arguments] of a tool call before
    it dispatches it. When they are a string that [json.loads] refuses,
    the exception is not caught: the round stops before the dispatch,
    with nothing sent and nothing appended, and the exception leaves the
    adapter, whichever tool call of the first reply it is. The tool
    calls before it were completed, and what they sent and appended
    stays; the failing call and the ones after it are never
    dispatched. *)
Theorem groq_unparsable_arguments_end_the_query :
  (forall (groq_tools : list dict) (final_text : list value)
          (tool_call fn name : value) (arguments : string) (s : state) (e : exn),
     getitem tool_call "function" = Ok fn ->
     getitem fn "name" = Ok name ->
     getitem fn "arguments" = Ok (VStr arguments) ->
     json_loads arguments = Raise e ->
     groq_tool_round groq_tools final_text tool_call s = (Raise e, s))
  /\ (forall (available_tools groq_tools : list dict) (s s1 s2 : state) (data : value)
             (message : dict) (pre post : list value) (tool_call fn name : value)
             (arguments : string) (text2 : list value) (e : exn),
        map_result Client.function_tool available_tools = Ok groq_tools ->
        groq_request groq_tools s = (Ok data, s1) ->
        Client.first_message data = Ok (VDict message) ->
        dict_get_default message "tool_calls" VNone = VList (pre ++ tool_call :: post) ->
        for_each pre (Client.first_text message) (groq_tool_round groq_tools) s1
          = (Ok text2, s2) ->
        getitem tool_call "function" = Ok fn ->
        getitem fn "name" = Ok name ->
        getitem fn "arguments" = Ok (VStr arguments) ->
        json_loads arguments = Raise e ->
        process_with_groq available_tools s = (Raise e, s2)).
Proof.
  split; [exact groq_unparsable_round|].
  intros available_tools groq_tools s s1 s2 data message pre post tool_call fn name
    arguments text2 e Htools Hreq Hmsg Hcalls Hpre Hfn Hname Hraw Hloads.
  apply (groq_round_raises_anywhere _ _ _ _ _ _ _ _ _ _ _ _ _
           Htools Hreq Hmsg Hcalls Hpre).
  now apply groq_unparsable_round with (fn := fn) (name := name) (arguments := arguments).
Qed.

(** ** A follow-up reply without text *)

Lemma strings_of_first_non_string (items : list value) :
  forall i : nat,
    match Client.first_non_string i items with
    | Some (j, v) => strings_of i items = Raise (Client.join_error j v)
    | None => exists l, strings_of i items = Ok l
    end.
Proof.
  induction items as [|v items IH]; intros i; simpl.
  - now exists [].
  - destruct v; try reflexivity.
    specialize (IH (S i)). destruct (Client.first_non_string (S i) items) as [[j v]|].
    + now rewrite IH.
    + destruct IH as [l ->]. eexists. reflexivity.
Qed.

Lemma join_values_first_non_string (sep : string) (items : list value) (i : nat)
    (v : value) :
  Client.first_non_string 0 items = Some (i, v) ->
  join_values sep items = Raise (Client.join_error i v).
Proof.
  intros H. unfold join_values.
  pose proof (strings_of_first_non_string items 0) as Hs. rewrite H in Hs.
  now rewrite Hs.
Qed.

(** An item that is no string is found, at its position or before. *)
Lemma first_non_string_found (before after : list value) (v : value) :
  Client.is_string (Some v) = false ->
  forall k : nat,
    exists i v',
      Client.first_non_string k (before ++ v :: after) = Some (i, v')
      /\ i <= k + List.length before.
Proof.
  intros Hv. induction before as [|x before IH]; intros k; simpl.
  - destruct v; try discriminate; eexists _, _; (split; [reflexivity | lia]).
  - destruct x; try (eexists _, _; split; [reflexivity | lia]).
    destruct (IH (S k)) as [i [v' [H Hle]]]. exists i, v'. split; [exact H | lia].
Qed.

(** The rounds only add to the text. *)
Lemma for_each_text_grows {X} (body : list value -> X -> M state (list value)) :
  (forall final_text x s r s',
     body final_text x s = (r, s') -> Client.round_effect final_text s r s') ->
  forall (items : list X) (text text' : list value) (s s' : state),
    for_each items text body s = (Ok text', s') ->
    exists more, text' = (text ++ more)%list.
Proof.
  intros Hbody items text text' s s' Hrun.
  destruct (for_each_loop_effect W body Hbody items text s s' _ Hrun)
    as [new [_ [_ [_ [_ Hok]]]]].
  destruct (Hok text' eq_refl) as [_ [rounds [_ [_ ->]]]]. eauto.
Qed.

Lemma groq_follow_up_without_text (groq_tools : list dict) (final_text : list value)
    (tool_call fn name raw args id content : value) (s : state) (w1 w2 : W)
    (sanitized : list dict) (data' : value) (message' : dict) :
  getitem tool_call "function" = Ok fn ->
  getitem fn "name" = Ok name ->
  getitem fn "arguments" = Ok raw ->
  Client.groq_arguments raw = Ok args ->
  getitem tool_call "id" = Ok id ->
  call_tool name args (Client.world s) = (Ok content, w1) ->
  Client.sanitize_messages
    (Client.messages s
     ++ [Client.groq_assistant_turn id name args;
         Client.groq_tool_turn id (Client.flatten_content content)]) = Ok sanitized ->
  http_post Client.groq_url (Client.groq_payload sanitized groq_tools) w1
    = (Ok data', w2) ->
  Client.first_message data' = Ok (VDict message') ->
  dict_get message' "content" = Some VNone ->
  groq_tool_round groq_tools final_text tool_call s
  = (Ok (final_text ++ [VStr (Client.calling_marker name args); VNone])%list,
     Client.mkState w2
       (Client.trace s
        ++ [Client.ToolCall name args;
            Client.Post Client.groq_url (Client.groq_payload sanitized groq_tools)])
       (Client.messages s
        ++ [Client.groq_assistant_turn id name args;
            Client.groq_tool_turn id (Client.flatten_content content);
            [("role", VStr "assistant")]])).
Proof.
  intros Hfn Hname Hraw Hargs Hid Hcall Hsan Hpost Hmsg Hcontent.
  apply groq_round_spec. exists fn, name, raw, args, id, content, w1.
  repeat (split; [assumption|]). cbv zeta. rewrite Hsan.
  exists (Ok data'), w2. split; [exact Hpost|].
  unfold Client.groq_follow_up_reply. rewrite Hmsg.
  unfold Client.groq_follow_up_turn, dict_get_default. rewrite Hcontent.
  cbn [truthy]. rewrite <- app_assoc. split; reflexivity.
Qed.

Lemma openai_follow_up_without_text (final_text : list value)
    (tool_call : Client.oa_tool_call) (content : value) (s : state) (w1 w2 : W)
    (choices' : list Client.oa_message) (message' : Client.oa_message) :
  call_tool (VStr (Client.tc_name tool_call)) (VStr (Client.tc_arguments tool_call))
    (Client.world s) = (Ok content, w1) ->
  openai_create
    (Client.messages s
     ++ [Client.openai_assistant_turn tool_call; Client.openai_tool_turn tool_call content])
    None w1 = (Ok choices', w2) ->
  Client.first_choice choices' = Ok message' ->
  Client.oa_content message' = None ->
  openai_tool_round final_text tool_call s
  = (Ok (final_text
         ++ [VStr (Client.calling_marker (VStr (Client.tc_name tool_call))
                     (VStr (Client.tc_arguments tool_call)));
             VNone])%list,
     Client.mkState w2
       (Client.trace s
        ++ [Client.ToolCall (VStr (Client.tc_name tool_call))
              (VStr (Client.tc_arguments tool_call));
            Client.SdkRequest Client.OpenAI
              (Client.messages s
               ++ [Client.openai_assistant_turn tool_call;
                   Client.openai_tool_turn tool_call content]) None])
       (Client.messages s
        ++ [Client.openai_assistant_turn tool_call;
            Client.openai_tool_turn tool_call content])).
Proof.
  intros Hcall Hcreate Hchoice Hcontent.
  apply openai_round_spec. exists content, w1, (Ok choices'), w2.
  split; [exact Hcall|]. split; [exact Hcreate|]. split; [reflexivity|].
  unfold Client.openai_follow_up_item. now rewrite Hchoice, Hcontent.
Qed.

(** X25. A follow-up reply whose [content] is null (as that of a reply
    that asks for a further tool call) is added to the collected text as
    [None]. The rounds after it only add to the text, so when all tool
    calls of the first reply have been executed the final join fails:
    the adapter raises [TypeError], "sequence item i: expected str
    instance, ... found", where item [i] is the first collected item
    that is no string, this [None] at the latest. The query ends with
    that exception although every tool was called and its result
    logged. This holds of the Groq adapter, which has by then also
    logged an assistant turn without content, and of the OpenAI
    adapter. *)
Theorem null_follow_up_content_fails_the_join :
  (forall (available_tools groq_tools : list dict) (s s1 s2 s' : state)
          (data data' : value) (message message' : dict) (pre post : list value)
          (tool_call fn name raw args id content : value) (w1 w2 : W)
          (sanitized : list dict) (text2 text' : list value),
     map_result Client.function_tool available_tools = Ok groq_tools ->
     groq_request groq_tools s = (Ok data, s1) ->
     Client.first_message data = Ok (VDict message) ->
     dict_get_default message "tool_calls" VNone = VList (pre ++ tool_call :: post) ->
     for_each pre (Client.first_text message) (groq_tool_round groq_tools) s1
       = (Ok text2, s2) ->
     getitem tool_call "function" = Ok fn ->
     getitem fn "name" = Ok name ->
     getitem fn "arguments" = Ok raw ->
     Client.groq_arguments raw = Ok args ->
     getitem tool_call "id" = Ok id ->
     call_tool name args (Client.world s2) = (Ok content, w1) ->
     Client.sanitize_messages
       (Client.messages s2
        ++ [Client.groq_assistant_turn id name args;
            Client.groq_tool_turn id (Client.flatten_content content)]) = Ok sanitized ->
     http_post Client.groq_url (Client.groq_payload sanitized groq_tools) w1
       = (Ok data', w2) ->
     Client.first_message data' = Ok (VDict message') ->
     dict_get message' "content" = Some VNone ->
     for_each post (text2 ++ [VStr (Client.calling_marker name args); VNone])%list
       (groq_tool_round groq_tools)
       (Client.mkState w2
          (Client.trace s2
           ++ [Client.ToolCall name args;
               Client.Post Client.groq_url (Client.groq_payload sanitized groq_tools)])
          (Client.messages s2
           ++ [Client.groq_assistant_turn id name args;
               Client.groq_tool_turn id (Client.flatten_content content);
               [("role", VStr "assistant")]])%list)
       = (Ok text', s') ->
     exists i v,
       Client.first_non_string 0 text' = Some (i, v)
       /\ i <= List.length text2 + 1
       /\ process_with_groq available_tools s
          = (Raise (mkExn TypeError
                      ("sequence item " ++ NilEmpty.string_of_uint (Nat.to_uint i)
                       ++ ": expected str instance, " ++ type_name v ++ " found")),
             s'))
  /\ (forall (available_tools openai_tools : list dict) (s s2 s' : state)
             (choices choices' : list Client.oa_message)
             (message message' : Client.oa_message)
             (pre post : list Client.oa_tool_call) (tool_call : Client.oa_tool_call)
             (content : value) (w0 w1 w2 : W) (text2 text' : list value),
        map_result Client.function_tool available_tools = Ok openai_tools ->
        openai_create (Client.messages s) (Some openai_tools) (Client.world s)
          = (Ok choices, w0) ->
        Client.first_choice choices = Ok message ->
        Client.openai_tool_calls message = (pre ++ tool_call :: post)%list ->
        for_each pre (Client.openai_first_text message) openai_tool_round
          (Client.mkState w0
             (Client.trace s
              ++ [Client.SdkRequest Client.OpenAI (Client.messages s) (Some openai_tools)])
             (Client.messages s))
          = (Ok text2, s2) ->
        call_tool (VStr (Client.tc_name tool_call)) (VStr (Client.tc_arguments tool_call))
          (Client.world s2) = (Ok content, w1) ->
        openai_create
          (Client.messages s2
           ++ [Client.openai_assistant_turn tool_call;
               Client.openai_tool_turn tool_call content])
          None w1 = (Ok choices', w2) ->
        Client.first_choice choices' = Ok message' ->
        Client.oa_content message' = None ->
        for_each post
          (text2
           ++ [VStr (Client.calling_marker (VStr (Client.tc_name tool_call))
                       (VStr (Client.tc_arguments tool_call)));
               VNone])%list
          openai_tool_round
          (Client.mkState w2
             (Client.trace s2
              ++ [Client.ToolCall (VStr (Client.tc_name tool_call))
                    (VStr (Client.tc_arguments tool_call));
                  Client.SdkRequest Client.OpenAI
                    (Client.messages s2
                     ++ [Client.openai_assistant_turn tool_call;
                         Client.openai_tool_turn tool_call content]) None])
             (Client.messages s2
              ++ [Client.openai_assistant_turn tool_call;
                  Client.openai_tool_turn tool_call content]))
          = (Ok text', s') ->
        exists i v,
          Client.first_non_string 0 text' = Some (i, v)
          /\ i <= List.length text2 + 1
          /\ process_with_openai available_tools s
             = (Raise (mkExn TypeError
                         ("sequence item " ++ NilEmpty.string_of_uint (Nat.to_uint i)
                          ++ ": expected str instance, " ++ type_name v ++ " found")),
                s')).
Proof.
  split.
  - intros available_tools groq_tools s s1 s2 s' data data' message message' pre post
      tool_call fn name raw args id content w1 w2 sanitized text2 text'
      Htools Hreq Hmsg Hcalls Hpre Hfn Hname Hraw Hargs Hid Hcall Hsan Hpost Hmsg'
      Hcontent Hrest.
    pose proof (groq_follow_up_without_text groq_tools text2 tool_call fn name raw args id
                  content s2 w1 w2 sanitized data' message'
                  Hfn Hname Hraw Hargs Hid Hcall Hsan Hpost Hmsg' Hcontent) as Hround.
    destruct (for_each_text_grows (groq_tool_round groq_tools)
                (fun ft x st rt st' =>
                   groq_tool_round_effect W call_tool http_post groq_tools ft x st st' rt)
                _ _ _ _ _ Hrest) as [more Hmore].
    assert (Hloop : for_each (pre ++ tool_call :: post) (Client.first_text message)
                      (groq_tool_round groq_tools) s1 = (Ok text', s')).
    { rewrite for_each_app. unfold bind at 1. rewrite Hpre. cbn [for_each].
      unfold bind at 1. rewrite Hround. exact Hrest. }
    destruct (first_non_string_found
                (text2 ++ [VStr (Client.calling_marker name args)]) more VNone eq_refl 0)
      as [i [v [Hfound Hle]]].
    rewrite <- !app_assoc in Hfound. cbn [app] in Hfound.
    rewrite <- app_assoc in Hmore. cbn [app] in Hmore. rewrite <- Hmore in Hfound.
    rewrite length_app in Hle. cbn [List.length] in Hle.
    exists i, v. split; [exact Hfound|]. split; [lia|].
    rewrite (process_with_groq_loop _ _ _ _ _ _ _ Htools Hreq Hmsg (or_introl Hcalls)).
    rewrite Hloop. now rewrite (join_values_first_non_string nl text' i v Hfound).
  - intros available_tools openai_tools s s2 s' choices choices' message message' pre post
      tool_call content w0 w1 w2 text2 text'
      Htools Hcreate Hchoice Hcalls Hpre Hcall Hcreate' Hchoice' Hcontent Hrest.
    pose proof (openai_follow_up_without_text text2 tool_call content s2 w1 w2 choices'
                  message' Hcall Hcreate' Hchoice' Hcontent) as Hround.
    destruct (for_each_text_grows openai_tool_round
                (fun ft x st rt st' =>
                   openai_tool_round_effect W call_tool openai_create ft x st st' rt)
                _ _ _ _ _ Hrest) as [more Hmore].
    assert (Hloop : for_each (pre ++ tool_call :: post) (Client.openai_first_text message)
                      openai_tool_round
                      (Client.mkState w0
                         (Client.trace s
                          ++ [Client.SdkRequest Client.OpenAI (Client.messages s)
                                (Some openai_tools)])
                         (Client.messages s))
                    = (Ok text', s')).
    { rewrite for_each_app. unfold bind at 1. rewrite Hpre. cbn [for_each].
      unfold bind at 1. rewrite Hround. exact Hrest. }
    destruct (first_non_string_found
                (text2
                 ++ [VStr (Client.calling_marker (VStr (Client.tc_name tool_call))
                             (VStr (Client.tc_arguments tool_call)))])
                more VNone eq_refl 0)
      as [i [v [Hfound Hle]]].
    rewrite <- !app_assoc in Hfound. cbn [app] in Hfound.
    rewrite <- app_assoc in Hmore. cbn [app] in Hmore. rewrite <- Hmore in Hfound.
    rewrite length_app in Hle. cbn [List.length] in Hle.
    exists i, v. split; [exact Hfound|]. split; [lia|].
    rewrite (process_with_openai_loop _ _ _ _ _ _ Htools Hcreate Hchoice), Hcalls.
    rewrite Hloop. now rewrite (join_values_first_non_string nl text' i v Hfound).
Qed.

End Adapters.

(** ** The scripted runs *)

(** A first reply with two tool calls: the run is the chain of their two
    rounds. *)
Lemma adapters_run_one_round_per_first_reply_tool_call_witness :
  exists text',
    Client.rounds
      (Client.groq_round (B := Scripted.builtins) Scripted.script Scripted.call_tool
         Scripted.http_post Scripted.groq_tools)
      [Scripted.alerts_call; Scripted.forecast_call]
      (snd (Client.groq_request (B := Scripted.builtins) Scripted.script
              Scripted.http_post Scripted.groq_tools
              (Scripted.asked "alerts and forecast" Scripted.two_calls)))
      []
      (snd (Scripted.process_with_groq "alerts and forecast" Scripted.two_calls))
      text'
    /\ join_values nl text'
       = Ok ("[Calling tool get_alerts with args {'state': 'CA'}]" ++ nl
             ++ "No alerts." ++ nl
             ++ "[Calling tool get_forecast with args {}]" ++ nl
             ++ "It is sunny.").
Proof.
  exact (proj2 (proj2 (proj2
           (proj1 (adapters_run_one_round_per_first_reply_tool_call
                     (B := Scripted.builtins) Scripted.script Scripted.call_tool
                     Scripted.openai_create Scripted.http_post)
              (map Client.tool_entry Scripted.weather_tools) Scripted.groq_tools
              (Scripted.asked "alerts and forecast" Scripted.two_calls)
              (snd (Client.groq_request (B := Scripted.builtins) Scripted.script
                      Scripted.http_post Scripted.groq_tools
                      (Scripted.asked "alerts and forecast" Scripted.two_calls)))
              (snd (Scripted.process_with_groq "alerts and forecast" Scripted.two_calls))
              (Scripted.completion
                 [("content", VNone);
                  ("tool_calls", VList [Scripted.alerts_call; Scripted.forecast_call])])
              [("content", VNone);
               ("tool_calls", VList [Scripted.alerts_call; Scripted.forecast_call])]
              [Scripted.alerts_call; Scripted.forecast_call]
              (fst (Scripted.process_with_groq "alerts and forecast" Scripted.two_calls))
              eq_refl eq_refl eq_refl (or_introl eq_refl) (surjective_pairing _))))
           _ eq_refl).
Defined.

(** The result of [get_alerts] is logged as a tool turn; the session
    breaks while the second tool is called, and the exception leaves the
    adapter with the turns of the first call in the log and none for the
    second. *)
Lemma tool_result_is_recorded_and_dispatch_failure_ends_the_query_witness :
  (exists extra,
     Client.messages
       (snd (Client.groq_tool_round (B := Scripted.builtins) Scripted.script
               Scripted.call_tool Scripted.http_post Scripted.groq_tools []
               Scripted.alerts_call
               (snd (Client.groq_request (B := Scripted.builtins) Scripted.script
                       Scripted.http_post Scripted.groq_tools
                       (Scripted.asked "alerts in CA" Scripted.one_call)))))
     = ([Scripted.user_turn "alerts in CA"]
        ++ [Client.groq_assistant_turn (VStr "call_1") (VStr "get_alerts")
              (VDict [("state", VStr "CA")]);
            [("role", VStr "tool"); ("content", VStr "No active alerts for this state.");
             ("tool_call_id", VStr "call_1")]]
        ++ extra)%list)
  /\ fst (Scripted.process_with_groq "alerts and forecast" Scripted.second_dispatch_fails)
     = Raise Scripted.connection_closed
  /\ Client.messages
       (snd (Scripted.process_with_groq "alerts and forecast"
               Scripted.second_dispatch_fails))
     = [ Scripted.user_turn "alerts and forecast";
         Client.groq_assistant_turn (VStr "call_1") (VStr "get_alerts")
           (VDict [("state", VStr "CA")]);
         Client.groq_tool_turn (VStr "call_1") "No active alerts for this state.";
         [("role", VStr "assistant"); ("content", VStr "No alerts.")] ].
Proof.
  pose proof (tool_result_is_recorded_and_dispatch_failure_ends_the_query
                (B := Scripted.builtins) Scripted.script Scripted.list_tools
                Scripted.call_tool Scripted.anthropic_create Scripted.openai_create
                Scripted.http_post) as H.
  destruct H as [Hreturns [_ [_ [_ [Hraises _]]]]].
  split.
  - destruct (Hreturns Scripted.groq_tools [] Scripted.alerts_call
                (VDict [("name", VStr "get_alerts");
                        ("arguments", VStr Scripted.state_CA_json)])
                (VStr "get_alerts") (VStr Scripted.state_CA_json)
                (VDict [("state", VStr "CA")]) (VStr "call_1")
                (Scripted.text_content Scripted.no_alerts_text)
                (snd (Client.groq_request (B := Scripted.builtins) Scripted.script
                        Scripted.http_post Scripted.groq_tools
                        (Scripted.asked "alerts in CA" Scripted.one_call)))
                _ eq_refl eq_refl eq_refl eq_refl eq_refl eq_refl)
      as [text [new [extra [s' [Hrun [_ [Hlog _]]]]]]].
    exists extra. rewrite Hrun. exact Hlog.
  - pose proof (Hraises (map Client.tool_entry Scripted.weather_tools) Scripted.groq_tools
                  (Scripted.asked "alerts and forecast" Scripted.second_dispatch_fails)
                  (snd (Client.groq_request (B := Scripted.builtins) Scripted.script
                          Scripted.http_post Scripted.groq_tools
                          (Scripted.asked "alerts and forecast"
                             Scripted.second_dispatch_fails)))
                  (snd (Client.groq_tool_round (B := Scripted.builtins) Scripted.script
                          Scripted.call_tool Scripted.http_post Scripted.groq_tools []
                          Scripted.alerts_call
                          (snd (Client.groq_request (B := Scripted.builtins)
                                  Scripted.script Scripted.http_post Scripted.groq_tools
                                  (Scripted.asked "alerts and forecast"
                                     Scripted.second_dispatch_fails)))))
                  (Scripted.completion (Scripted.asks_both Scripted.forecast_call))
                  (Scripted.asks_both Scripted.forecast_call)
                  [Scripted.alerts_call] [] Scripted.forecast_call
                  (VDict [("name", VStr "get_forecast"); ("arguments", VStr "{}")])
                  (VStr "get_forecast") (VStr "{}") (VDict [])
                  [VStr "[Calling tool get_alerts with args {'state': 'CA'}]";
                   VStr "No alerts."]
                  _ Scripted.connection_closed
                  eq_refl eq_refl eq_refl eq_refl eq_refl eq_refl eq_refl eq_refl eq_refl
                  eq_refl) as Hrun.
    split; [exact (f_equal fst Hrun)|].
    exact (f_equal (fun p => Client.messages (snd p)) Hrun).
Defined.

(** The body of the first reply is not JSON: one "Sorry" text. The body
    of the follow-up reply is not JSON: the round ends with the marker
    and the error text, after the text of the first reply. *)
Lemma first_request_failure_is_a_sorry_reply_and_follow_up_failure_an_error_text_witness :
  (exists text payload,
     Scripted.process_query Client.Groq "alerts in CA" Scripted.malformed_body
     = (Ok (text, VNone),
        Client.mkState (Scripted.mkScript Scripted.weather_tools [] [] [] [])
          [Client.ListTools; Client.Post Client.groq_url payload]
          [[("role", VStr "user"); ("content", VStr "alerts in CA")]])
     /\ startswith "Sorry, I encountered an error" text = true)
  /\ fst (Client.groq_tool_round (B := Scripted.builtins) Scripted.script
            Scripted.call_tool Scripted.http_post Scripted.groq_tools
            [VStr "Let me check the alerts."] Scripted.alerts_call
            (snd (Client.groq_request (B := Scripted.builtins) Scripted.script
                    Scripted.http_post Scripted.groq_tools
                    (Scripted.asked "alerts in CA" Scripted.malformed_follow_up))))
     = Ok [VStr "Let me check the alerts.";
           VStr "[Calling tool get_alerts with args {'state': 'CA'}]";
           VStr "Error getting follow-up response: Expecting value: line 1 column 1 (char 0)"].
Proof.
  pose proof (first_request_failure_is_a_sorry_reply_and_follow_up_failure_an_error_text
                (B := Scripted.builtins) Scripted.script Scripted.list_tools
                Scripted.call_tool Scripted.anthropic_create Scripted.openai_create
                Scripted.http_post) as H.
  destruct H as [Hfirst [_ [Hfollow _]]].
  split.
  - destruct (Hfirst Client.MalformedJSON true Scripted.not_json "alerts in CA"
                (Scripted.start Scripted.malformed_body) Scripted.weather_tools
                Scripted.malformed_body
                (Scripted.mkScript Scripted.weather_tools [] [] [] [])
                eq_refl (fun _ => eq_refl))
      as [text [payload [Hrun [Hsorry _]]]].
    exists text, payload. split; [exact Hrun | exact Hsorry].
  - exact (f_equal fst
             (Hfollow Client.MalformedJSON true Scripted.not_json Scripted.groq_tools
                [VStr "Let me check the alerts."] Scripted.alerts_call
                (VDict [("name", VStr "get_alerts");
                        ("arguments", VStr Scripted.state_CA_json)])
                (VStr "get_alerts") (VStr Scripted.state_CA_json)
                (VDict [("state", VStr "CA")]) (VStr "call_1")
                (Scripted.text_content Scripted.no_alerts_text)
                (snd (Client.groq_request (B := Scripted.builtins) Scripted.script
                        Scripted.http_post Scripted.groq_tools
                        (Scripted.asked "alerts in CA" Scripted.malformed_follow_up)))
                _ _ Scripted.alerts_log_sanitized
                eq_refl eq_refl eq_refl eq_refl eq_refl eq_refl eq_refl eq_refl)).
Defined.

(** C4 as stated fails. The first request succeeds and the tool is
    called; the body of the follow-up reply is not JSON. The answer has
    three segments, starts with the text of the first reply and not with
    "Sorry", and comes after a tool dispatch and two requests. *)
Lemma groq_follow_up_failure_is_no_sorry_reply :
  fst (Scripted.process_query Client.Groq "alerts in CA" Scripted.malformed_follow_up)
    = Ok ("Let me check the alerts." ++ nl
          ++ "[Calling tool get_alerts with args {'state': 'CA'}]" ++ nl
          ++ "Error getting follow-up response: Expecting value: line 1 column 1 (char 0)",
          VStr "No active alerts for this state.")
  /\ startswith "Sorry, I encountered an error"
       ("Let me check the alerts." ++ nl
        ++ "[Calling tool get_alerts with args {'state': 'CA'}]" ++ nl
        ++ "Error getting follow-up response: Expecting value: line 1 column 1 (char 0)")
     = false
  /\ Client.count Client.is_tool_call
       (Client.trace
          (snd (Scripted.process_query Client.Groq "alerts in CA"
                  Scripted.malformed_follow_up)))
     = 1
  /\ Client.count Client.is_model_request
       (Client.trace
          (snd (Scripted.process_query Client.Groq "alerts in CA"
                  Scripted.malformed_follow_up)))
     = 2.
Proof. repeat split; vm_compute; reflexivity. Qed.

(** The arguments of the second tool call are no JSON: the first tool
    was called and its turns are in the log, the second never is. *)
Lemma groq_unparsable_arguments_end_the_query_witness :
  fst (Scripted.process_with_groq "alerts and forecast" Scripted.second_unparsable)
    = Raise (mkExn JSONDecodeError "Expecting value: line 1 column 1 (char 0)")
  /\ Client.messages
       (snd (Scripted.process_with_groq "alerts and forecast" Scripted.second_unparsable))
     = [ Scripted.user_turn "alerts and forecast";
         Client.groq_assistant_turn (VStr "call_1") (VStr "get_alerts")
           (VDict [("state", VStr "CA")]);
         Client.groq_tool_turn (VStr "call_1") "No active alerts for this state.";
         [("role", VStr "assistant"); ("content", VStr "No alerts.")] ]
  /\ filter Client.is_tool_call
       (Client.trace
          (snd (Scripted.process_with_groq "alerts and forecast"
                  Scripted.second_unparsable)))
     = [Client.ToolCall (VStr "get_alerts") (VDict [("state", VStr "CA")])].
Proof.
  pose proof (proj2 (groq_unparsable_arguments_end_the_query (B := Scripted.builtins)
                       Scripted.script Scripted.call_tool Scripted.http_post)
                (map Client.tool_entry Scripted.weather_tools) Scripted.groq_tools
                (Scripted.asked "alerts and forecast" Scripted.second_unparsable)
                (snd (Client.groq_request (B := Scripted.builtins) Scripted.script
                        Scripted.http_post Scripted.groq_tools
                        (Scripted.asked "alerts and forecast" Scripted.second_unparsable)))
                (snd (Client.groq_tool_round (B := Scripted.builtins) Scripted.script
                        Scripted.call_tool Scripted.http_post Scripted.groq_tools []
                        Scripted.alerts_call
                        (snd (Client.groq_request (B := Scripted.builtins)
                                Scripted.script Scripted.http_post Scripted.groq_tools
                                (Scripted.asked "alerts and forecast"
                                   Scripted.second_unparsable)))))
                (Scripted.completion (Scripted.asks_both Scripted.broken_call))
                (Scripted.asks_both Scripted.broken_call)
                [Scripted.alerts_call] [] Scripted.broken_call
                (VDict [("name", VStr "get_forecast");
                        ("arguments", VStr Scripted.broken_arguments)])
                (VStr "get_forecast") Scripted.broken_arguments
                [VStr "[Calling tool get_alerts with args {'state': 'CA'}]";
                 VStr "No alerts."]
                (mkExn JSONDecodeError "Expecting value: line 1 column 1 (char 0)")
                eq_refl eq_refl eq_refl eq_refl eq_refl eq_refl eq_refl eq_refl eq_refl)
    as Hrun.
  split; [exact (f_equal fst Hrun)|]. split.
  - exact (f_equal (fun p => Client.messages (snd p)) Hrun).
  - exact (f_equal (fun p => filter Client.is_tool_call (Client.trace (snd p))) Hrun).
Defined.

(** The first reply has text, the follow-up reply has none: the join
    fails at item 2. *)
Lemma null_follow_up_content_fails_the_join_witness :
  fst (Scripted.process_with_groq "alerts in CA" Scripted.null_follow_up_after_text)
  = Raise (mkExn TypeError "sequence item 2: expected str instance, NoneType found").
Proof.
  destruct (proj1 (null_follow_up_content_fails_the_join (B := Scripted.builtins)
                     Scripted.script Scripted.call_tool Scripted.openai_create
                     Scripted.http_post)
              (map Client.tool_entry Scripted.weather_tools) Scripted.groq_tools
              (Scripted.asked "alerts in CA" Scripted.null_follow_up_after_text)
              (snd (Client.groq_request (B := Scripted.builtins) Scripted.script
                      Scripted.http_post Scripted.groq_tools
                      (Scripted.asked "alerts in CA" Scripted.null_follow_up_after_text)))
              (snd (Client.groq_request (B := Scripted.builtins) Scripted.script
                      Scripted.http_post Scripted.groq_tools
                      (Scripted.asked "alerts in CA" Scripted.null_follow_up_after_text)))
              (snd (Scripted.process_with_groq "alerts in CA"
                      Scripted.null_follow_up_after_text))
              (Scripted.completion Scripted.checks_alerts)
              (Scripted.completion
                 [("content", VNone); ("tool_calls", VList [Scripted.forecast_call])])
              Scripted.checks_alerts
              [("content", VNone); ("tool_calls", VList [Scripted.forecast_call])]
              [] [] Scripted.alerts_call
              (VDict [("name", VStr "get_alerts");
                      ("arguments", VStr Scripted.state_CA_json)])
              (VStr "get_alerts") (VStr Scripted.state_CA_json)
              (VDict [("state", VStr "CA")]) (VStr "call_1")
              (Scripted.text_content Scripted.no_alerts_text)
              _ _ Scripted.alerts_log_sanitized
              [VStr "Let me check the alerts."]
              [VStr "Let me check the alerts.";
               VStr "[Calling tool get_alerts with args {'state': 'CA'}]"; VNone]
              eq_refl eq_refl eq_refl eq_refl eq_refl eq_refl eq_refl eq_refl eq_refl
              eq_refl eq_refl eq_refl eq_refl eq_refl eq_refl eq_refl)
    as [i [v [Hfound [_ Hrun]]]].
  cbv in Hfound. injection Hfound as <- <-.
  exact (f_equal fst Hrun).
Defined.

End RoundFacts.

(* ===================================================================== *)
(** * The placeholder pattern of [chat_loop] *)
(* ===================================================================== *)

Module RegexFacts.

Import PyStr Py PyStrFacts Regex.

(** ** The matcher computes the meaning of a pattern *)

Lemma append_nil (s1 s2 : string) : s1 ++ s2 = "" -> s1 = "" /\ s2 = "".
Proof. destruct s1; simpl; [now split | discriminate]. Qed.

Lemma nullable_matches (r : regex) : nullable r = true <-> matches r "".
Proof.
  split.
  - induction r; simpl; intros H; try discriminate.
    + constructor.
    + apply andb_true_iff in H as [H1 H2].
      change "" with ("" ++ ""). constructor; auto.
    + apply orb_true_iff in H as [H | H]; [apply MAltL | apply MAltR]; auto.
    + constructor.
  - intros H. remember "" as s eqn:Es.
    induction H; simpl; try reflexivity; try discriminate.
    + apply append_nil in Es as [-> ->]. now rewrite IHmatches1, IHmatches2.
    + now rewrite IHmatches.
    + rewrite IHmatches by assumption. apply orb_true_r.
Qed.

Lemma deriv_matches (c : ascii) (r : regex) :
  forall s, matches (deriv c r) s -> matches r (String c s).
Proof.
  induction r; simpl; intros s H.
  - inversion H.
  - inversion H.
  - destruct (p c) eqn:Ep; inversion H; subst. now constructor.
  - assert (Hcat : matches (Cat (deriv c r1) r2) s -> matches (Cat r1 r2) (String c s)).
    { intros Hc. inversion Hc; subst.
      change (String c (s1 ++ s2)) with (String c s1 ++ s2). constructor; auto. }
    destruct (nullable r1) eqn:En; [|now apply Hcat].
    inversion H; subst; [now apply Hcat|].
    change (String c s) with ("" ++ String c s).
    constructor; [now apply nullable_matches | auto].
  - inversion H; subst; [apply MAltL | apply MAltR]; auto.
  - inversion H; subst.
    change (String c (s1 ++ s2)) with (String c s1 ++ s2). constructor; auto.
Qed.

Lemma matches_deriv (r : regex) (s0 : string) :
  matches r s0 -> forall c s, s0 = String c s -> matches (deriv c r) s.
Proof.
  induction 1 as [| p x Hp | r1 r2 s1 s2 H1 IH1 H2 IH2 | r1 r2 s0 H IH | r1 r2 s0 H IH
                 | r | r s1 s2 H1 IH1 H2 IH2]; intros c s Es; simpl.
  - discriminate.
  - injection Es as -> <-. rewrite Hp. constructor.
  - destruct s1 as [|c1 s1'].
    + simpl in Es. apply nullable_matches in H1. rewrite H1.
      apply MAltR. now apply IH2.
    + simpl in Es. injection Es as -> <-.
      assert (Hcat : matches (Cat (deriv c r1) r2) (s1' ++ s2))
        by (constructor; [now apply IH1 | assumption]).
      destruct (nullable r1); [now apply MAltL | exact Hcat].
  - apply MAltL. now apply IH.
  - apply MAltR. now apply IH.
  - discriminate.
  - destruct s1 as [|c1 s1'].
    + simpl in Es. now apply IH2.
    + simpl in Es. injection Es as -> <-. constructor; [now apply IH1 | assumption].
Qed.

Lemma fullmatch_matches (r : regex) (s : string) : fullmatch r s = true <-> matches r s.
Proof.
  revert r. induction s as [|c s IH]; intros r; simpl.
  - apply nullable_matches.
  - rewrite IH. split; [apply deriv_matches|].
    intros H. now apply (matches_deriv r (String c s) H).
Qed.

(** ** The pieces of the pattern *)

Lemma lower_append (a b : string) : lower (a ++ b) = lower a ++ lower b.
Proof. induction a as [|c a IH]; simpl; [reflexivity | now rewrite IH]. Qed.

Lemma matches_lit_ci (l s : string) : matches (lit_ci l) s <-> lower s = lower l.
Proof.
  revert s. induction l as [|x l IH]; intros s; simpl.
  - split.
    + intros H. inversion H. reflexivity.
    + destruct s; [constructor | discriminate].
  - split.
    + intros H. inversion H as [| | r1 r2 s1 s2 H1 H2 | | | |]; subst.
      inversion H1 as [|p c Hc| | | | |]; subst. simpl.
      apply Ascii.eqb_eq in Hc. rewrite Hc. f_equal. now apply IH.
    + destruct s as [|c s]; simpl; [discriminate|].
      intros H. injection H as Hc Hs.
      change (String c s) with (String c "" ++ s).
      constructor; [constructor; now apply Ascii.eqb_eq | now apply IH].
Qed.

Lemma matches_any (s : string) : matches (Star any) s.
Proof.
  induction s as [|c s IH]; [constructor|].
  change (String c s) with (String c "" ++ s). constructor; [now constructor | exact IH].
Qed.

Lemma matches_spaces (s : string) : matches (Star (Chr is_space)) s <-> all_space s = true.
Proof.
  split.
  - intros H. remember (Star (Chr is_space)) as r eqn:Er.
    induction H as [| | | | | r0 | r0 s1 s2 H1 _ H2 IH2]; try discriminate; [reflexivity|].
    injection Er as ->. inversion H1 as [|p c Hc| | | | |]; subst. simpl.
    now rewrite Hc, IH2.
  - induction s as [|c s IH]; simpl; [constructor|].
    intros H. apply andb_true_iff in H as [Hc Hs].
    change (String c s) with (String c "" ++ s).
    constructor; [now constructor | now apply IH].
Qed.

Lemma matches_dollar (s : string) : matches dollar s <-> s = "" \/ s = nl.
Proof.
  unfold dollar, opt. split.
  - intros H. inversion H as [| | | r1 r2 s0 Hl | r1 r2 s0 Hr | |]; subst.
    + inversion Hl as [|p c Hc| | | | |]; subst. right. apply Nat.eqb_eq in Hc.
      unfold nl, chr. rewrite <- Hc. unfold ord. now rewrite ascii_nat_embedding.
    + inversion Hr. now left.
  - intros [-> | ->]; [apply MAltR; constructor | apply MAltL; now constructor].
Qed.

Lemma matches_slash (s : string) : matches (opt (lit_ci "/")) s <-> s = "" \/ s = "/".
Proof.
  unfold opt. split.
  - intros H. inversion H as [| | | r1 r2 s0 Hl | r1 r2 s0 Hr | |]; subst.
    + apply (proj1 (matches_lit_ci "/" s)) in Hl. right.
      destruct s as [|c [|d s]]; try discriminate. simpl in Hl. injection Hl as Hc.
      f_equal. revert Hc. destruct c as [[] [] [] [] [] [] [] []]; vm_compute;
        intros Hc; solve [reflexivity | discriminate].
    + inversion Hr. now left.
  - intros [-> | ->]; [apply MAltR; constructor | apply MAltL; now apply matches_lit_ci].
Qed.

Lemma matches_gt (s : string) : matches (lit_ci ">") s <-> s = ">".
Proof.
  rewrite matches_lit_ci. split; [|now intros ->].
  destruct s as [|c [|d s]]; try discriminate. simpl. intros H. injection H as Hc.
  f_equal. revert Hc. destruct c as [[] [] [] [] [] [] [] []]; vm_compute;
    intros Hc; solve [reflexivity | discriminate].
Qed.

Lemma matches_cat (r1 r2 : regex) (s : string) :
  matches (Cat r1 r2) s
  <-> exists s1 s2, s = s1 ++ s2 /\ matches r1 s1 /\ matches r2 s2.
Proof.
  split.
  - intros H. inversion H as [| | r1' r2' s1 s2 H1 H2 | | | |]; subst.
    now exists s1, s2.
  - intros [s1 [s2 [-> [H1 H2]]]]. now constructor.
Qed.

Lemma matches_alt (r1 r2 : regex) (s : string) :
  matches (Alt r1 r2) s <-> matches r1 s \/ matches r2 s.
Proof.
  split.
  - intros H. inversion H; subst; [now left | now right].
  - intros [H | H]; [now apply MAltL | now apply MAltR].
Qed.

(** The two kinds of text the pattern matches. *)
Lemma tool_use_pattern_matches :
  forall text : string,
    re_match tool_use_pattern text = true
    <-> exists opening rest ending,
          text = opening ++ rest ++ ending
          /\ lower opening = "<tool-use"
          /\ (ending = "" \/ ending = nl)
          /\ ((exists attributes body closing,
                 rest = attributes ++ ">" ++ body ++ closing
                 /\ lower closing = "</tool-use>")
              \/ (exists spaces slash,
                    rest = spaces ++ slash ++ ">"
                    /\ all_space spaces = true
                    /\ (slash = "" \/ slash = "/"))).
Proof.
  intros text. unfold re_match. rewrite fullmatch_matches. unfold tool_use_pattern.
  split.
  - intros H. apply matches_alt in H as [H | H].
    + apply matches_cat in H as [opening [s1 [-> [Ho H]]]].
      apply matches_cat in H as [attributes [s2 [-> [_ H]]]].
      apply matches_cat in H as [gt [s3 [-> [Hg H]]]].
      apply matches_cat in H as [body [s4 [-> [_ H]]]].
      apply matches_cat in H as [closing [ending [-> [Hc He]]]].
      apply (proj1 (matches_lit_ci _ _)) in Ho, Hc.
      apply (proj1 (matches_gt _)) in Hg. subst gt.
      apply (proj1 (matches_dollar _)) in He.
      exists opening, (attributes ++ ">" ++ body ++ closing), ending.
      split; [now rewrite !append_assoc|]. split; [exact Ho|]. split; [exact He|].
      left. now exists attributes, body, closing.
    + apply matches_cat in H as [opening [s1 [-> [Ho H]]]].
      apply matches_cat in H as [spaces [s2 [-> [Hs H]]]].
      apply matches_cat in H as [slash [s3 [-> [Hsl H]]]].
      apply matches_cat in H as [gt [ending [-> [Hg He]]]].
      apply (proj1 (matches_lit_ci _ _)) in Ho.
      apply (proj1 (matches_gt _)) in Hg. subst gt.
      apply (proj1 (matches_dollar _)) in He.
      apply (proj1 (matches_spaces _)) in Hs.
      apply (proj1 (matches_slash _)) in Hsl.
      exists opening, (spaces ++ slash ++ ">"), ending.
      split; [now rewrite !append_assoc|]. split; [exact Ho|]. split; [exact He|].
      right. now exists spaces, slash.
  - intros [opening [rest [ending [-> [Ho [He Hrest]]]]]].
    destruct Hrest as [[attributes [body [closing [-> Hc]]]] | [spaces [slash [-> [Hs Hsl]]]]].
    + apply MAltL. rewrite !append_assoc.
      constructor; [now apply matches_lit_ci|].
      constructor; [apply matches_any|].
      constructor; [now apply matches_gt|].
      constructor; [apply matches_any|].
      constructor; [now apply matches_lit_ci | now apply matches_dollar].
    + apply MAltR. rewrite !append_assoc.
      constructor; [now apply matches_lit_ci|].
      constructor; [now apply matches_spaces|].
      constructor; [now apply matches_slash|].
      constructor; [now apply matches_gt | now apply matches_dollar].
Qed.

(** X26. What [chat_loop] takes for a placeholder, to be replaced by
    the tool result, among the texts of code points below 256: a text
    whose stripped lower-case form is empty, or is a tool-use tag. The
    pattern matches exactly two kinds of tag: "<tool-use", anything,
    ">", anything, "</tool-use>"; and "<tool-use", white space, an
    optional "/", ">"; each in any letter case and with at most one
    newline after it. No other text of that range is replaced. *)
Theorem placeholder_is_blank_or_a_tool_use_tag :
  forall cleaned : string,
    Client.is_placeholder cleaned = true
    <-> lower (strip cleaned) = ""
        \/ exists opening rest ending,
             lower (strip cleaned) = opening ++ rest ++ ending
             /\ lower opening = "<tool-use"
             /\ (ending = "" \/ ending = nl)
             /\ ((exists attributes body closing,
                    rest = attributes ++ ">" ++ body ++ closing
                    /\ lower closing = "</tool-use>")
                 \/ (exists spaces slash,
                       rest = spaces ++ slash ++ ">"
                       /\ all_space spaces = true
                       /\ (slash = "" \/ slash = "/"))).
Proof.
  intros cleaned. unfold Client.is_placeholder.
  rewrite orb_true_iff, String.eqb_eq, tool_use_pattern_matches. reflexivity.
Qed.

End RegexFacts.
